(** * Bootstrap script of claude-project-best-practices

    A shallow embedding of [core/scripts/bootstrap.py]: the class
    [ProjectBootstrap] and the function [main], over a model of the
    file system, the remote repository and standard input.

    Conventions of the embedding.
    - A Python [str] is a [string], one character per code point (code
      points below 256).  [str.split], [str.join], [str.replace], [in] and
      [str.strip] are defined below; [str.title], [str.lower] and [int]
      depend on the Unicode tables and are parameters of the development.
    - A [pathlib.Path] is the list of its components below the root; the
      script only builds absolute paths (everything is joined onto
      [Path.cwd()]).
    - Every method that performs I/O is a computation in the monad [M]:
      it takes the state of the world and returns either a value or a
      raised exception, together with the new state.  The world records
      every call that leaves the process (directory creation, download,
      file write, chmod, prompt) in [trace], in the order of the calls.
    - The file system has directories and regular files only: no
      symbolic links, no permission checks.  Every statement below about
      where something is written is a statement about such a file system.
    - A download may fail before or after the destination file was
      opened; in the second case the file is left with the part of the
      body that had arrived.
    - [print] has no influence on control flow and is left out. *)

From Stdlib Require Import ZArith String Ascii List Lia Bool.
From stdpp Require Import gmap strings list fin_maps.

Import ListNotations.
Open Scope string_scope.
Open Scope list_scope.

(** ** Python string methods *)

Module PyStr.

Definition LF : ascii := ascii_of_nat 10.
Definition CR : ascii := ascii_of_nat 13.
Definition nl : string := String LF EmptyString.

Definition startswith (p s : string) : bool := String.prefix p s.

  (** [sub in s] *)
Fixpoint contains (sub s : string) : bool :=
    startswith sub s ||
    match s with
    | EmptyString => false
    | String _ s' => contains sub s'
    end.

  (** [s.split(sep)] for a non-empty [sep]: occurrences are found from the
      left and do not overlap.  [skip] counts the characters of a matched
      separator that are still to be dropped, [cur] is the piece being
      collected. *)
Fixpoint split_go (sep : string) (skip : nat) (cur s : string) : list string :=
    match s with
    | EmptyString => [cur]
    | String c s' =>
        match skip with
        | S k => split_go sep k cur s'
        | O =>
            if startswith sep s
            then cur :: split_go sep (String.length sep - 1) EmptyString s'
            else split_go sep 0 (cur +:+ String c EmptyString) s'
        end
    end.

Definition split (sep s : string) : list string := split_go sep 0 EmptyString s.

  (** [sep.join(l)] *)
Fixpoint join (sep : string) (l : list string) : string :=
    match l with
    | [] => EmptyString
    | [x] => x
    | x :: rest => x +:+ sep +:+ join sep rest
    end.

  (** [s.replace(old, new)] for a non-empty [old]: one pass from the left,
      the text put in is not scanned again. *)
Fixpoint replace_go (old new : string) (skip : nat) (s : string) : string :=
    match s with
    | EmptyString => EmptyString
    | String c s' =>
        match skip with
        | S k => replace_go old new k s'
        | O =>
            if startswith old s
            then new +:+ replace_go old new (String.length old - 1) s'
            else String c (replace_go old new 0 s')
        end
    end.

Definition replace (old new s : string) : string := replace_go old new 0 s.

  (** The characters for which [str.isspace] holds, among code points
      below 256. *)
Definition isspace (c : ascii) : bool :=
    let n := nat_of_ascii c in
    (((9 <=? n) && (n <=? 13)) || ((28 <=? n) && (n <=? 32))
     || (n =? 133) || (n =? 160))%nat.

Fixpoint lstrip (s : string) : string :=
    match s with
    | EmptyString => EmptyString
    | String c s' => if isspace c then lstrip s' else s
    end.

  (** Strips the right end: a character is dropped when it is a space and
      everything after it has been dropped. *)
Fixpoint rstrip (s : string) : string :=
    match s with
    | EmptyString => EmptyString
    | String c s' =>
        match rstrip s' with
        | EmptyString => if isspace c then EmptyString else String c EmptyString
        | r => String c r
        end
    end.

Definition strip (s : string) : string := rstrip (lstrip s).

  (** Truth value of a string: [s or d]. *)
Definition or_else (s d : string) : string :=
    match s with EmptyString => d | _ => s end.

Definition eqb (a b : string) : bool := String.eqb a b.

Definition endswith (suf s : string) : bool :=
    startswith (String.rev suf) (String.rev s).

  (** What reading a file in text mode does to line ends (universal
      newlines): CR LF and a lone CR both become LF. *)
Fixpoint universal_newlines (s : string) : string :=
    match s with
    | EmptyString => EmptyString
    | String c s' =>
        if Ascii.eqb c CR then
          match s' with
          | String c' _ =>
              if Ascii.eqb c' LF then universal_newlines s'
              else String LF (universal_newlines s')
          | EmptyString => String LF EmptyString
          end
        else String c (universal_newlines s')
    end.

  (** Instances of the three parameters for ASCII text, used to run the
      model on concrete inputs. *)
Definition is_upper (c : ascii) : bool :=
    let n := nat_of_ascii c in ((65 <=? n) && (n <=? 90))%nat.
Definition is_lower (c : ascii) : bool :=
    let n := nat_of_ascii c in ((97 <=? n) && (n <=? 122))%nat.
Definition to_lower (c : ascii) : ascii :=
    if is_upper c then ascii_of_nat (nat_of_ascii c + 32) else c.
Definition to_upper (c : ascii) : ascii :=
    if is_lower c then ascii_of_nat (nat_of_ascii c - 32) else c.

Fixpoint ascii_lower (s : string) : string :=
    match s with
    | EmptyString => EmptyString
    | String c s' => String (to_lower c) (ascii_lower s')
    end.

Fixpoint title_go (prev_cased : bool) (s : string) : string :=
    match s with
    | EmptyString => EmptyString
    | String c s' =>
        let cased := is_upper c || is_lower c in
        String (if prev_cased then to_lower c else to_upper c) (title_go cased s')
    end.
Definition ascii_title (s : string) : string := title_go false s.

Fixpoint digits_go (acc : Z) (s : string) : option Z :=
    match s with
    | EmptyString => Some acc
    | String c s' =>
        let n := nat_of_ascii c in
        if ((48 <=? n) && (n <=? 57))%nat
        then digits_go (10 * acc + Z.of_nat (n - 48)) s'
        else None
    end.
  (** Decimal literals with an optional sign, blanks around them allowed. *)
Definition ascii_int (s : string) : option Z :=
    match strip s with
    | EmptyString => None
    | String c s' =>
        if Ascii.eqb c "-" then
          match s' with EmptyString => None | _ => Z.opp <$> digits_go 0 s' end
        else if Ascii.eqb c "+" then
          match s' with EmptyString => None | _ => digits_go 0 s' end
        else digits_go 0 (String c s')
    end.

End PyStr.


(** ** Paths ([pathlib.PurePosixPath], absolute) *)

Abbreviation Path := (list string) (only parsing).

Module PyPath.

  (** Components of a path string: empty components and [.] are dropped,
      [..] is kept, as pathlib does. *)
Definition parts (s : string) : list string :=
    List.filter (fun c => negb (PyStr.eqb c "") && negb (PyStr.eqb c "."))
                (PyStr.split "/" s).

  (** [p / s]: an absolute right operand replaces the left one. *)
Definition joinpath (p : Path) (s : string) : Path :=
    if PyStr.startswith "/" s then parts s else p ++ parts s.

Definition parent (p : Path) : Path := removelast p.

Definition name (p : Path) : string := List.last p "".

End PyPath.

Infix "</>" := PyPath.joinpath (at level 40, left associativity).

(** ** Exceptions and results *)

Inductive exn :=
| FileNotFoundError | FileExistsError | NotADirectoryError | IsADirectoryError
| URLError | AttributeError | TypeError | ValueError | EOFError.

Inductive outcome (A : Type) :=
| Ok (a : A)
| Raise (e : exn).
Arguments Ok {A} a.
Arguments Raise {A} e.

(** ** File system *)

Inductive node :=
| File (data : string) (mode : Z)
| Dir (mode : Z).

Module FS.

  (** A file system maps the location of every file and directory (its
      components below the root, without [..]) to its node.  The root is
      always a directory and is not stored.  There are no symbolic links
      (so a path names the place its components spell out) and no
      permission checks; the umask is 022. *)
Abbreviation t := (gmap (list string) node) (only parsing).

Definition node_at (fs : t) (loc : list string) : option node :=
    match loc with
    | [] => Some (Dir 493)
    | _ => fs !! loc
    end.

Definition is_dir_at (fs : t) (loc : list string) : bool :=
    match node_at fs loc with Some (Dir _) => true | _ => false end.

Definition exists_at (fs : t) (loc : list string) : bool :=
    match node_at fs loc with Some _ => true | None => false end.

  (** Walks the components of a path from the location [cur]: going
      through a component needs the current location to be a directory;
      the last component need not exist. *)
Fixpoint resolve (fs : t) (cur : list string) (cs : list string)
    : outcome (list string) :=
    match cs with
    | [] => Ok cur
    | c :: cs' =>
        if is_dir_at fs cur
        then resolve fs (if PyStr.eqb c ".." then removelast cur else cur ++ [c]) cs'
        else Raise (if exists_at fs cur then NotADirectoryError else FileNotFoundError)
    end.

Definition locate (fs : t) (p : Path) : outcome (list string) := resolve fs [] p.

  (** [Path.exists()] and [Path.is_dir()] *)
Definition path_exists (fs : t) (p : Path) : bool :=
    match locate fs p with Ok loc => exists_at fs loc | Raise _ => false end.

Definition path_is_dir (fs : t) (p : Path) : bool :=
    match locate fs p with Ok loc => is_dir_at fs loc | Raise _ => false end.

  (** [os.mkdir(p)] *)
Definition os_mkdir (p : Path) (fs : t) : outcome t :=
    match locate fs p with
    | Raise e => Raise e
    | Ok loc => if exists_at fs loc then Raise FileExistsError
                else Ok (<[loc := Dir 493]> fs)
    end.

  (** [Path.mkdir(parents=False, exist_ok=exist_ok)] *)
Definition mkdir_here (exist_ok : bool) (p : Path) (fs : t) : outcome t :=
    match os_mkdir p fs with
    | Ok fs' => Ok fs'
    | Raise FileNotFoundError => Raise FileNotFoundError
    | Raise e => if exist_ok && path_is_dir fs p then Ok fs else Raise e
    end.

  (** [Path.mkdir(parents=True, exist_ok=exist_ok)], by recursion on the
      reversed components: on [FileNotFoundError] the parent is made first
      (with [parents=True, exist_ok=True]) and the directory is retried
      without [parents]. *)
Fixpoint mkdir_parents_rev (exist_ok : bool) (rp : list string) (fs : t) : outcome t :=
    match os_mkdir (rev rp) fs with
    | Ok fs' => Ok fs'
    | Raise FileNotFoundError =>
        match rp with
        | [] => Raise FileNotFoundError
        | _ :: rp' =>
            match mkdir_parents_rev true rp' fs with
            | Ok fs1 => mkdir_here exist_ok (rev rp) fs1
            | Raise e => Raise e
            end
        end
    | Raise e => if exist_ok && path_is_dir fs (rev rp) then Ok fs else Raise e
    end.

Definition mkdir (parents exist_ok : bool) (p : Path) (fs : t) : outcome t :=
    if parents then mkdir_parents_rev exist_ok (rev p) fs
    else mkdir_here exist_ok p fs.

  (** Opening [p] for writing and storing [data]: a new file gets mode
      0o644, an existing one keeps its mode. *)
Definition write_file (p : Path) (data : string) (fs : t) : outcome t :=
    match locate fs p with
    | Raise e => Raise e
    | Ok loc =>
        match node_at fs loc with
        | Some (Dir _) => Raise IsADirectoryError
        | Some (File _ m) => Ok (<[loc := File data m]> fs)
        | None => Ok (<[loc := File data 420]> fs)
        end
    end.

  (** The stored characters of a file. *)
Definition read_file (p : Path) (fs : t) : outcome string :=
    match locate fs p with
    | Raise e => Raise e
    | Ok loc =>
        match node_at fs loc with
        | Some (File d _) => Ok d
        | Some (Dir _) => Raise IsADirectoryError
        | None => Raise FileNotFoundError
        end
    end.

  (** [Path.read_text()]: text mode translates line ends. *)
Definition read_text (p : Path) (fs : t) : outcome string :=
    match read_file p fs with
    | Ok d => Ok (PyStr.universal_newlines d)
    | Raise e => Raise e
    end.

  (** [Path.chmod(mode)]; the mode of the root is not tracked. *)
Definition chmod (p : Path) (mode : Z) (fs : t) : outcome t :=
    match locate fs p with
    | Raise e => Raise e
    | Ok loc =>
        match loc, node_at fs loc with
        | [], _ => Ok fs
        | _, Some (File d _) => Ok (<[loc := File d mode]> fs)
        | _, Some (Dir _) => Ok (<[loc := Dir mode]> fs)
        | _, None => Raise FileNotFoundError
        end
    end.

Definition is_child (dir loc : list string) : bool :=
    match loc with
    | [] => false
    | _ => bool_decide (removelast loc = dir)
    end.

  (** [dir.glob("*.py")]: the entries of [dir] whose name ends in [.py],
      as paths below [dir]; nothing when [dir] is not a directory. *)
Definition glob_py (dir : Path) (fs : t) : list Path :=
    match locate fs dir with
    | Raise _ => []
    | Ok loc =>
        if is_dir_at fs loc then
          List.map (fun k => dir ++ [List.last k ""])
            (List.filter (fun k => is_child loc k && PyStr.endswith ".py" (List.last k ""))
                         (List.map fst (map_to_list fs)))
        else []
    end.

End FS.

(** ** Decoded JSON *)

#[local] Unset Elimination Schemes.
Inductive json :=
| JNull
| JBool (b : bool)
| JNum (n : Z)
| JStr (s : string)
| JArr (items : list json)
| JObj (members : list (string * json)).
#[local] Set Elimination Schemes.

Module Json.

  (** Truth value of the Python object; a float behaves like an integer
      with the same sign, only zero is false. *)
Definition truthy (j : json) : bool :=
    match j with
    | JNull => false
    | JBool b => b
    | JNum n => negb (n =? 0)%Z
    | JStr s => negb (PyStr.eqb s "")
    | JArr l => match l with [] => false | _ => true end
    | JObj l => match l with [] => false | _ => true end
    end.

Fixpoint assoc (k : string) (l : list (string * json)) : option json :=
    match l with
    | [] => None
    | (k', v) :: l' => if PyStr.eqb k k' then Some v else assoc k l'
    end.

  (** [j.get(k, d)]: only a dict has [get]. *)
Definition get (j : json) (k : string) (d : json) : outcome json :=
    match j with
    | JObj l => Ok (match assoc k l with Some v => v | None => d end)
    | _ => Raise AttributeError
    end.

  (** [j.items()] *)
Definition items (j : json) : outcome (list (string * json)) :=
    match j with
    | JObj l => Ok l
    | _ => Raise AttributeError
    end.

  (** [for x in j]: a list gives its elements, a string its characters
      and a dict its keys. *)
Definition iter (j : json) : outcome (list json) :=
    match j with
    | JArr l => Ok l
    | JStr s => Ok (List.map (fun c => JStr (String c EmptyString)) (list_ascii_of_string s))
    | JObj l => Ok (List.map (fun kv => JStr (fst kv)) l)
    | _ => Raise TypeError
    end.

End Json.

(** ** The world and the monad of effects *)

(** Calls that leave the process, as they are attempted. *)
Inductive event :=
| EMkdir (p : Path) (parents : bool)
| EUrlretrieve (url : string) (dest : Path)
| EUrlopen (url : string)
| EWriteText (p : Path) (text : string)
| EChmod (p : Path) (mode : Z)
| EInput.

(** [net_file url] is the body [urlretrieve] downloads from [url] and
    [net_json url] the value [json.loads] decodes from the body at [url];
    [None] stands for any exception on the way (connection, HTTP status,
    decoding, malformed JSON).  For a download that fails, [net_cut url]
    tells how far it got: [None] when the request itself failed, so that
    the destination was never opened, and [Some part] when the failure
    came while the body was copied (connection lost, fewer bytes than
    announced), after [part] had been written.  [stdin] holds the lines
    still to be read and [cwd] is the working directory. *)
Record world := mkWorld {
  fs : gmap (list string) node;
  net_file : string -> option string;
  net_cut : string -> option string;
  net_json : string -> option json;
  stdin : list string;
  cwd : list string;
  trace : list event
}.

Definition with_fs (w : world) (f : gmap (list string) node) : world :=
  mkWorld f (net_file w) (net_cut w) (net_json w) (stdin w) (cwd w) (trace w).
Definition with_stdin (w : world) (l : list string) : world :=
  mkWorld (fs w) (net_file w) (net_cut w) (net_json w) l (cwd w) (trace w).
Definition log (w : world) (e : event) : world :=
  mkWorld (fs w) (net_file w) (net_cut w) (net_json w) (stdin w) (cwd w) (trace w ++ [e]).

Definition M (A : Type) : Type := world -> outcome A * world.

Definition ret {A} (a : A) : M A := fun w => (Ok a, w).

Definition raise {A} (e : exn) : M A := fun w => (Raise e, w).

Definition bind {A B} (m : M A) (k : A -> M B) : M B :=
  fun w =>
    match m w with
    | (Ok a, w') => k a w'
    | (Raise e, w') => (Raise e, w')
    end.

(** [try: m except ...: h], where [catches e] tells whether the clause
    applies to [e]. *)
Definition try_except {A} (m : M A) (catches : exn -> bool) (h : exn -> M A) : M A :=
  fun w =>
    match m w with
    | (Ok a, w') => (Ok a, w')
    | (Raise e, w') => if catches e then h e w' else (Raise e, w')
    end.

(** Every exception of the model is a subclass of [Exception]. *)
Definition Exception (e : exn) : bool := true.
Definition is_ValueError (e : exn) : bool :=
  match e with ValueError => true | _ => false end.

Declare Scope py_scope.
Delimit Scope py_scope with py.
Notation "x <- m ;; k" := (bind m (fun x => k))
  (at level 100, m at next level, right associativity) : py_scope.
Notation "m ;; k" := (bind m (fun _ => k))
  (at level 100, right associativity) : py_scope.
Open Scope py_scope.

Definition emit (e : event) : M unit := fun w => (Ok tt, log w e).

Definition lift_outcome {A} (o : outcome A) : M A := fun w => (o, w).

Definition update_fs (f : gmap (list string) node -> outcome (gmap (list string) node)) : M unit :=
  fun w =>
    match f (fs w) with
    | Ok fs' => (Ok tt, with_fs w fs')
    | Raise e => (Raise e, w)
    end.

Fixpoint for_each {A} (l : list A) (body : A -> M unit) : M unit :=
  match l with
  | [] => ret tt
  | x :: l' => body x ;; for_each l' body
  end.

(** The library calls of the script. *)
Module Sys.

Definition mkdir (parents exist_ok : bool) (p : Path) : M unit :=
    emit (EMkdir p parents) ;; update_fs (FS.mkdir parents exist_ok p).

  (** [urllib.request.urlretrieve(url, dest)]: the URL is opened first;
      then the destination is opened for writing, which creates or
      empties it; then the body is copied block by block.  A failure of
      the request leaves the destination alone; a failure during the copy
      ([ContentTooShortError], a subclass of [URLError], or a lost
      connection) leaves it with what was copied. *)
Definition urlretrieve (url : string) (dest : Path) : M unit :=
    emit (EUrlretrieve url dest) ;;
    fun w =>
      match net_file w url with
      | Some body => update_fs (FS.write_file dest body) w
      | None =>
          match net_cut w url with
          | Some part => (update_fs (FS.write_file dest part) ;; raise URLError) w
          | None => (Raise URLError, w)
          end
      end.

  (** [json.loads(urlopen(url).read().decode())] *)
Definition urlopen_json (url : string) : M json :=
    emit (EUrlopen url) ;;
    fun w =>
      match net_json w url with
      | None => (Raise URLError, w)
      | Some j => (Ok j, w)
      end.

Definition write_text (p : Path) (text : string) : M unit :=
    emit (EWriteText p text) ;; update_fs (FS.write_file p text).

Definition read_text (p : Path) : M string :=
    fun w => (FS.read_text p (fs w), w).

Definition path_exists (p : Path) : M bool :=
    fun w => (Ok (FS.path_exists (fs w) p), w).

Definition glob_py (dir : Path) : M (list Path) :=
    fun w => (Ok (FS.glob_py dir (fs w)), w).

Definition chmod (p : Path) (mode : Z) : M unit :=
    emit (EChmod p mode) ;; update_fs (FS.chmod p mode).

  (** [input(prompt)]: the next line of standard input, [EOFError] at its
      end. *)
Definition input : M string :=
    emit EInput ;;
    fun w =>
      match stdin w with
      | [] => (Raise EOFError, w)
      | l :: ls => (Ok l, with_stdin w ls)
      end.

End Sys.

(** ** The script *)

(** [config]: the dict built by [interactive_setup] or by [main]; the
    key [description] may be missing ([config.get]). *)
Record Config := mkConfig {
  name : string;
  ptype : string;
  domains : list string;
  description : option string
}.

(** The attributes of a [ProjectBootstrap] object. *)
Record ProjectBootstrap := mkBootstrap {
  base_url : string;
  project_root : list string;
  available_domains : list string
}.

(** The parsed command line; an option that was not given is [None]. *)
Record Args := mkArgs {
  arg_interactive : bool;
  arg_name : option string;
  arg_domains : option string;
  arg_type : option string;
  arg_base_url : string
}.

Definition default_base_url : string :=
  "https://raw.githubusercontent.com/user/claude-project-best-practices/main".

Definition project_types : list string :=
  ["Web API"; "Data Pipeline"; "CLI Tool"; "Web Application"; "Library/Package"; "Custom"].

Definition core_files : list string :=
  [ "core/.claude/settings.json";
    "core/.claude/hooks/pre-tool-use-safety.py";
    "core/.claude/hooks/project-boundary.py";
    "core/.claude/commands/help.md" ].

Definition gitignore_marker : string := "# Claude Code specific".

Definition gitignore_content : string :=
"# Claude Code specific
TODO.md
CLAUDE.local.md
.claude/logs/
.claude/session-history/

# OS
.DS_Store
.DS_Store?
._*
Thumbs.db

# IDE
.vscode/
.idea/
*.swp
*.swo
*~
".

(** Truth value of an optional command-line string. *)
Definition given (o : option string) : bool :=
  match o with
  | Some s => negb (PyStr.eqb s "")
  | None => false
  end.

(** [o or d] *)
Definition opt_or (o : option string) (d : string) : string :=
  match o with
  | Some s => PyStr.or_else s d
  | None => d
  end.

Section Bootstrap.

  (** [str.title], [str.lower] and [int] (with [None] for [ValueError]). *)
Variable title : string -> string.
Variable lower : string -> string.
Variable py_int : string -> option Z.

  (** [ProjectBootstrap(base_url)]: [Path.cwd()] raises
      [FileNotFoundError] when the working directory no longer exists. *)
Definition init (url : string) : M ProjectBootstrap :=
    fun w =>
      if FS.path_is_dir (fs w) (cwd w)
      then (Ok (mkBootstrap url (cwd w) ["git"; "python"; "aws"; "docker"; "database"]), w)
      else (Raise FileNotFoundError, w).

  (** The [while True] loop of [interactive_setup].  It reads one line
      per round, so it is defined by recursion on the lines that are
      still unread when it is entered, [pending]; with nothing left
      [input] raises [EOFError], which the loop does not catch. *)
Fixpoint select_project_type (pending : list string) : M string :=
    match pending with
    | [] => Sys.input ;; raise EOFError
    | _ :: pending' =>
        line <- Sys.input ;;
        match py_int (PyStr.or_else line "1") with
        | Some choice =>
            if ((1 <=? choice) && (choice <=? Z.of_nat (List.length project_types)))%Z
            then ret (nth (Z.to_nat (choice - 1)) project_types "")
            else select_project_type pending'
        | None => select_project_type pending'
        end
    end.

  (** The loop over [available_domains[1:]]. *)
Fixpoint ask_domains (candidates selected : list string) : M (list string) :=
    match candidates with
    | [] => ret selected
    | domain :: rest =>
        line <- Sys.input ;;
        let response := lower (PyStr.strip line) in
        if PyStr.eqb response "y" || PyStr.eqb response "yes"
        then ask_domains rest (selected ++ [domain])
        else ask_domains rest selected
    end.

Definition interactive_setup (self : ProjectBootstrap) : M Config :=
    let default_name := PyPath.name (project_root self) in
    line <- Sys.input ;;
    let name := PyStr.or_else (PyStr.strip line) default_name in
    type <- (fun w => select_project_type (stdin w) w) ;;
    selected_domains <- ask_domains (tl (available_domains self)) ["git"] ;;
    desc <- Sys.input ;;
    ret (mkConfig name type selected_domains (Some (PyStr.strip desc))).

Definition fetch_file (self : ProjectBootstrap) (path : string) (destination : Path)
    : M bool :=
    let url := base_url self +:+ "/" +:+ path in
    try_except
      (Sys.mkdir true true (PyPath.parent destination) ;;
       Sys.urlretrieve url destination ;;
       ret true)
      Exception
      (fun _ => ret false).

  (** Python's [None] is the decoded JSON [null]. *)
Definition fetch_domain_manifest (self : ProjectBootstrap) (domain : string) : M json :=
    let manifest_path := "domains/" +:+ domain +:+ "/manifest.json" in
    try_except
      (let url := base_url self +:+ "/" +:+ manifest_path in
       Sys.urlopen_json url)
      Exception
      (fun _ => ret JNull).

  (** Body of the inner loop of [apply_domain]; [dest / file_name] raises
      [TypeError] unless [file_name] is a string. *)
Definition apply_file (self : ProjectBootstrap) (domain dest_dir : string)
             (file_name : json) : M unit :=
    match file_name with
    | JStr file_name =>
        let source_path :=
          PyStr.replace "//" "/"
            ("domains/" +:+ domain +:+ "/" +:+ dest_dir +:+ "/" +:+ file_name) in
        let dest_path := project_root self </> dest_dir </> file_name in
        fetch_file self source_path dest_path ;; ret tt
    | _ => raise TypeError
    end.

Definition apply_domain (self : ProjectBootstrap) (domain : string) (config : Config)
    : M bool :=
    manifest <- fetch_domain_manifest self domain ;;
    if negb (Json.truthy manifest) then ret false
    else
      files_map <- lift_outcome (Json.get manifest "files" (JObj [])) ;;
      entries <- lift_outcome (Json.items files_map) ;;
      for_each entries (fun '(dest_dir, files) =>
        file_names <- lift_outcome (Json.iter files) ;;
        for_each file_names (apply_file self domain dest_dir)) ;;
      ret true.

Definition domain_line (domain : string) : string :=
    "- **" +:+ title domain +:+ "**: Domain-specific tooling and practices".

Definition default_description : string :=
    "A project following Claude Code best practices".

  (** The f-string of [create_claude_md]. *)
Definition claude_md_text (config : Config) : string :=
"# Claude Code Project Context

## Project Overview
**Name**: " +:+ name config +:+ "
**Type**: " +:+ ptype config +:+ "
**Description**: " +:+ default default_description (description config) +:+ "

## Technology Stack
**Domains**: " +:+ PyStr.join ", " (domains config) +:+ "

## Development Principles
- Follow domain-specific best practices
- Use test-driven development (TDD)
- Maintain clean, documented code
- Infrastructure as Code where applicable

## Project Structure
This project uses modular Claude Code configuration with the following domains:
" +:+ PyStr.join PyStr.nl (List.map domain_line (domains config)) +:+ "

## Safety & Restrictions
- File operations allowed within project directory only
- Always prompt for configuration changes
- No destructive operations outside project scope
- All infrastructure changes through code, not CLI

## Next Steps
1. Review domain-specific documentation
2. Run project setup: `make setup` or equivalent
3. Start development with Claude Code
4. Check TODO.md for current tasks

## Memory Bank
This project uses memory bank: `project-" +:+ PyStr.replace " " "-" (lower (name config)) +:+ "`
".

Definition create_claude_md (self : ProjectBootstrap) (config : Config) : M unit :=
    let claude_md_path := project_root self </> "CLAUDE.md" in
    Sys.write_text claude_md_path (claude_md_text config).

Definition create_gitignore (self : ProjectBootstrap) (config : Config) : M unit :=
    let gitignore_path := project_root self </> ".gitignore" in
    present <- Sys.path_exists gitignore_path ;;
    if negb present then Sys.write_text gitignore_path gitignore_content
    else
      existing <- Sys.read_text gitignore_path ;;
      if negb (PyStr.contains gitignore_marker existing)
      then Sys.write_text gitignore_path (existing +:+ PyStr.nl +:+ gitignore_content)
      else ret tt.

Definition setup_project (self : ProjectBootstrap) (config : Config) : M unit :=
    let claude_dir := project_root self </> ".claude" in
    Sys.mkdir false true claude_dir ;;
    for_each core_files (fun file_path =>
      let dest_path := project_root self </> PyStr.replace "core/" "" file_path in
      fetch_file self file_path dest_path ;; ret tt) ;;
    for_each (domains config) (fun domain =>
      apply_domain self domain config ;; ret tt) ;;
    create_claude_md self config ;;
    create_gitignore self config ;;
    let hooks_dir := claude_dir </> "hooks" in
    present <- Sys.path_exists hooks_dir ;;
    if present then
      hooks <- Sys.glob_py hooks_dir ;;
      for_each hooks (fun hook_file => Sys.chmod hook_file 493)
    else ret tt.

  (** The non-interactive branch of [main]. *)
Definition config_from_args (args : Args) : Config :=
    mkConfig
      (default "" (arg_name args))
      (opt_or (arg_type args) "Custom")
      ("git" :: List.map PyStr.strip
                  (List.filter (fun d => negb (PyStr.eqb (PyStr.strip d) "git"))
                               (PyStr.split "," (default "" (arg_domains args)))))
      (Some ("A " +:+ opt_or (arg_type args) "custom" +:+ " project")).

  (** The [if] of [main] that chooses the configuration. *)
Definition main_config (bootstrap : ProjectBootstrap) (args : Args) : M Config :=
    if arg_interactive args || negb (given (arg_name args) && given (arg_domains args))
    then interactive_setup bootstrap
    else ret (config_from_args args).

Definition main (args : Args) : M unit :=
    bootstrap <- init (arg_base_url args) ;;
    config <- main_config bootstrap args ;;
    setup_project bootstrap config.

End Bootstrap.

(** ** Vocabulary of the properties *)

(** Reading the domain list back from a rendered document, as the
    specification words it: the line that starts with the label
    [**Domains**: ] (the first one), split on [", "]. *)
Module Reparse.

Definition label : string := "**Domains**: ".

Fixpoint drop (n : nat) (s : string) : string :=
    match n, s with
    | S k, String _ s' => drop k s'
    | _, _ => s
    end.

Definition lines (doc : string) : list string := PyStr.split PyStr.nl doc.

Definition domains_value (doc : string) : option string :=
    match List.find (PyStr.startswith label) (lines doc) with
    | Some l => Some (drop (String.length label) l)
    | None => None
    end.

Definition domains_of (doc : string) : option (list string) :=
    match domains_value doc with
    | Some v => Some (PyStr.split ", " v)
    | None => None
    end.

End Reparse.

(** [c] does not occur in [s]. *)
Fixpoint lacks (c : ascii) (s : string) : Prop :=
  match s with
  | EmptyString => True
  | String c' s' => c' <> c /\ lacks c s'
  end.

(** What a run leaves untouched: the remote repository, standard input
    and the working directory. *)
Definition same_env (w w' : world) : Prop :=
  net_file w' = net_file w /\ net_json w' = net_json w /\
  stdin w' = stdin w /\ cwd w' = cwd w /\ net_cut w' = net_cut w.

(** What a download from [url] puts into its destination once that is
    opened: the whole body, or the part that arrived before the download
    failed; [None] when the request fails and nothing is opened. *)
Definition arrives (w : world) (url : string) : option string :=
  match net_file w url with
  | Some body => Some body
  | None => net_cut w url
  end.

(** A planned step of [setup_project]: a call of [fetch_file] for a URL
    and a destination, or the request for a manifest. *)
Inductive step :=
| Fetch (url : string) (dest : Path)
| Manifest (url : string).

(** One pass through [fetch_file] for [url] and [dest], started in the
    file system [f]: the calls it makes and the file system it leaves,
    where [data url] is what arrives from [url] (see [arrives]).  The
    parent directory is always asked for.  When it cannot be made, that
    is the only call and nothing changes.  When it can, the download is
    the second call; it leaves the parent directories in place and, if
    anything arrives and the destination can be opened, the destination
    holding what arrived. *)
Inductive fetch_events (data : string -> option string) (url : string) (dest : Path)
          (f : gmap (list string) node)
  : list event -> gmap (list string) node -> Prop :=
| fetch_no_parent e :
    FS.mkdir true true (PyPath.parent dest) f = Raise e ->
    fetch_events data url dest f [EMkdir (PyPath.parent dest) true] f
| fetch_refused f1 :
    FS.mkdir true true (PyPath.parent dest) f = Ok f1 ->
    data url = None ->
    fetch_events data url dest f
      [EMkdir (PyPath.parent dest) true; EUrlretrieve url dest] f1
| fetch_unwritable f1 d e :
    FS.mkdir true true (PyPath.parent dest) f = Ok f1 ->
    data url = Some d ->
    FS.write_file dest d f1 = Raise e ->
    fetch_events data url dest f
      [EMkdir (PyPath.parent dest) true; EUrlretrieve url dest] f1
| fetch_written f1 d f2 :
    FS.mkdir true true (PyPath.parent dest) f = Ok f1 ->
    data url = Some d ->
    FS.write_file dest d f1 = Ok f2 ->
    fetch_events data url dest f
      [EMkdir (PyPath.parent dest) true; EUrlretrieve url dest] f2.

(** The calls made by a sequence of steps started in the file system
    [f], in order, and the file system they leave.  A manifest request
    changes no file. *)
Inductive steps_events (data : string -> option string)
  : list step -> gmap (list string) node -> list event -> gmap (list string) node
    -> Prop :=
| steps_nil f : steps_events data [] f [] f
| steps_fetch url dest f evs f1 ss rest f2 :
    fetch_events data url dest f evs f1 -> steps_events data ss f1 rest f2 ->
    steps_events data (Fetch url dest :: ss) f (evs ++ rest) f2
| steps_manifest url ss f rest f2 :
    steps_events data ss f rest f2 ->
    steps_events data (Manifest url :: ss) f (EUrlopen url :: rest) f2.

(** A run of [create_gitignore] that raises nothing, started in the file
    system [f]: the call it makes and the file system it leaves.  A file
    that holds the marker is left alone; one that lacks it is written
    again with the block after what was read from it; a missing one is
    made with the block alone. *)
Inductive gitignore_step (gi : Path) (f : gmap (list string) node)
  : list event -> gmap (list string) node -> Prop :=
| gitignore_kept old :
    FS.read_text gi f = Ok old ->
    PyStr.contains gitignore_marker old = true ->
    gitignore_step gi f [] f
| gitignore_extended old f' :
    FS.read_text gi f = Ok old ->
    PyStr.contains gitignore_marker old = false ->
    FS.write_file gi (old +:+ PyStr.nl +:+ gitignore_content) f = Ok f' ->
    gitignore_step gi f [EWriteText gi (old +:+ PyStr.nl +:+ gitignore_content)] f'
| gitignore_made f' :
    FS.path_exists f gi = false ->
    FS.write_file gi gitignore_content f = Ok f' ->
    gitignore_step gi f [EWriteText gi gitignore_content] f'.

Definition file_url (self : ProjectBootstrap) (path : string) : string :=
  base_url self +:+ "/" +:+ path.

Definition manifest_url (self : ProjectBootstrap) (domain : string) : string :=
  file_url self ("domains/" +:+ domain +:+ "/manifest.json").

(** The file names a manifest value lists under one directory, when the
    loop over them raises nothing. *)
Fixpoint all_strings (l : list json) : option (list string) :=
  match l with
  | [] => Some []
  | JStr s :: l' =>
      match all_strings l' with Some r => Some (s :: r) | None => None end
  | _ :: _ => None
  end.

Definition listed_names (files : json) : option (list string) :=
  match Json.iter files with
  | Ok l => all_strings l
  | Raise _ => None
  end.

Fixpoint listed_entries (entries : list (string * json))
  : option (list (string * list string)) :=
  match entries with
  | [] => Some []
  | (dest_dir, files) :: rest =>
      match listed_names files, listed_entries rest with
      | Some names, Some r => Some ((dest_dir, names) :: r)
      | _, _ => None
      end
  end.

(** The (directory, file names) pairs [apply_domain] goes through for a
    manifest, when going through it raises nothing: none for a value
    that counts as false. *)
Definition manifest_listing (m : json) : option (list (string * list string)) :=
  if negb (Json.truthy m) then Some []
  else
    match Json.get m "files" (JObj []) with
    | Ok files_map =>
        match Json.items files_map with
        | Ok entries => listed_entries entries
        | Raise _ => None
        end
    | Raise _ => None
    end.

(** A manifest of the documented format: an object whose [files] member
    maps directories to arrays of file names. *)
Definition files_json (files : list (string * list string)) : json :=
  JObj (List.map (fun e => (fst e, JArr (List.map JStr (snd e)))) files).

(** The fetches for the file names listed under one directory, and for
    a whole listing. *)
Definition names_plan (self : ProjectBootstrap) (domain dest_dir : string)
           (names : list string) : list step :=
  List.map (fun file_name =>
    Fetch (file_url self (PyStr.replace "//" "/"
             ("domains/" +:+ domain +:+ "/" +:+ dest_dir +:+ "/" +:+ file_name)))
          (project_root self </> dest_dir </> file_name)) names.

Definition listed_plan (self : ProjectBootstrap) (domain : string)
           (files : list (string * list string)) : list step :=
  List.concat (List.map (fun e => names_plan self domain (fst e) (snd e)) files).

Definition gitignore_path (self : ProjectBootstrap) : list string :=
  project_root self </> ".gitignore".

Definition claude_md_path (self : ProjectBootstrap) : list string :=
  project_root self </> "CLAUDE.md".

Definition claude_dir (self : ProjectBootstrap) : list string :=
  project_root self </> ".claude".

Definition hooks_dir (self : ProjectBootstrap) : list string :=
  claude_dir self </> "hooks".

Definition core_plan (self : ProjectBootstrap) : list step :=
  List.map (fun file_path =>
    Fetch (file_url self file_path)
          (project_root self </> PyStr.replace "core/" "" file_path)) core_files.

(** The steps for one domain and for a list of domains, given what the
    remote repository answers. *)
Definition domain_plan (self : ProjectBootstrap) (remote : string -> option json)
           (domain : string) : list step :=
  Manifest (manifest_url self domain) ::
  match remote (manifest_url self domain) with
  | Some m => listed_plan self domain (default [] (manifest_listing m))
  | None => []
  end.

Definition domains_plan (self : ProjectBootstrap) (remote : string -> option json)
           (ds : list string) : list step :=
  List.concat (List.map (domain_plan self remote) ds).

(** The manifests of the requested domains can be gone through. *)
Definition manifests_readable (self : ProjectBootstrap)
           (remote : string -> option json) (ds : list string) : Prop :=
  forall d m, In d ds -> remote (manifest_url self d) = Some m ->
              is_Some (manifest_listing m).

(** The body of the outer loop of [apply_domain]. *)
Definition entry_body (self : ProjectBootstrap) (domain : string)
  : string * json -> M unit :=
  fun '(dest_dir, files) =>
    file_names <- lift_outcome (Json.iter files) ;;
    for_each file_names (apply_file self domain dest_dir).

(** Phases of [setup_project]. *)
Definition fetch_core (self : ProjectBootstrap) : M unit :=
  for_each core_files (fun file_path =>
    let dest_path := project_root self </> PyStr.replace "core/" "" file_path in
    fetch_file self file_path dest_path ;; ret tt).

Definition apply_domains (self : ProjectBootstrap) (config : Config) : M unit :=
  for_each (domains config) (fun domain => apply_domain self domain config ;; ret tt).

Definition make_hooks_executable (self : ProjectBootstrap) : M unit :=
  present <- Sys.path_exists (hooks_dir self) ;;
  if present then
    hooks <- Sys.glob_py (hooks_dir self) ;;
    for_each hooks (fun hook_file => Sys.chmod hook_file 493)
  else ret tt.

Definition hook_files (self : ProjectBootstrap) (f : gmap (list string) node)
  : list (list string) :=
  if FS.path_exists f (hooks_dir self) then FS.glob_py (hooks_dir self) f else [].

(** A computation that only adds to the trace. *)
Definition extends {A} (m : M A) : Prop :=
  forall w r w', m w = (r, w') -> exists t, trace w' = trace w ++ t.

(** ** Concrete inputs for the examples *)

Module Demo.

Definition self : ProjectBootstrap :=
    mkBootstrap default_base_url ["proj"] ["git"; "python"; "aws"; "docker"; "database"].

  (** The command line [--name demo --domains git,python]. *)
Definition args : Args :=
    mkArgs false (Some "demo") (Some "git,python") None default_base_url.

Definition config : Config :=
    mkConfig "demo" "Custom" ["git"; "python"] (Some "A custom project").

Definition python_manifest : list (string * list string) :=
    [(".claude/hooks", ["lint.py"; "notes.txt"]); ("", ["Makefile"])].

  (** A project directory [/proj] that holds nothing yet.  The remote
      side serves the [.py] files only and the manifest of the [python]
      domain only: every other download, and the manifest of [git], fail. *)
Definition project : world :=
    mkWorld (<[["proj"] := Dir 493]> ∅)
      (fun url => if PyStr.endswith ".py" url then Some "#!/usr/bin/env python3" else None)
      (fun _ => None)
      (fun url =>
         if PyStr.eqb url (manifest_url self "python")
         then Some (JObj [("files", files_json python_manifest)])
         else None)
      [] ["proj"] [].

  (** The same directory with a [.gitignore] whose lines end in CR LF. *)
Definition crlf_gitignore : string :=
    "node_modules" +:+ String PyStr.CR (String PyStr.LF EmptyString).

Definition crlf_project : world :=
    mkWorld (<[["proj"; ".gitignore"] := File crlf_gitignore 420]>
               (<[["proj"] := Dir 493]> ∅))
      (fun _ => None) (fun _ => None) (fun _ => None) [] ["proj"] [].

  (** A configuration with a line break inside a domain name. *)
Definition broken_config : Config :=
    mkConfig "demo" "Custom" ["git"; "a" +:+ PyStr.nl +:+ "b"] None.

  (** Answers typed at the prompts: name, a rejected and an accepted
      type choice, four domain answers, description. *)
Definition answers : list string :=
    ["shop"; "9"; "2"; "y"; "n"; "YES"; "no"; "an online shop"].

Definition prompt_project : world :=
    mkWorld (<[["proj"] := Dir 493]> ∅) (fun _ => None) (fun _ => None) (fun _ => None)
      answers ["proj"] [].

End Demo.

(** ** Vocabulary of the further properties *)

(** *** Runs that remove nothing *)

(** Two entries of the same kind: both files or both directories. *)
Definition same_kind (n n' : node) : bool :=
  match n, n' with
  | File _ _, File _ _ => true
  | Dir _, Dir _ => true
  | _, _ => false
  end.

(** Nothing is removed and nothing changes its kind. *)
Definition keeps (f f' : gmap (list string) node) : Prop :=
  forall loc n, f !! loc = Some n ->
                exists n', f' !! loc = Some n' /\ same_kind n n' = true.

(** The run from [w] to [w'] left the remote side, standard input and
    the working directory alone, removed nothing, and every call it made
    satisfies [P]. *)
Definition quiet (P : event -> Prop) (w w' : world) : Prop :=
  same_env w w' /\ keeps (fs w) (fs w') /\
  exists t, trace w' = trace w ++ t /\ Forall P t.

(** Every run of [m] relates the world it starts in to the world it
    ends in by [R], whatever it returns or raises. *)
Definition respects (R : world -> world -> Prop) {A} (m : M A) : Prop :=
  forall w r w', m w = (r, w') -> R w w'.

(** [respects] at [quiet P]. *)
Definition stays {A} (P : event -> Prop) (m : M A) : Prop := respects (quiet P) m.

(** The call is a prompt ([input]). *)
Definition is_prompt (e : event) : bool :=
  match e with EInput => true | _ => false end.

(** The call writes a text file ([Path.write_text]). *)
Definition is_write_text (e : event) : bool :=
  match e with EWriteText _ _ => true | _ => false end.

(** A directory that was made is the only change. *)
Definition only_new_dirs (f f' : gmap (list string) node) : Prop :=
  f ⊆ f' /\ forall loc n, f' !! loc = Some n -> f !! loc = Some n \/ n = Dir 493.

(** *** Further inputs for the examples *)

Module Scenario.

(** A project directory in which [.claude] is a regular file. *)
Definition claude_is_file : world :=
    mkWorld (<[["proj"; ".claude"] := File "notes" 420]> (<[["proj"] := Dir 493]> ∅))
      (fun _ => None) (fun _ => None) (fun _ => None) [] ["proj"] [].

(** A project directory whose [.gitignore] is a directory. *)
Definition gitignore_is_dir : world :=
    mkWorld (<[["proj"; ".gitignore"] := Dir 493]> (<[["proj"] := Dir 493]> ∅))
      (fun _ => None) (fun _ => None) (fun _ => None) [] ["proj"] [].

(** The remote side answers every manifest request with [manifest]. *)
Definition serving (manifest : json) : world :=
    mkWorld (<[["proj"] := Dir 493]> ∅) (fun _ => Some "body") (fun _ => None)
      (fun _ => Some manifest) [] ["proj"] [].

  (** A project directory with a file [x.py] that only its owner may
      read or write (mode 0o600); every download is cut after ten
      characters. *)
Definition cut_download : world :=
    mkWorld (<[["proj"; "x.py"] := File "old content" 384]> (<[["proj"] := Dir 493]> ∅))
      (fun _ => None) (fun _ => Some "#!/usr/bin") (fun _ => None) [] ["proj"] [].

  (** A project directory beside a file of somebody else; the remote
      side serves every file and, for every domain, the manifest of the
      examples. *)
Definition neighbours : world :=
    mkWorld (<[["etc"; "passwd"] := File "root:x:0:0" 420]>
               (<[["etc"] := Dir 493]> (<[["proj"] := Dir 493]> ∅)))
      (fun _ => Some "body") (fun _ => None)
      (fun _ => Some (JObj [("files", files_json Demo.python_manifest)]))
      [] ["proj"] [].

End Scenario.

(** *** Permission bits *)

(** The permission bits of the entry a path leads to
    ([Path.stat().st_mode & 0o777]). *)
Definition mode_at (f : gmap (list string) node) (p : list string) : option Z :=
  match FS.locate f p with
  | Ok loc =>
      match FS.node_at f loc with
      | Some (File _ m) => Some m
      | Some (Dir m) => Some m
      | None => None
      end
  | Raise _ => None
  end.

(** [f'] is [f] after some [chmod 0o755] calls: the same entries with
    the same content, each mode as it was or 0o755. *)
Definition chmodded (f f' : gmap (list string) node) : Prop :=
  forall l,
    match f !! l, f' !! l with
    | Some (File d m), Some (File d' m') => d' = d /\ (m' = m \/ m' = 493%Z)
    | Some (Dir m), Some (Dir m') => m' = m \/ m' = 493%Z
    | None, None => True
    | _, _ => False
    end.

(** *** Below the project root *)

(** No component of the path is [..]. *)
Definition no_dotdot (p : list string) : bool :=
  forallb (fun c => negb (PyStr.eqb c "..")) p.

(** A path string that is relative and has no [..] component. *)
Definition plain (s : string) : bool :=
  negb (PyStr.startswith "/" s) && no_dotdot (PyPath.parts s).

(** The location [loc] lies strictly below [root]. *)
Definition below (root loc : list string) : Prop :=
  exists rest, rest <> [] /\ loc = root ++ rest.

(** [root] is an existing directory, reached by its own components. *)
Definition rooted (root : list string) (f : gmap (list string) node) : Prop :=
  FS.locate f root = Ok root /\ FS.is_dir_at f root = true.

(** Every entry that is not strictly below [root] is as it was. *)
Definition outside_same (root : list string) (f f' : gmap (list string) node) : Prop :=
  forall loc, ~ below root loc -> f' !! loc = f !! loc.

(** The run from [w] to [w'] kept [root] in place and changed nothing
    that is not strictly below it. *)
Definition inside (root : list string) (w w' : world) : Prop :=
  rooted root (fs w) -> rooted root (fs w') /\ outside_same root (fs w) (fs w').

(** What [mkdir] changes: places on the way to the directory asked for
    at which nothing was. *)
Definition only_on_way (p : list string) (f f' : gmap (list string) node) : Prop :=
  forall loc, f' !! loc = f !! loc \/
              (f !! loc = None /\ loc <> [] /\ loc `prefix_of` p).

(** *** The answers to the prompts *)

(** What one answer to the type prompt selects; [None] when the loop
    asks again ([int] raised [ValueError], or the number is out of
    range). *)
Definition type_choice (py_int : string -> option Z) (line : string) : option string :=
  match py_int (PyStr.or_else line "1") with
  | Some choice =>
      if ((1 <=? choice) && (choice <=? Z.of_nat (List.length project_types)))%Z
      then Some (nth (Z.to_nat (choice - 1)) project_types "")
      else None
  | None => None
  end.

(** Whether an answer to a domain prompt counts as yes. *)
Definition says_yes (lower : string -> string) (line : string) : bool :=
  let response := lower (PyStr.strip line) in
  PyStr.eqb response "y" || PyStr.eqb response "yes".

(** The candidates whose answer counts as yes, in the order of the
    candidates. *)
Fixpoint accepted (lower : string -> string) (candidates answers : list string)
  : list string :=
  match candidates, answers with
  | d :: ds, a :: rest =>
      if says_yes lower a then d :: accepted lower ds rest else accepted lower ds rest
  | _, _ => []
  end.

(** The world after [n] calls of [input] that left [rest] unread. *)
Definition reads (n : nat) (rest : list string) (w : world) : world :=
  mkWorld (fs w) (net_file w) (net_cut w) (net_json w) rest (cwd w)
          (trace w ++ repeat EInput n).

(** *** A dialogue that ends early *)

Module Dialogue.

(** [--interactive] alone on the command line. *)
Definition interactive_args : Args :=
    mkArgs true None None None default_base_url.

(** A project directory, and a dialogue that ends after the first
    domain prompt was answered. *)
Definition cut_short : world :=
    mkWorld (<[["proj"] := Dir 493]> ∅) (fun _ => Some "body") (fun _ => None)
      (fun _ => None) ["shop"; "2"; "y"] ["proj"] [].

  (** The same dialogue in a process whose working directory has been
      removed. *)
Definition without_cwd : world :=
    mkWorld ∅ (fun _ => Some "body") (fun _ => None)
      (fun _ => None) ["shop"; "2"; "y"] ["proj"] [].

End Dialogue.

(** * Properties *)

#[local] Arguments String.append !_ _ / : simpl nomatch.

(** ** Strings *)

Example split_ex1 : PyStr.split "," "git,python" = ["git"; "python"].
Proof. reflexivity. Qed.
Example split_ex2 : PyStr.split ", " "" = [""].
Proof. reflexivity. Qed.
Example split_ex3 : PyStr.split ", " "a, b,c, " = ["a"; "b,c"; ""].
Proof. reflexivity. Qed.
Example replace_ex1 : PyStr.replace "//" "/" "a///b" = "a//b".
Proof. reflexivity. Qed.
Example replace_ex2 : PyStr.replace "core/" "" "core/.claude/settings.json" = ".claude/settings.json".
Proof. reflexivity. Qed.
Example strip_ex1 : PyStr.strip "  a b  " = "a b".
Proof. reflexivity. Qed.
Example join_ex1 : PyStr.join ", " ["git"; "python"] = "git, python".
Proof. reflexivity. Qed.

Lemma append_assoc (a b c : string) : (a +:+ b) +:+ c = a +:+ (b +:+ c).
Proof. induction a as [|x a IH]; simpl; [reflexivity | now rewrite IH]. Qed.

Lemma append_empty_r (a : string) : a +:+ "" = a.
Proof. induction a as [|x a IH]; simpl; [reflexivity | now rewrite IH]. Qed.

Lemma lacks_app c a b : lacks c a -> lacks c b -> lacks c (a +:+ b).
Proof. induction a as [|x a IH]; simpl; [tauto | intros [? ?] ?; split; auto]. Qed.

(** Splitting on a separator whose first character is absent from the piece read. *)
Lemma split_go_piece (c0 : ascii) (sep' x cur rest : string) :
  lacks c0 x ->
  PyStr.split_go (String c0 sep') 0 cur (x +:+ rest)
  = PyStr.split_go (String c0 sep') 0 (cur +:+ x) rest.
Proof.
  revert cur. induction x as [|c x IH]; intros cur Hx; simpl.
  - now rewrite append_empty_r.
  - destruct Hx as [Hc Hx].
    destruct (ascii_dec c0 c) as [->|_]; [congruence|].
    rewrite IH by assumption. now rewrite append_assoc.
Qed.


Lemma join_cons sep x y l :
  PyStr.join sep (x :: y :: l) = x +:+ sep +:+ PyStr.join sep (y :: l).
Proof. reflexivity. Qed.



Lemma lacks_join c sep l :
  lacks c sep -> Forall (lacks c) l -> lacks c (PyStr.join sep l).
Proof.
  intros Hs Hl. induction Hl as [|x r Hx Hr IH]; [exact I|].
  destruct r as [|y r]; [exact Hx|].
  rewrite join_cons. auto using lacks_app.
Qed.

(** One line of a text. *)
Lemma lines_go_line (x cur rest : string) :
  lacks PyStr.LF x ->
  PyStr.split_go PyStr.nl 0 cur (x +:+ String PyStr.LF rest)
  = (cur +:+ x) :: PyStr.split_go PyStr.nl 0 "" rest.
Proof.
  intros Hx. unfold PyStr.nl. rewrite split_go_piece by assumption.
  destruct rest; reflexivity.
Qed.

Lemma drop_app (p s : string) : Reparse.drop (String.length p) (p +:+ s) = s.
Proof. induction p; simpl; auto. Qed.

Lemma lines_go_line' (x cur rest : string) :
  lacks PyStr.LF x ->
  PyStr.split_go PyStr.nl 0 cur (x +:+ String "010" rest)
  = (cur +:+ x) :: PyStr.split_go PyStr.nl 0 "" rest.
Proof. apply lines_go_line. Qed.

Lemma domains_value_rendered title lower (config : Config) :
  lacks PyStr.LF (name config) ->
  lacks PyStr.LF (ptype config) ->
  lacks PyStr.LF (default default_description (description config)) ->
  Forall (lacks PyStr.LF) (domains config) ->
  Reparse.domains_value (claude_md_text title lower config)
  = Some (PyStr.join ", " (domains config)).
Proof.
  intros Hn Ht Hd Hl.
  assert (Hj : lacks PyStr.LF (PyStr.join ", " (domains config))).
  { apply lacks_join; [|assumption]. cbv. intuition discriminate. }
  unfold Reparse.domains_value, Reparse.lines, PyStr.split, claude_md_text.
  revert Hj. generalize (PyStr.join ", " (domains config)).
  generalize (PyStr.join PyStr.nl (List.map (domain_line title) (domains config))).
  generalize (PyStr.replace " " "-" (lower (name config))).
  generalize dependent (default default_description (description config)).
  generalize dependent (ptype config). generalize dependent (name config).
  clear. intros n Hn t Ht d Hd s1 s2 doms Hj.
  simpl. rewrite lines_go_line' by assumption.
  simpl. rewrite lines_go_line' by assumption.
  simpl. rewrite lines_go_line' by assumption.
  simpl. rewrite lines_go_line' by assumption.
  destruct doms; reflexivity.
Qed.

(** * File system *)

Section FsFacts.

Implicit Types (fs : gmap (list string) node) (loc cur : list string).

  (** Two file systems with the same directories resolve paths alike. *)
Lemma resolve_ok_ext fs fs' cs : forall cur loc,
    (forall l, FS.is_dir_at fs' l = FS.is_dir_at fs l) ->
    FS.resolve fs cur cs = Ok loc -> FS.resolve fs' cur cs = Ok loc.
  Proof.
    induction cs as [|c cs IH]; intros cur loc Hd; simpl; [auto|].
    rewrite Hd. destruct (FS.is_dir_at fs cur); [apply IH; assumption | discriminate].
  Qed.

Lemma resolve_ext fs fs' cs : forall cur,
    (forall l, FS.is_dir_at fs' l = FS.is_dir_at fs l) ->
    (forall l, FS.exists_at fs' l = FS.exists_at fs l) ->
    FS.resolve fs' cur cs = FS.resolve fs cur cs.
  Proof.
    induction cs as [|c cs IH]; intros cur Hd He; simpl; [auto|].
    rewrite Hd, He. destruct (FS.is_dir_at fs cur); auto.
  Qed.

Lemma resolve_app fs a b : forall cur,
    FS.resolve fs cur (a ++ b)
    = match FS.resolve fs cur a with
      | Ok c => FS.resolve fs c b
      | Raise e => Raise e
      end.
  Proof.
    induction a as [|x a IH]; intros cur; simpl; [reflexivity|].
    destruct (FS.is_dir_at fs cur); [apply IH | reflexivity].
  Qed.

Lemma node_at_insert fs loc n l :
    loc <> [] ->
    FS.node_at (<[loc := n]> fs) l
    = if decide (loc = l) then Some n else FS.node_at fs l.
  Proof.
    intros Hne. unfold FS.node_at. destruct l as [|x l].
    - destruct (decide (loc = [])); congruence.
    - apply lookup_insert.
  Qed.

  (** Storing a file where no directory is keeps every directory. *)
Lemma is_dir_at_insert_file fs loc d m l :
    loc <> [] -> FS.is_dir_at fs loc = false ->
    FS.is_dir_at (<[loc := File d m]> fs) l = FS.is_dir_at fs l.
  Proof.
    intros Hne Hd. unfold FS.is_dir_at in *. rewrite node_at_insert by assumption.
    destruct (decide (loc = l)) as [<-|]; [|reflexivity].
    destruct (FS.node_at fs loc) as [[|]|]; congruence.
  Qed.

Lemma write_file_inv fs fs' p d :
    FS.write_file p d fs = Ok fs' ->
    exists loc m, FS.locate fs p = Ok loc /\ loc <> [] /\
                  FS.is_dir_at fs loc = false /\ fs' = <[loc := File d m]> fs.
  Proof.
    unfold FS.write_file. destruct (FS.locate fs p) as [loc|]; [|discriminate].
    unfold FS.is_dir_at.
    destruct loc as [|x loc]; [simpl; discriminate|].
    destruct (FS.node_at fs (x :: loc)) as [[d0 m|]|] eqn:E; intros H;
      try discriminate; injection H as <-.
    - exists (x :: loc), m. rewrite E. repeat apply conj; auto; discriminate.
    - exists (x :: loc), 420%Z. rewrite E. repeat apply conj; auto; discriminate.
  Qed.

Lemma locate_after_write fs fs' p d q loc :
    FS.write_file p d fs = Ok fs' ->
    FS.locate fs q = Ok loc -> FS.locate fs' q = Ok loc.
  Proof.
    intros (l & m & _ & Hne & Hd & ->)%write_file_inv. unfold FS.locate.
    apply resolve_ok_ext. intros; now apply is_dir_at_insert_file.
  Qed.

  (** What was written is what is stored. *)
Lemma read_after_write fs fs' p d :
    FS.write_file p d fs = Ok fs' ->
    FS.read_file p fs' = Ok d /\ FS.path_exists fs' p = true.
  Proof.
    intros Hw. pose proof Hw as (l & m & Hl & Hne & Hd & ->)%write_file_inv.
    unfold FS.read_file, FS.path_exists, FS.exists_at.
    rewrite (locate_after_write _ _ _ _ _ _ Hw Hl).
    rewrite node_at_insert by assumption.
    destruct (decide (l = l)); [split; reflexivity | congruence].
  Qed.

  (** An existing file can be written again. *)
Lemma write_over_file fs p d0 d :
    FS.read_file p fs = Ok d0 -> exists fs', FS.write_file p d fs = Ok fs'.
  Proof.
    unfold FS.read_file, FS.write_file.
    destruct (FS.locate fs p) as [loc|]; [|discriminate].
    destruct (FS.node_at fs loc) as [[? ?|]|]; try discriminate; eauto.
  Qed.

Lemma read_file_exists fs p d :
    FS.read_file p fs = Ok d -> FS.path_exists fs p = true.
  Proof.
    unfold FS.read_file, FS.path_exists, FS.exists_at.
    destruct (FS.locate fs p) as [loc|]; [|discriminate].
    destruct (FS.node_at fs loc) as [[? ?|]|]; try discriminate; auto.
  Qed.

  (** Writing one file leaves the files at other locations alone. *)
Lemma read_other_after_write fs fs' p q d d' lp lq :
    FS.write_file q d' fs = Ok fs' ->
    FS.locate fs p = Ok lp -> FS.locate fs q = Ok lq -> lp <> lq ->
    FS.read_file p fs = Ok d -> FS.read_file p fs' = Ok d.
  Proof.
    intros Hw Hp Hq Hne. pose proof Hw as (l & m & Hl & Hn & Hd & ->)%write_file_inv.
    unfold FS.read_file.
    rewrite (locate_after_write _ _ _ _ _ _ Hw Hp), Hp.
    rewrite node_at_insert by assumption.
    assert (l = lq) as -> by congruence.
    destruct (decide (lq = lp)); [congruence | auto].
  Qed.

Lemma chmod_inv fs fs' p mode :
    FS.chmod p mode fs = Ok fs' ->
    fs' = fs \/
    exists loc, loc <> [] /\
      ((exists d m, fs !! loc = Some (File d m) /\ fs' = <[loc := File d mode]> fs) \/
       (exists m, fs !! loc = Some (Dir m) /\ fs' = <[loc := Dir mode]> fs)).
  Proof.
    unfold FS.chmod. destruct (FS.locate fs p) as [loc|]; [|discriminate].
    destruct loc as [|x loc]; [intros [= <-]; auto|].
    unfold FS.node_at.
    destruct (fs !! (x :: loc)) as [[d m|m]|] eqn:E; intros [= <-]; right;
      exists (x :: loc); (split; [discriminate|]); eauto.
  Qed.

  (** [chmod] changes modes only. *)
Lemma read_after_chmod fs fs' p q mode d :
    FS.chmod q mode fs = Ok fs' ->
    FS.read_file p fs = Ok d -> FS.read_file p fs' = Ok d.
  Proof.
    intros [->|(loc & Hne & H)]%chmod_inv; [auto|].
    assert (Hdir : forall l, FS.is_dir_at fs' l = FS.is_dir_at fs l).
    { intros l. unfold FS.is_dir_at.
      destruct H as [(d0 & m & E & ->)|(m & E & ->)];
        rewrite node_at_insert by assumption;
        (destruct (decide (loc = l)) as [<-|]; [|reflexivity]);
        unfold FS.node_at; destruct loc; try congruence; now rewrite E. }
    unfold FS.read_file, FS.locate.
    destruct (FS.resolve fs [] p) as [lp|] eqn:Hp; [|discriminate].
    rewrite (resolve_ok_ext fs fs' p [] lp Hdir Hp).
    destruct H as [(d0 & m & E & ->)|(m & E & ->)];
      rewrite node_at_insert by assumption;
      (destruct (decide (loc = lp)) as [<-|]; [|auto]);
      unfold FS.node_at; destruct loc; try congruence; rewrite E; auto; discriminate.
  Qed.

End FsFacts.

(** * Line ends and the marker *)

Lemma universal_newlines_lacks_cr (s : string) :
  lacks PyStr.CR (PyStr.universal_newlines s).
Proof.
  induction s as [|c s IH]; simpl; [exact I|].
  destruct (Ascii.eqb_spec c PyStr.CR) as [->|Hc].
  - destruct s as [|c' s]; [split; [discriminate|exact I]|].
    destruct (Ascii.eqb c' PyStr.LF); [exact IH|].
    split; [discriminate | exact IH].
  - split; assumption.
Qed.

Lemma universal_newlines_id (s : string) :
  lacks PyStr.CR s -> PyStr.universal_newlines s = s.
Proof.
  induction s as [|c s IH]; simpl; [reflexivity|]. intros [Hc Hs].
  destruct (Ascii.eqb_spec c PyStr.CR); [contradiction|]. now rewrite IH.
Qed.

Lemma contains_app_r (m a b : string) :
  PyStr.contains m b = true -> PyStr.contains m (a +:+ b) = true.
Proof.
  intros H. induction a as [|c a IH]; simpl; [assumption|].
  rewrite IH. apply orb_true_r.
Qed.

Lemma gitignore_content_marked :
  PyStr.contains gitignore_marker gitignore_content = true.
Proof. reflexivity. Qed.

Lemma gitignore_content_lacks_cr : lacks PyStr.CR gitignore_content.
Proof. cbv. intuition discriminate. Qed.

Lemma appended_marked (existing : string) :
  PyStr.contains gitignore_marker
    (PyStr.universal_newlines
       (PyStr.universal_newlines existing +:+ PyStr.nl +:+ gitignore_content)) = true.
Proof.
  rewrite universal_newlines_id.
  - do 2 apply contains_app_r. apply gitignore_content_marked.
  - apply lacks_app; [apply universal_newlines_lacks_cr|].
    apply lacks_app; [cbv; intuition discriminate | apply gitignore_content_lacks_cr].
Qed.

(** * The monad *)

Lemma write_text_run p text w :
  Sys.write_text p text w
  = match FS.write_file p text (fs w) with
    | Ok f => (Ok tt, with_fs (log w (EWriteText p text)) f)
    | Raise e => (Raise e, log w (EWriteText p text))
    end.
Proof. reflexivity. Qed.


Lemma create_gitignore_run self config w :
  create_gitignore self config w
  = if FS.path_exists (fs w) (gitignore_path self) then
      match FS.read_text (gitignore_path self) (fs w) with
      | Ok existing =>
          if PyStr.contains gitignore_marker existing then (Ok tt, w)
          else Sys.write_text (gitignore_path self)
                 (existing +:+ PyStr.nl +:+ gitignore_content) w
      | Raise e => (Raise e, w)
      end
    else Sys.write_text (gitignore_path self) gitignore_content w.
Proof.
  unfold create_gitignore, bind, Sys.path_exists, Sys.read_text, ret, gitignore_path.
  destruct (FS.path_exists (fs w) _); simpl; [|reflexivity].
  destruct (FS.read_text _ (fs w)) as [existing|]; [|reflexivity].
  destruct (PyStr.contains gitignore_marker existing); reflexivity.
Qed.

Lemma read_text_after_write fs0 fs' p d :
  FS.write_file p d fs0 = Ok fs' ->
  FS.read_text p fs' = Ok (PyStr.universal_newlines d) /\ FS.path_exists fs' p = true.
Proof.
  intros [Hr He]%read_after_write. unfold FS.read_text. now rewrite Hr.
Qed.

(** C3.  Running [create_gitignore] a second time changes nothing: from
    any world, the second run leaves the file system as the first run
    left it and ends as the first did; and when the first run raised
    nothing, the second sees the marker and leaves the whole world
    (file system and trace) untouched, so the block is not written
    twice. *)
Theorem create_gitignore_idempotent self config w :
  let once := create_gitignore self config w in
  let twice := create_gitignore self config (snd once) in
  fs (snd twice) = fs (snd once) /\
  fst twice = fst once /\
  (fst once = Ok tt -> snd twice = snd once).
Proof.
  cbv zeta. rewrite (create_gitignore_run self config w).
  set (gi := gitignore_path self).
  destruct (FS.path_exists (fs w) gi) eqn:Hex.
  - destruct (FS.read_text gi (fs w)) as [existing|e] eqn:Hrd.
    + destruct (PyStr.contains gitignore_marker existing) eqn:Hm.
      * simpl. rewrite create_gitignore_run. fold gi. rewrite Hex, Hrd, Hm. auto.
      * rewrite write_text_run.
        destruct (FS.write_file gi _ (fs w)) as [f|e] eqn:Hw.
        -- simpl. rewrite create_gitignore_run. fold gi. simpl.
           destruct (read_text_after_write _ _ _ _ Hw) as [-> ->].
           unfold FS.read_text in Hrd.
           destruct (FS.read_file gi (fs w)) as [raw|]; [|discriminate].
           injection Hrd as <-. rewrite appended_marked. auto.
        -- exfalso. unfold FS.read_text in Hrd.
           destruct (FS.read_file gi (fs w)) as [raw|] eqn:Hraw; [|discriminate].
           destruct (write_over_file _ _ _ (existing +:+ PyStr.nl +:+ gitignore_content) Hraw)
             as [f Hf]. congruence.
    + simpl. rewrite create_gitignore_run. fold gi. rewrite Hex, Hrd. auto.
  - rewrite write_text_run.
    destruct (FS.write_file gi gitignore_content (fs w)) as [f|e] eqn:Hw.
    + simpl. rewrite create_gitignore_run. fold gi. simpl.
      destruct (read_text_after_write _ _ _ _ Hw) as [-> ->].
      rewrite universal_newlines_id by apply gitignore_content_lacks_cr.
      rewrite gitignore_content_marked. auto.
    + simpl. rewrite create_gitignore_run. fold gi. simpl. rewrite Hex.
      rewrite write_text_run. simpl. rewrite Hw. simpl.
      split; [|split]; [reflexivity | reflexivity | discriminate].
Qed.

(** * Runs and their traces *)

Lemma same_env_refl w : same_env w w.
Proof. repeat split. Qed.

Lemma same_env_trans w1 w2 w3 : same_env w1 w2 -> same_env w2 w3 -> same_env w1 w3.
Proof.
  unfold same_env. intros (?&?&?&?&?) (?&?&?&?&?). repeat split; congruence.
Qed.

Lemma same_env_log w e : same_env w (log w e).
Proof. repeat split. Qed.

Lemma same_env_with_fs w f : same_env w (with_fs w f).
Proof. repeat split. Qed.

Lemma arrives_same_env w w' : same_env w w' -> arrives w' = arrives w.
Proof. intros (Hf & _ & _ & _ & Hc). unfold arrives. now rewrite Hf, Hc. Qed.



Lemma steps_events_app data a b f e1 f1 e2 f2 :
  steps_events data a f e1 f1 -> steps_events data b f1 e2 f2 ->
  steps_events data (a ++ b) f (e1 ++ e2) f2.
Proof.
  induction 1; intros Hb; simpl; [assumption| |].
  - rewrite <- app_assoc. econstructor; eauto.
  - constructor; auto.
Qed.

Lemma steps_events_one data url dest f evs f' :
  fetch_events data url dest f evs f' -> steps_events data [Fetch url dest] f evs f'.
Proof.
  intros H. rewrite <- (app_nil_r evs). econstructor; [eassumption | constructor].
Qed.

Lemma fetch_file_eq self path dest w :
  fetch_file self path dest w
  = let url := file_url self path in
    let w0 := log w (EMkdir (PyPath.parent dest) true) in
    match FS.mkdir true true (PyPath.parent dest) (fs w) with
    | Raise _ => (Ok false, w0)
    | Ok f1 =>
        let w1 := log (with_fs w0 f1) (EUrlretrieve url dest) in
        match net_file w url with
        | Some body =>
            match FS.write_file dest body f1 with
            | Ok f2 => (Ok true, with_fs w1 f2)
            | Raise _ => (Ok false, w1)
            end
        | None =>
            match net_cut w url with
            | Some part =>
                match FS.write_file dest part f1 with
                | Ok f2 => (Ok false, with_fs w1 f2)
                | Raise _ => (Ok false, w1)
                end
            | None => (Ok false, w1)
            end
        end
    end.
Proof.
  unfold fetch_file, try_except, Sys.mkdir, Sys.urlretrieve, emit, update_fs, ret, raise,
    bind, file_url. cbn [fs net_file net_cut log with_fs].
  destruct (FS.mkdir true true (PyPath.parent dest) (fs w)) as [f1|e1];
    cbn [fs net_file net_cut log with_fs]; [|reflexivity].
  destruct (net_file w (base_url self +:+ "/" +:+ path)) as [body|];
    cbn [fs net_file net_cut log with_fs].
  - destruct (FS.write_file dest body f1) as [f2|e2]; reflexivity.
  - destruct (net_cut w (base_url self +:+ "/" +:+ path)) as [part|];
      cbn [fs net_file net_cut log with_fs]; [|reflexivity].
    destruct (FS.write_file dest part f1) as [f2|e2]; reflexivity.
Qed.

(** [fetch_file] always returns, whatever the file system and the remote
    side do, and does what [fetch_events] says. *)
Lemma fetch_file_run self path dest w :
  exists b w' evs,
    fetch_file self path dest w = (Ok b, w') /\ same_env w w' /\
    trace w' = trace w ++ evs /\
    fetch_events (arrives w) (file_url self path) dest (fs w) evs (fs w').
Proof.
  rewrite fetch_file_eq. cbv zeta.
  destruct (FS.mkdir true true (PyPath.parent dest) (fs w)) as [f1|e1] eqn:Hm.
  2:{ eexists _, _, [EMkdir (PyPath.parent dest) true]. split; [reflexivity|].
      split; [repeat split|]. split; [reflexivity|].
      cbn [fs log]. eapply fetch_no_parent. eassumption. }
  destruct (net_file w (file_url self path)) as [body|] eqn:Hn;
    [destruct (FS.write_file dest body f1) as [f2|e2] eqn:Hw
    |destruct (net_cut w (file_url self path)) as [part|] eqn:Hc;
       [destruct (FS.write_file dest part f1) as [f2|e2] eqn:Hw|]];
    (eexists _, _,
       [EMkdir (PyPath.parent dest) true; EUrlretrieve (file_url self path) dest];
     split; [reflexivity|]; split; [repeat split|];
     split; [cbn [trace log with_fs]; now rewrite <- app_assoc|]);
    cbn [fs log with_fs].
  - eapply fetch_written; [eassumption | unfold arrives; now rewrite Hn | eassumption].
  - eapply fetch_unwritable; [eassumption | unfold arrives; now rewrite Hn | eassumption].
  - eapply fetch_written;
      [eassumption | unfold arrives; rewrite Hn; exact Hc | eassumption].
  - eapply fetch_unwritable;
      [eassumption | unfold arrives; rewrite Hn; exact Hc | eassumption].
  - eapply fetch_refused; [eassumption | unfold arrives; rewrite Hn; exact Hc].
Qed.

(** A download that is reported as done left the body at the destination. *)
Lemma fetch_file_true self path dest w w' :
  fetch_file self path dest w = (Ok true, w') ->
  exists body, net_file w (file_url self path) = Some body /\
               FS.read_file dest (fs w') = Ok body.
Proof.
  rewrite fetch_file_eq. cbv zeta.
  destruct (FS.mkdir true true (PyPath.parent dest) (fs w)) as [f1|e1]; [|discriminate].
  destruct (net_file w (file_url self path)) as [body|].
  - destruct (FS.write_file dest body f1) as [f2|e2] eqn:Hw; [|discriminate].
    intros [= <-]. exists body. split; [reflexivity|].
    cbn. now apply read_after_write in Hw.
  - destruct (net_cut w (file_url self path)) as [part|]; [|discriminate].
    destruct (FS.write_file dest part f1); discriminate.
Qed.

(** It is reported as done exactly when the parent directory could be
    made, the whole body arrived and the destination could be written. *)
Lemma fetch_file_true_iff self path dest w :
  fst (fetch_file self path dest w) = Ok true <->
  exists f1 body f2,
    FS.mkdir true true (PyPath.parent dest) (fs w) = Ok f1 /\
    net_file w (file_url self path) = Some body /\
    FS.write_file dest body f1 = Ok f2.
Proof.
  rewrite fetch_file_eq. cbv zeta.
  destruct (FS.mkdir true true (PyPath.parent dest) (fs w)) as [f1|e1].
  2:{ split; [discriminate|]. intros (? & ? & ? & ? & _). discriminate. }
  destruct (net_file w (file_url self path)) as [body|].
  - destruct (FS.write_file dest body f1) as [f2|e2] eqn:Hw.
    + split; [eauto 6 | reflexivity].
    + split; [discriminate|]. intros (? & ? & ? & [= <-] & [= <-] & H). congruence.
  - split.
    + destruct (net_cut w (file_url self path)) as [part|]; [|discriminate].
      destruct (FS.write_file dest part f1); discriminate.
    + intros (? & ? & ? & _ & ? & _). discriminate.
Qed.

Lemma files_loop_run self domain dest_dir (l : list json) : forall w,
  exists r w' evs,
    for_each l (apply_file self domain dest_dir) w = (r, w') /\ same_env w w' /\
    trace w' = trace w ++ evs /\
    match all_strings l with
    | Some names =>
        r = Ok tt /\
        steps_events (arrives w) (names_plan self domain dest_dir names) (fs w) evs (fs w')
    | None => exists e, r = Raise e
    end.
Proof.
  induction l as [|j l IH]; intros w.
  - exists (Ok tt), w, []. rewrite app_nil_r. repeat split; constructor.
  - assert (Hbad : (forall s, j <> JStr s) ->
      exists r w' evs, for_each (j :: l) (apply_file self domain dest_dir) w = (r, w') /\
        same_env w w' /\ trace w' = trace w ++ evs /\ exists e, r = Raise e).
    { intros Hj. exists (Raise TypeError), w, []. rewrite app_nil_r.
      destruct j; try (now repeat split; eauto). now destruct (Hj s). }
    destruct j as [| | |s| |];
      try (destruct Hbad as (r & w' & evs & ? & ? & ? & ?); [discriminate|];
           exists r, w', evs; simpl; auto).
    destruct (fetch_file_run self
                (PyStr.replace "//" "/"
                   ("domains/" +:+ domain +:+ "/" +:+ dest_dir +:+ "/" +:+ s))
                (project_root self </> dest_dir </> s) w)
      as (b & w1 & ev1 & Hf & He1 & Ht1 & Hs1).
    destruct (IH w1) as (r & w2 & ev2 & Hl & He2 & Ht2 & Hpost).
    rewrite (arrives_same_env _ _ He1) in Hpost.
    exists r, w2, (ev1 ++ ev2).
    split; [|split; [|split]].
    + cbn [for_each apply_file]. unfold bind at 1. unfold bind at 1.
      rewrite Hf. unfold ret at 1. exact Hl.
    + apply (same_env_trans _ w1); assumption.
    + rewrite Ht2, Ht1. now rewrite app_assoc.
    + cbn [all_strings]. destruct (all_strings l) as [names|]; [|assumption].
      destruct Hpost as [-> Hsteps]. split; [reflexivity|].
      cbn [names_plan List.map]. econstructor; eassumption.
Qed.


Lemma entry_body_run self domain dest_dir files w :
  exists r w' evs,
    entry_body self domain (dest_dir, files) w = (r, w') /\ same_env w w' /\
    trace w' = trace w ++ evs /\
    match listed_names files with
    | Some names =>
        r = Ok tt /\
        steps_events (arrives w) (names_plan self domain dest_dir names) (fs w) evs (fs w')
    | None => exists e, r = Raise e
    end.
Proof.
  unfold entry_body, listed_names, bind, lift_outcome.
  destruct (Json.iter files) as [l|e].
  - apply files_loop_run.
  - exists (Raise e), w, []. rewrite app_nil_r. repeat split. eauto.
Qed.

Lemma entries_loop_run self domain (entries : list (string * json)) : forall w,
  exists r w' evs,
    for_each entries (entry_body self domain) w = (r, w') /\ same_env w w' /\
    trace w' = trace w ++ evs /\
    match listed_entries entries with
    | Some files =>
        r = Ok tt /\
        steps_events (arrives w) (listed_plan self domain files) (fs w) evs (fs w')
    | None => exists e, r = Raise e
    end.
Proof.
  induction entries as [|[dest_dir files] entries IH]; intros w.
  - exists (Ok tt), w, []. rewrite app_nil_r. repeat split; constructor.
  - destruct (entry_body_run self domain dest_dir files w)
      as (r1 & w1 & ev1 & H1 & He1 & Ht1 & Hp1).
    cbn [for_each listed_entries]. unfold bind at 1. rewrite H1.
    destruct (listed_names files) as [names|].
    + destruct Hp1 as [-> Hs1].
      destruct (IH w1) as (r & w2 & ev2 & H2 & He2 & Ht2 & Hp2).
      rewrite (arrives_same_env _ _ He1) in Hp2.
      exists r, w2, (ev1 ++ ev2). split; [exact H2|].
      split; [apply (same_env_trans _ w1); assumption|].
      split; [rewrite Ht2, Ht1; now rewrite app_assoc|].
      destruct (listed_entries entries) as [rest|]; [|assumption].
      destruct Hp2 as [-> Hs2]. split; [reflexivity|].
      unfold listed_plan. cbn [List.map List.concat fst snd].
      eapply steps_events_app; eassumption.
    + destruct Hp1 as [e ->]. exists (Raise e), w1, ev1. eauto.
Qed.

Lemma fetch_domain_manifest_eq self domain w :
  fetch_domain_manifest self domain w
  = (Ok (default JNull (net_json w (manifest_url self domain))),
     log w (EUrlopen (manifest_url self domain))).
Proof.
  unfold fetch_domain_manifest, try_except, Sys.urlopen_json, emit, bind, ret,
    manifest_url, file_url.
  cbn [net_json log].
  destruct (net_json w _); reflexivity.
Qed.

Lemma apply_domain_eq self domain config w :
  apply_domain self domain config w
  = (manifest <- fetch_domain_manifest self domain ;;
     if negb (Json.truthy manifest) then ret false
     else
       files_map <- lift_outcome (Json.get manifest "files" (JObj [])) ;;
       entries <- lift_outcome (Json.items files_map) ;;
       for_each entries (entry_body self domain) ;;
       ret true) w.
Proof. reflexivity. Qed.

(** One domain: the manifest is asked for; without one nothing else
    happens; with one that can be gone through, every listed file is
    fetched in order. *)
Lemma apply_domain_run self domain config w :
  exists r w' evs,
    apply_domain self domain config w = (r, w') /\ same_env w w' /\
    trace w' = trace w ++ EUrlopen (manifest_url self domain) :: evs /\
    match net_json w (manifest_url self domain) with
    | None => r = Ok false /\ evs = [] /\ fs w' = fs w
    | Some m =>
        match manifest_listing m with
        | Some files =>
            r = Ok (Json.truthy m) /\
            steps_events (arrives w) (listed_plan self domain files) (fs w) evs (fs w')
        | None => exists e, r = Raise e
        end
    end.
Proof.
  rewrite apply_domain_eq. unfold bind at 1. rewrite fetch_domain_manifest_eq.
  set (w0 := log w (EUrlopen (manifest_url self domain))).
  assert (E0 : same_env w w0) by apply same_env_log.
  assert (T0 : forall evs, trace w0 ++ evs
                           = trace w ++ EUrlopen (manifest_url self domain) :: evs).
  { intros evs. subst w0. cbn. now rewrite <- app_assoc. }
  destruct (net_json w (manifest_url self domain)) as [m|]; cbn [default from_option id].
  - unfold manifest_listing. destruct (Json.truthy m) eqn:Htr; cbn [negb].
    + unfold bind, lift_outcome.
      destruct (Json.get m "files" (JObj [])) as [files_map|e];
        [|exists (Raise e), w0, []; rewrite <- T0, app_nil_r; eauto 6].
      destruct (Json.items files_map) as [entries|e];
        [|exists (Raise e), w0, []; rewrite <- T0, app_nil_r; eauto 6].
      destruct (entries_loop_run self domain entries w0)
        as (r & w1 & evs & H1 & He1 & Ht1 & Hp1).
      rewrite (arrives_same_env _ _ E0) in Hp1.
      rewrite H1. destruct (listed_entries entries) as [files|].
      * destruct Hp1 as [-> Hs]. exists (Ok true), w1, evs.
        split; [reflexivity|]. split; [apply (same_env_trans _ w0); assumption|].
        split; [now rewrite Ht1, T0 | auto].
      * destruct Hp1 as [e ->]. exists (Raise e), w1, evs.
        split; [reflexivity|]. split; [apply (same_env_trans _ w0); assumption|].
        split; [now rewrite Ht1, T0 | eauto].
    + exists (Ok false), w0, []. rewrite <- T0, app_nil_r.
      split; [reflexivity|]. split; [exact E0|]. split; [reflexivity|].
      split; [reflexivity | constructor].
  - exists (Ok false), w0, []. rewrite <- T0, app_nil_r.
    repeat split; apply E0.
Qed.


Lemma setup_project_phases title lower self config :
  setup_project title lower self config
  = (Sys.mkdir false true (claude_dir self) ;;
     fetch_core self ;;
     apply_domains self config ;;
     create_claude_md title lower self config ;;
     create_gitignore self config ;;
     make_hooks_executable self).
Proof.
  unfold setup_project, fetch_core, apply_domains, make_hooks_executable, hooks_dir,
    claude_dir.
  reflexivity.
Qed.

Lemma fetch_loop_run self (dest : string -> list string) (l : list string) : forall w,
  exists w' evs,
    for_each l (fun file_path => fetch_file self file_path (dest file_path) ;; ret tt) w
    = (Ok tt, w') /\ same_env w w' /\ trace w' = trace w ++ evs /\
    steps_events (arrives w) (List.map (fun p => Fetch (file_url self p) (dest p)) l)
                 (fs w) evs (fs w').
Proof.
  induction l as [|p l IH]; intros w.
  - exists w, []. rewrite app_nil_r. repeat split. constructor.
  - destruct (fetch_file_run self p (dest p) w) as (b & w1 & ev1 & H1 & He1 & Ht1 & Hs1).
    destruct (IH w1) as (w2 & ev2 & H2 & He2 & Ht2 & Hs2).
    rewrite (arrives_same_env _ _ He1) in Hs2.
    exists w2, (ev1 ++ ev2). split; [|split; [|split]].
    + cbn [for_each]. unfold bind at 1. unfold bind at 1. rewrite H1. exact H2.
    + apply (same_env_trans _ w1); assumption.
    + rewrite Ht2, Ht1. now rewrite app_assoc.
    + cbn [List.map]. econstructor; eassumption.
Qed.

Lemma fetch_core_run self w :
  exists w' evs,
    fetch_core self w = (Ok tt, w') /\ same_env w w' /\ trace w' = trace w ++ evs /\
    steps_events (arrives w) (core_plan self) (fs w) evs (fs w').
Proof.
  apply (fetch_loop_run self (fun p => project_root self </> PyStr.replace "core/" "" p)
           core_files).
Qed.

Lemma apply_domains_loop self config (ds : list string) : forall w,
  exists r w' evs,
    for_each ds (fun domain => apply_domain self domain config ;; ret tt) w = (r, w') /\
    same_env w w' /\ trace w' = trace w ++ evs /\
    (manifests_readable self (net_json w) ds -> r = Ok tt) /\
    (r = Ok tt ->
     steps_events (arrives w) (domains_plan self (net_json w) ds) (fs w) evs (fs w')).
Proof.
  induction ds as [|d ds IH]; intros w.
  - exists (Ok tt), w, []. rewrite app_nil_r. repeat split. constructor.
  - destruct (apply_domain_run self d config w) as (r1 & w1 & ev1 & H1 & He1 & Ht1 & Hp1).
    destruct r1 as [b|e].
    + assert (Heq : for_each (d :: ds)
                      (fun domain => apply_domain self domain config ;; ret tt) w
                    = for_each ds
                        (fun domain => apply_domain self domain config ;; ret tt) w1).
      { cbn [for_each]. unfold bind at 1. unfold bind at 1. rewrite H1. reflexivity. }
      assert (Hs : steps_events (arrives w) (domain_plan self (net_json w) d) (fs w)
                                (EUrlopen (manifest_url self d) :: ev1) (fs w1)).
      { unfold domain_plan.
        destruct (net_json w (manifest_url self d)) as [m|].
        - destruct (manifest_listing m) as [files|].
          + destruct Hp1 as [_ Hs]. cbn [default from_option id]. now constructor.
          + destruct Hp1 as [e He]. discriminate.
        - destruct Hp1 as (_ & -> & ->). repeat constructor. }
      destruct (IH w1) as (r & w2 & ev2 & H2 & He2 & Ht2 & Hr2 & Hp2).
      assert (Hnet : net_json w1 = net_json w) by apply He1.
      rewrite Hnet in Hr2, Hp2. rewrite (arrives_same_env _ _ He1) in Hp2.
      exists r, w2, ((EUrlopen (manifest_url self d) :: ev1) ++ ev2).
      split; [now rewrite Heq|]. split; [apply (same_env_trans _ w1); assumption|].
      split; [rewrite Ht2, Ht1; now rewrite <- app_assoc|].
      split.
      * intros Hrd. apply Hr2. intros x m Hx. apply Hrd. now right.
      * intros Hr. unfold domains_plan. cbn [List.map List.concat].
        eapply steps_events_app; [exact Hs | now apply Hp2].
    + exists (Raise e), w1, (EUrlopen (manifest_url self d) :: ev1).
      split; [cbn [for_each]; unfold bind at 1; unfold bind at 1; now rewrite H1|].
      split; [assumption|]. split; [assumption|]. split; [|discriminate].
      intros Hrd. exfalso.
      destruct (net_json w (manifest_url self d)) as [m|] eqn:Hm.
      * destruct (Hrd d m) as [x Hx]; [now left | assumption |].
        rewrite Hx in Hp1. destruct Hp1 as [? _]. discriminate.
      * destruct Hp1 as [? _]. discriminate.
Qed.

Lemma apply_domains_run self config w :
  exists r w' evs,
    apply_domains self config w = (r, w') /\ same_env w w' /\
    trace w' = trace w ++ evs /\
    (manifests_readable self (net_json w) (domains config) -> r = Ok tt) /\
    (r = Ok tt ->
     steps_events (arrives w) (domains_plan self (net_json w) (domains config))
                  (fs w) evs (fs w')).
Proof. apply apply_domains_loop. Qed.

Lemma bind_run {A B} (m : M A) (k : A -> M B) w :
  bind m k w
  = match m w with
    | (Ok a, w') => k a w'
    | (Raise e, w') => (Raise e, w')
    end.
Proof. reflexivity. Qed.

Lemma mkdir_run parents exist_ok p w :
  Sys.mkdir parents exist_ok p w
  = match FS.mkdir parents exist_ok p (fs w) with
    | Ok f => (Ok tt, with_fs (log w (EMkdir p parents)) f)
    | Raise e => (Raise e, log w (EMkdir p parents))
    end.
Proof. reflexivity. Qed.

Lemma chmod_run p mode w :
  Sys.chmod p mode w
  = match FS.chmod p mode (fs w) with
    | Ok f => (Ok tt, with_fs (log w (EChmod p mode)) f)
    | Raise e => (Raise e, log w (EChmod p mode))
    end.
Proof. reflexivity. Qed.

Lemma create_claude_md_run title lower self config w :
  create_claude_md title lower self config w
  = Sys.write_text (claude_md_path self) (claude_md_text title lower config) w.
Proof. unfold create_claude_md, claude_md_path. reflexivity. Qed.

Lemma read_text_of_file f p d :
  FS.read_file p f = Ok d -> FS.read_text p f = Ok (PyStr.universal_newlines d).
Proof. intros H. unfold FS.read_text. now rewrite H. Qed.

(** What a [gitignore_step] leaves: a file that holds the marker, and a
    file system that is the old one or the old one with that file
    written. *)
Lemma gitignore_step_marked gi f t f' :
  gitignore_step gi f t f' ->
  (exists text, FS.read_text gi f' = Ok text /\
                PyStr.contains gitignore_marker text = true) /\
  (f' = f \/ exists text, FS.write_file gi text f = Ok f').
Proof.
  intros [old Hr Hm|old f1 Hr Hm Hw|f1 He Hw].
  - split; [eauto | auto].
  - split; [|eauto]. destruct (read_text_after_write _ _ _ _ Hw) as [-> _].
    eexists. split; [reflexivity|]. unfold FS.read_text in Hr.
    destruct (FS.read_file gi f) as [raw|]; [|discriminate].
    injection Hr as <-. apply appended_marked.
  - split; [|eauto]. destruct (read_text_after_write _ _ _ _ Hw) as [-> _].
    eexists. split; [reflexivity|].
    rewrite universal_newlines_id by apply gitignore_content_lacks_cr.
    apply gitignore_content_marked.
Qed.

(** [create_gitignore]: at most one write, to [.gitignore]; a run that
    raises nothing is a [gitignore_step]. *)
Lemma create_gitignore_spec self config w :
  exists r w' t,
    create_gitignore self config w = (r, w') /\ same_env w w' /\
    trace w' = trace w ++ t /\
    (t = [] \/ exists text, t = [EWriteText (gitignore_path self) text]) /\
    (r = Ok tt -> gitignore_step (gitignore_path self) (fs w) t (fs w')).
Proof.
  rewrite create_gitignore_run. set (gi := gitignore_path self).
  assert (W : forall text,
    (forall f', FS.write_file gi text (fs w) = Ok f' ->
                gitignore_step gi (fs w) [EWriteText gi text] f') ->
    exists r w' t,
      Sys.write_text gi text w = (r, w') /\ same_env w w' /\ trace w' = trace w ++ t /\
      (t = [] \/ exists text, t = [EWriteText gi text]) /\
      (r = Ok tt -> gitignore_step gi (fs w) t (fs w'))).
  { intros text Hs. rewrite write_text_run.
    destruct (FS.write_file gi text (fs w)) as [f|e] eqn:Hw.
    - eexists _, _, _. split; [reflexivity|]. split; [repeat split|].
      split; [reflexivity|]. split; [eauto|]. intros _. cbn [fs with_fs]. now apply Hs.
    - eexists _, _, _. split; [reflexivity|]. split; [repeat split|].
      split; [reflexivity|]. split; [eauto|]. discriminate. }
  destruct (FS.path_exists (fs w) gi) eqn:Hex.
  - destruct (FS.read_text gi (fs w)) as [existing|e] eqn:Hrd.
    + destruct (PyStr.contains gitignore_marker existing) eqn:Hm.
      * exists (Ok tt), w, []. rewrite app_nil_r. split; [reflexivity|].
        split; [repeat split|]. split; [reflexivity|]. split; [auto|].
        intros _. eapply gitignore_kept; eassumption.
      * apply W. intros f' Hw. eapply gitignore_extended; eassumption.
    + exists (Raise e), w, []. rewrite app_nil_r. split; [reflexivity|].
      split; [repeat split|]. split; [reflexivity|]. split; [auto|]. discriminate.
  - apply W. intros f' Hw. now apply gitignore_made.
Qed.

Lemma chmod_loop_spec (hooks : list (list string)) : forall w,
  exists r w' t,
    for_each hooks (fun hook_file => Sys.chmod hook_file 493) w = (r, w') /\
    same_env w w' /\ trace w' = trace w ++ t /\
    (r = Ok tt -> t = List.map (fun p => EChmod p 493) hooks) /\
    (forall p d, FS.read_file p (fs w) = Ok d -> FS.read_file p (fs w') = Ok d).
Proof.
  induction hooks as [|h hooks IH]; intros w.
  - exists (Ok tt), w, []. rewrite app_nil_r. repeat split; auto.
  - cbn [for_each]. rewrite bind_run, chmod_run.
    destruct (FS.chmod h 493 (fs w)) as [f|e] eqn:Hc.
    + set (w1 := with_fs (log w (EChmod h 493)) f).
      destruct (IH w1) as (r & w2 & t & H2 & He2 & Ht2 & Hr2 & Hf2).
      exists r, w2, (EChmod h 493 :: t). split; [exact H2|].
      split; [apply (same_env_trans _ w1); [repeat split | assumption]|].
      split; [rewrite Ht2; subst w1; cbn; now rewrite <- app_assoc|].
      split; [intros Hr; cbn [List.map]; now rewrite Hr2|].
      intros p d Hp. apply Hf2. subst w1. cbn [fs with_fs].
      eapply read_after_chmod; eassumption.
    + exists (Raise e), (log w (EChmod h 493)), [EChmod h 493].
      split; [reflexivity|]. split; [repeat split|]. split; [reflexivity|].
      split; [discriminate | auto].
Qed.

Lemma make_hooks_executable_spec self w :
  exists r w' t,
    make_hooks_executable self w = (r, w') /\ same_env w w' /\
    trace w' = trace w ++ t /\
    (r = Ok tt -> t = List.map (fun p => EChmod p 493) (hook_files self (fs w))) /\
    (forall p d, FS.read_file p (fs w) = Ok d -> FS.read_file p (fs w') = Ok d).
Proof.
  unfold make_hooks_executable, hook_files, Sys.path_exists, Sys.glob_py.
  rewrite bind_run.
  destruct (FS.path_exists (fs w) (hooks_dir self)).
  - rewrite bind_run. apply chmod_loop_spec.
  - exists (Ok tt), w, []. rewrite app_nil_r. repeat split; auto.
Qed.

(** Two entries of one directory lie at different places. *)
Lemma locate_child f root x :
  x <> ".." -> forall l,
  FS.locate f (root ++ [x]) = Ok l -> exists c, l = c ++ [x].
Proof.
  intros Hx l. unfold FS.locate. rewrite resolve_app.
  destruct (FS.resolve f [] root) as [c|]; [|discriminate].
  cbn [FS.resolve]. destruct (FS.is_dir_at f c); [|discriminate].
  destruct (PyStr.eqb x "..") eqn:E.
  - apply String.eqb_eq in E. contradiction.
  - intros [= <-]. eauto.
Qed.

Lemma claude_md_apart self f lp lq :
  FS.locate f (claude_md_path self) = Ok lp ->
  FS.locate f (gitignore_path self) = Ok lq -> lp <> lq.
Proof.
  unfold claude_md_path, gitignore_path.
  change (project_root self </> "CLAUDE.md") with (project_root self ++ ["CLAUDE.md"]).
  change (project_root self </> ".gitignore") with (project_root self ++ [".gitignore"]).
  intros [c ->]%locate_child [c' ->]%locate_child; try discriminate.
  intros [_ H]%app_inj_tail. discriminate.
Qed.

Lemma read_file_located f p d : FS.read_file p f = Ok d -> exists l, FS.locate f p = Ok l.
Proof.
  unfold FS.read_file. destruct (FS.locate f p) as [l|]; [eauto | discriminate].
Qed.

(** What a complete run of [setup_project] went through: the file
    systems between its phases, the calls of each phase, and what the
    two written files hold at the end. *)
Lemma setup_project_inv title lower self config w w' :
  setup_project title lower self config w = (Ok tt, w') ->
  exists f0 t_core f1 t_dom f2 f3 t_git w4,
    FS.mkdir false true (claude_dir self) (fs w) = Ok f0 /\
    steps_events (arrives w) (core_plan self) f0 t_core f1 /\
    steps_events (arrives w) (domains_plan self (net_json w) (domains config))
                 f1 t_dom f2 /\
    FS.write_file (claude_md_path self) (claude_md_text title lower config) f2 = Ok f3 /\
    gitignore_step (gitignore_path self) f3 t_git (fs w4) /\
    trace w4 = trace w ++ [EMkdir (claude_dir self) false] ++ t_core ++ t_dom
               ++ [EWriteText (claude_md_path self) (claude_md_text title lower config)]
               ++ t_git /\
    make_hooks_executable self w4 = (Ok tt, w') /\
    trace w' = trace w4 ++ List.map (fun p => EChmod p 493) (hook_files self (fs w4)) /\
    FS.read_file (claude_md_path self) (fs w') = Ok (claude_md_text title lower config) /\
    exists text, FS.read_text (gitignore_path self) (fs w') = Ok text /\
                 PyStr.contains gitignore_marker text = true.
Proof.
  intros H. rewrite setup_project_phases in H. rewrite bind_run, mkdir_run in H.
  destruct (FS.mkdir false true (claude_dir self) (fs w)) as [f0|] eqn:Hmk;
    [|discriminate].
  set (w0 := with_fs (log w (EMkdir (claude_dir self) false)) f0) in H.
  rewrite bind_run in H.
  destruct (fetch_core_run self w0) as (w1 & t1 & H1 & E1 & T1 & S1). rewrite H1 in H.
  rewrite bind_run in H.
  destruct (apply_domains_run self config w1) as (r2 & w2 & t2 & H2 & E2 & T2 & _ & S2).
  rewrite H2 in H. destruct r2 as [[]|]; [|discriminate].
  rewrite bind_run, create_claude_md_run, write_text_run in H.
  set (cm := claude_md_path self) in *. set (text := claude_md_text title lower config) in *.
  destruct (FS.write_file cm text (fs w2)) as [f3|] eqn:Hw; [|discriminate].
  set (w3 := with_fs (log w2 (EWriteText cm text)) f3) in H.
  rewrite bind_run in H.
  destruct (create_gitignore_spec self config w3)
    as (r4 & w4 & t4 & H4 & E4 & T4 & _ & P4).
  rewrite H4 in H. destruct r4 as [[]|]; [|discriminate].
  destruct (make_hooks_executable_spec self w4) as (r5 & w5 & t5 & H5 & E5 & T5 & R5 & F5).
  pose proof H as Hrun.
  rewrite H5 in H. injection H as -> ->.
  specialize (P4 eq_refl). destruct (gitignore_step_marked _ _ _ _ P4) as [Hmark Hframe].
  assert (A0 : arrives w0 = arrives w) by (apply arrives_same_env; repeat split).
  assert (A1 : arrives w1 = arrives w) by (rewrite (arrives_same_env _ _ E1); exact A0).
  assert (Hnet : net_json w1 = net_json w) by apply E1.
  rewrite A0 in S1. specialize (S2 eq_refl). rewrite A1, Hnet in S2.
  exists f0, t1, (fs w1), t2, (fs w2), f3, t4, w4.
  split; [reflexivity|]. split; [exact S1|]. split; [exact S2|]. split; [exact Hw|].
  split; [exact P4|]. split; [|split; [exact Hrun|split; [|split]]].
  - rewrite T4. subst w3. cbn [trace log with_fs]. rewrite T2, T1. subst w0.
    cbn [trace log with_fs]. now rewrite <- !app_assoc.
  - rewrite T5. now rewrite (R5 eq_refl).
  - apply F5.
    assert (Hcm : FS.read_file cm (fs w3) = Ok text).
    { subst w3. cbn [fs with_fs]. apply read_after_write in Hw. exact (proj1 Hw). }
    destruct Hframe as [->|[gtext Hg]]; [exact Hcm|].
    destruct (read_file_located _ _ _ Hcm) as [lp Hlp].
    destruct (write_file_inv _ _ _ _ Hg) as (lq & m & Hlq & _).
    eapply (read_other_after_write _ _ _ _ _ _ _ _ Hg Hlp Hlq); [|exact Hcm].
    eapply claude_md_apart; eassumption.
  - destruct Hmark as (gtext & Hr & Hm). unfold FS.read_text in Hr.
    destruct (FS.read_file (gitignore_path self) (fs w4)) as [raw|] eqn:Hraw;
      [|discriminate].
    injection Hr as <-. exists (PyStr.universal_newlines raw). split; [|exact Hm].
    apply read_text_of_file. now apply F5.
Qed.


(** * Prompts *)

Lemma input_run w :
  Sys.input w
  = match stdin w with
    | [] => (Raise EOFError, log w EInput)
    | l :: ls => (Ok l, with_stdin (log w EInput) ls)
    end.
Proof. unfold Sys.input. rewrite bind_run. cbn. destruct (stdin w); reflexivity. Qed.


Lemma extends_ret {A} (a : A) : extends (ret a).
Proof. intros w r w' [= <- <-]. exists []. now rewrite app_nil_r. Qed.

Lemma extends_raise {A} e : extends (@raise A e).
Proof. intros w r w' [= <- <-]. exists []. now rewrite app_nil_r. Qed.

Lemma extends_bind {A B} (m : M A) (k : A -> M B) :
  extends m -> (forall a, extends (k a)) -> extends (bind m k).
Proof.
  intros Hm Hk w r w'. rewrite bind_run.
  destruct (m w) as [[a|e] w1] eqn:E; destruct (Hm _ _ _ E) as [t1 T1].
  - intros H. destruct (Hk a _ _ _ H) as [t2 T2]. exists (t1 ++ t2).
    now rewrite T2, T1, app_assoc.
  - intros [= <- <-]. eauto.
Qed.

Lemma extends_input : extends Sys.input.
Proof.
  intros w r w'. rewrite input_run.
  destruct (stdin w); intros [= <- <-]; exists [EInput]; reflexivity.
Qed.

Create HintDb ext.
#[local] Hint Resolve extends_ret extends_raise extends_input : ext.

Lemma extends_select_project_type py_int pending :
  extends (select_project_type py_int pending).
Proof.
  induction pending as [|l pending IH]; cbn [select_project_type].
  - apply extends_bind; auto with ext.
  - apply extends_bind; [auto with ext|]. intros line.
    destruct (py_int (PyStr.or_else line "1")) as [choice|]; [|exact IH].
    destruct ((1 <=? choice)%Z && (choice <=? Z.of_nat (List.length project_types))%Z);
      auto with ext.
Qed.

Lemma extends_ask_domains lower candidates : forall selected,
  extends (ask_domains lower candidates selected).
Proof.
  induction candidates as [|d candidates IH]; intros selected; cbn [ask_domains].
  - auto with ext.
  - apply extends_bind; [auto with ext|]. intros line.
    destruct (PyStr.eqb (lower (PyStr.strip line)) "y"
              || PyStr.eqb (lower (PyStr.strip line)) "yes"); apply IH.
Qed.

(** The first thing [interactive_setup] does is to prompt. *)
Lemma interactive_setup_prompts lower py_int self w r w' :
  interactive_setup lower py_int self w = (r, w') ->
  exists rest, trace w' = trace w ++ EInput :: rest.
Proof.
  unfold interactive_setup. rewrite bind_run, input_run.
  assert (K : forall line, extends (
      type <- (fun w => select_project_type py_int (stdin w) w) ;;
      selected_domains <- ask_domains lower (tl (available_domains self)) ["git"] ;;
      desc <- Sys.input ;;
      ret (mkConfig (PyStr.or_else (PyStr.strip line) (PyPath.name (project_root self)))
                    type selected_domains (Some (PyStr.strip desc))))).
  { intros line. apply extends_bind.
    - intros w0 r0 w0' H0. eapply extends_select_project_type; eassumption.
    - intros ty. apply extends_bind; [apply extends_ask_domains|].
      intros sel. apply extends_bind; auto with ext. }
  destruct (stdin w) as [|l ls].
  - intros [= <- <-]. exists []. reflexivity.
  - intros H. destruct (K l _ _ _ H) as [t T]. exists t. rewrite T. cbn.
    now rewrite <- app_assoc.
Qed.

(** What [ask_domains] returns: the list it was given, followed by some
    of the candidates. *)
Lemma ask_domains_result lower candidates : forall selected w r w',
  ask_domains lower candidates selected w = (Ok r, w') ->
  exists chosen, r = selected ++ chosen /\ forall x, In x chosen -> In x candidates.
Proof.
  induction candidates as [|d candidates IH]; intros selected w r w';
    cbn [ask_domains].
  - intros [= <- <-]. exists []. rewrite app_nil_r. split; [reflexivity | contradiction].
  - rewrite bind_run, input_run. destruct (stdin w) as [|l ls]; [discriminate|].
    destruct (PyStr.eqb (lower (PyStr.strip l)) "y"
              || PyStr.eqb (lower (PyStr.strip l)) "yes"); intros H;
      destruct (IH _ _ _ _ H) as (chosen & -> & Hin).
    + exists (d :: chosen). rewrite <- app_assoc. split; [reflexivity|].
      intros x [<-|Hx]; [now left | right; auto].
    + exists chosen. split; [reflexivity|]. intros x Hx. right. auto.
Qed.

Lemma interactive_setup_domains lower py_int self w cfg w' :
  interactive_setup lower py_int self w = (Ok cfg, w') ->
  exists chosen, domains cfg = "git" :: chosen /\
                 forall x, In x chosen -> In x (tl (available_domains self)).
Proof.
  unfold interactive_setup. rewrite bind_run.
  destruct (Sys.input w) as [[line|] w1]; [|discriminate].
  rewrite bind_run.
  destruct (select_project_type py_int (stdin w1) w1) as [[ty|] w2]; [|discriminate].
  rewrite bind_run.
  destruct (ask_domains lower (tl (available_domains self)) ["git"] w2)
    as [[sel|] w3] eqn:Ha; [|discriminate].
  rewrite bind_run. destruct (Sys.input w3) as [[desc|] w4]; [|discriminate].
  intros [= <- <-]. cbn [domains].
  destruct (ask_domains_result _ _ _ _ _ _ Ha) as (chosen & -> & Hin). eauto.
Qed.

Lemma count_git_filtered (l : list string) :
  count_occ string_dec
    (List.map PyStr.strip
       (List.filter (fun d => negb (PyStr.eqb (PyStr.strip d) "git")) l)) "git" = 0.
Proof.
  induction l as [|d l IH]; [reflexivity|]. cbn [List.filter].
  destruct (PyStr.eqb (PyStr.strip d) "git") eqn:E; cbn [negb]; [exact IH|].
  cbn [List.map count_occ]. destruct (string_dec (PyStr.strip d) "git") as [Heq|_].
  - apply String.eqb_neq in E. contradiction.
  - exact IH.
Qed.

Lemma count_absent (l : list string) x :
  ~ In x l -> count_occ string_dec l x = 0.
Proof. apply count_occ_not_In. Qed.

(** * The claims *)

(** The claims about the run of [setup_project] as a whole (C1, C5, C7)
    and the amended C2 come last, after the facts they use. *)



(** A line break in the name has the same effect: the document then has
    an earlier line that starts with the label. *)
Example reparse_reads_injected_line :
  Reparse.domains_of
    (claude_md_text PyStr.ascii_title PyStr.ascii_lower
       (mkConfig ("x" +:+ PyStr.nl +:+ "**Domains**: aws") "Custom" ["git"] None))
  = Some ["aws"].
Proof. vm_compute. reflexivity. Qed.

(** C4.  The command line [--name demo --domains git,python] takes the
    branch without prompts: the configuration is built from the flags in
    an unchanged world, its domain list is [git; python], the Domains
    line of the document rendered from it reads [git, python], and every
    run of [main] that raises nothing leaves that document in CLAUDE.md
    of the working directory. *)
Theorem demo_writes_git_python title lower py_int w :
  (forall bootstrap,
     main_config lower py_int bootstrap Demo.args w = (Ok Demo.config, w)) /\
  config_from_args Demo.args = Demo.config /\
  domains Demo.config = ["git"; "python"] /\
  Reparse.domains_value (claude_md_text title lower Demo.config) = Some "git, python" /\
  (forall w', main title lower py_int Demo.args w = (Ok tt, w') ->
     FS.read_file (cwd w ++ ["CLAUDE.md"]) (fs w')
     = Ok (claude_md_text title lower Demo.config)).
Proof.
  split; [reflexivity|]. split; [reflexivity|]. split; [reflexivity|]. split.
  - rewrite domains_value_rendered; [reflexivity| | | |];
      repeat constructor; discriminate.
  - intros w' H. unfold main in H. rewrite bind_run in H. unfold init at 1 in H.
    destruct (FS.path_is_dir (fs w) (cwd w)); [|discriminate].
    rewrite bind_run in H.
    change (main_config lower py_int _ Demo.args w) with (Ok Demo.config, w) in H.
    apply setup_project_inv in H.
    destruct H as (? & ? & ? & ? & ? & ? & ? & ? & _ & _ & _ & _ & _ & _ & _ & _ & H & _).
    exact H.
Qed.

Lemma demo_writes_git_python_witness :
  let w' := snd (main PyStr.ascii_title PyStr.ascii_lower PyStr.ascii_int
                   Demo.args Demo.project) in
  main PyStr.ascii_title PyStr.ascii_lower PyStr.ascii_int Demo.args Demo.project
  = (Ok tt, w') /\
  FS.read_file ["proj"; "CLAUDE.md"] (fs w')
  = Ok (claude_md_text PyStr.ascii_title PyStr.ascii_lower Demo.config).
Proof.
  intros w'.
  assert (H : main PyStr.ascii_title PyStr.ascii_lower PyStr.ascii_int
                Demo.args Demo.project = (Ok tt, w')) by (vm_compute; reflexivity).
  split; [exact H|].
  exact (proj2 (proj2 (proj2 (proj2
           (demo_writes_git_python PyStr.ascii_title PyStr.ascii_lower
              PyStr.ascii_int Demo.project)))) w' H).
Defined.

Lemma core_plan_explicit self :
  core_plan self
  = [ Fetch (base_url self +:+ "/core/.claude/settings.json")
            (project_root self ++ [".claude"; "settings.json"]);
      Fetch (base_url self +:+ "/core/.claude/hooks/pre-tool-use-safety.py")
            (project_root self ++ [".claude"; "hooks"; "pre-tool-use-safety.py"]);
      Fetch (base_url self +:+ "/core/.claude/hooks/project-boundary.py")
            (project_root self ++ [".claude"; "hooks"; "project-boundary.py"]);
      Fetch (base_url self +:+ "/core/.claude/commands/help.md")
            (project_root self ++ [".claude"; "commands"; "help.md"]) ].
Proof. reflexivity. Qed.

(** C6.  [main] prompts exactly when [--interactive] is given or one of
    [--name] and [--domains] is missing or empty: then the configuration
    is whatever [interactive_setup] returns, and the first call it makes
    is a prompt.  Otherwise the configuration is built from the flags
    alone, nothing is read and the world is left as it was; the type is
    the [--type] flag, or [Custom] when that is missing or empty. *)
Theorem main_prompts_iff lower py_int bootstrap args w r w' :
  main_config lower py_int bootstrap args w = (r, w') ->
  ((exists rest, trace w' = trace w ++ EInput :: rest) <->
   (arg_interactive args = true \/ given (arg_name args) = false
    \/ given (arg_domains args) = false)) /\
  ((arg_interactive args = true \/ given (arg_name args) = false
    \/ given (arg_domains args) = false) ->
   interactive_setup lower py_int bootstrap w = (r, w')) /\
  (arg_interactive args = false -> given (arg_name args) = true ->
   given (arg_domains args) = true ->
   r = Ok (config_from_args args) /\ w' = w /\
   name (config_from_args args) = default "" (arg_name args) /\
   ptype (config_from_args args)
   = match arg_type args with
     | Some (String c s) => String c s
     | _ => "Custom"
     end).
Proof.
  unfold main_config. intros H.
  destruct (arg_interactive args) eqn:Hi; cbn [orb] in H.
  - split; [|split].
    + split; [auto|]. intros _. eapply interactive_setup_prompts; eassumption.
    + auto.
    + discriminate.
  - destruct (given (arg_name args)) eqn:Hn; cbn [andb negb] in H.
    + destruct (given (arg_domains args)) eqn:Hd; cbn [negb] in H.
      * injection H as <- <-. split; [|split].
        -- split; [|intros [|[|]]; discriminate].
           intros [rest Hr]. rewrite <- (app_nil_r (trace w)) in Hr at 1.
           apply app_inv_head in Hr. discriminate.
        -- intros [|[|]]; discriminate.
        -- intros _ _ _. repeat split.
           unfold config_from_args, opt_or, PyStr.or_else. cbn [ptype].
           destruct (arg_type args) as [[|c s]|]; reflexivity.
      * split; [|split].
        -- split; [auto|]. intros _. eapply interactive_setup_prompts; eassumption.
        -- auto.
        -- discriminate.
    + split; [|split].
      * split; [auto|]. intros _. eapply interactive_setup_prompts; eassumption.
      * auto.
      * discriminate.
Qed.

Lemma main_prompts_iff_witness :
  main_config PyStr.ascii_lower PyStr.ascii_int Demo.self Demo.args Demo.project
  = (Ok Demo.config, Demo.project) /\
  ~ (exists rest, trace Demo.project = trace Demo.project ++ EInput :: rest).
Proof.
  assert (H : main_config PyStr.ascii_lower PyStr.ascii_int Demo.self Demo.args
                Demo.project = (Ok Demo.config, Demo.project)) by reflexivity.
  split; [exact H|].
  intros Hp.
  apply (proj1 (main_prompts_iff PyStr.ascii_lower PyStr.ascii_int Demo.self
                  Demo.args Demo.project _ _ H)) in Hp.
  destruct Hp as [Hp|[Hp|Hp]]; vm_compute in Hp; discriminate.
Defined.

Lemma all_strings_map (names : list string) :
  all_strings (List.map JStr names) = Some names.
Proof.
  induction names as [|n names IH]; [reflexivity|].
  cbn [List.map all_strings]. now rewrite IH.
Qed.

Lemma listed_entries_files_json (files : list (string * list string)) :
  listed_entries (List.map (fun e => (fst e, JArr (List.map JStr (snd e)))) files)
  = Some files.
Proof.
  induction files as [|[d names] files IH]; [reflexivity|].
  cbn [List.map listed_entries fst snd]. unfold listed_names. cbn [Json.iter].
  now rewrite all_strings_map, IH.
Qed.

(** A manifest of the documented format can be gone through, and lists
    what its [files] member holds. *)
Lemma manifest_listing_documented members files :
  Json.assoc "files" members = Some (files_json files) ->
  manifest_listing (JObj members) = Some files /\ Json.truthy (JObj members) = true.
Proof.
  intros H. unfold manifest_listing.
  assert (Ht : Json.truthy (JObj members) = true).
  { destruct members; [discriminate | reflexivity]. }
  rewrite Ht. cbn [negb Json.get]. rewrite H. unfold files_json. cbn [Json.items].
  now rewrite listed_entries_files_json.
Qed.

(** The replacement of [//] is one pass from the left: three slashes in
    a row leave two. *)
Example replace_double_slash_single_pass :
  PyStr.replace "//" "/" "domains/git/a///f" = "domains/git/a//f" /\
  PyStr.replace "//" "/" "domains/git//f" = "domains/git/f".
Proof. split; reflexivity. Qed.

(** C8.  The configuration [main] builds, on either branch, has a domain
    list that starts with [git] and holds [git] once. *)
Theorem main_config_git_once lower py_int args w bootstrap w0 config w' :
  init (arg_base_url args) w = (Ok bootstrap, w0) ->
  main_config lower py_int bootstrap args w0 = (Ok config, w') ->
  hd_error (domains config) = Some "git" /\
  count_occ string_dec (domains config) "git" = 1.
Proof.
  intros Hi H. unfold init in Hi.
  destruct (FS.path_is_dir (fs w) (cwd w)); [|discriminate].
  injection Hi as <- <-. unfold main_config in H.
  destruct (arg_interactive args
            || negb (given (arg_name args) && given (arg_domains args))).
  - apply interactive_setup_domains in H. destruct H as (chosen & -> & Hin).
    split; [reflexivity|]. cbn [count_occ].
    destruct (string_dec "git" "git") as [_|Hne]; [|congruence]. f_equal.
    apply count_occ_not_In. intros Hg. apply Hin in Hg. cbn in Hg.
    repeat (destruct Hg as [Hg|Hg]; [discriminate|]). exact Hg.
  - injection H as <- <-. split; [reflexivity|].
    unfold config_from_args. cbn [domains count_occ].
    destruct (string_dec "git" "git") as [_|Hne]; [|congruence]. f_equal.
    apply count_git_filtered.
Qed.

Lemma main_config_git_once_witness :
  let run := main_config PyStr.ascii_lower PyStr.ascii_int Demo.self
               (mkArgs true None (Some "git, aws,git") None default_base_url)
               Demo.prompt_project in
  fst run = Ok (mkConfig "shop" "Data Pipeline" ["git"; "python"; "docker"]
                         (Some "an online shop")) /\
  (forall config, fst run = Ok config ->
     hd_error (domains config) = Some "git" /\
     count_occ string_dec (domains config) "git" = 1).
Proof.
  intros run. split; [vm_compute; reflexivity|].
  intros config Hc.
  apply (main_config_git_once PyStr.ascii_lower PyStr.ascii_int
           (mkArgs true None (Some "git, aws,git") None default_base_url)
           Demo.prompt_project Demo.self Demo.prompt_project config (snd run)).
  - reflexivity.
  - rewrite <- Hc. apply surjective_pairing.
Defined.

(** Without prompts, a [git] the user listed anywhere is dropped before
    [git] is put in front. *)
Example flags_with_git_listed :
  domains (config_from_args
             (mkArgs false (Some "demo") (Some "python, git ,aws,git") None
                     default_base_url))
  = ["git"; "python"; "aws"].
Proof. reflexivity. Qed.

Lemma create_gitignore_idempotent_witness :
  let once := create_gitignore Demo.self Demo.config Demo.project in
  let twice := create_gitignore Demo.self Demo.config (snd once) in
  fst once = Ok tt /\ snd twice = snd once /\
  FS.read_file (gitignore_path Demo.self) (fs (snd twice)) = Ok gitignore_content.
Proof.
  intros once twice.
  assert (H : fst once = Ok tt) by (vm_compute; reflexivity).
  split; [exact H|]. split.
  - exact (proj2 (proj2 (create_gitignore_idempotent Demo.self Demo.config Demo.project)) H).
  - vm_compute. reflexivity.
Defined.

(** C9 holds for a [.gitignore] without carriage returns: its content
    stays as it is, or stays in front of what is appended. *)
Lemma create_gitignore_keeps_lf_content self config w old r w' :
  FS.read_file (gitignore_path self) (fs w) = Ok old ->
  lacks PyStr.CR old ->
  create_gitignore self config w = (r, w') ->
  FS.read_file (gitignore_path self) (fs w') = Ok old \/
  FS.read_file (gitignore_path self) (fs w')
  = Ok (old +:+ PyStr.nl +:+ gitignore_content).
Proof.
  intros Hold Hcr. rewrite create_gitignore_run.
  rewrite (read_file_exists _ _ _ Hold). unfold FS.read_text. rewrite Hold.
  rewrite (universal_newlines_id _ Hcr).
  destruct (PyStr.contains gitignore_marker old).
  - intros [= <- <-]. now left.
  - rewrite write_text_run.
    destruct (FS.write_file (gitignore_path self) _ (fs w)) as [f|e] eqn:Hw.
    + intros [= <- <-]. right. cbn [fs with_fs].
      apply read_after_write in Hw. exact (proj1 Hw).
    + intros [= <- <-]. now left.
Qed.

(** C9 fails on the code: a [.gitignore] whose lines end in CR LF and
    that lacks the marker is written back with LF line ends, so what it
    held is not the beginning of what it holds afterwards. *)
Theorem create_gitignore_rewrites_crlf :
  let old := Demo.crlf_gitignore in
  let run := create_gitignore Demo.self Demo.config Demo.crlf_project in
  FS.read_file (gitignore_path Demo.self) (fs Demo.crlf_project) = Ok old /\
  fst run = Ok tt /\
  FS.read_file (gitignore_path Demo.self) (fs (snd run))
  = Ok ("node_modules" +:+ PyStr.nl +:+ PyStr.nl +:+ gitignore_content) /\
  PyStr.startswith old ("node_modules" +:+ PyStr.nl +:+ PyStr.nl +:+ gitignore_content)
  = false.
Proof. vm_compute. repeat split. Qed.


(** The parent directories may be impossible to make (here a file is in
    the way): [fetch_file] returns [False] then too. *)
Example fetch_file_parent_is_file :
  fst (fetch_file Demo.self "x" ["proj"; ".gitignore"; "x"] Demo.crlf_project)
  = Ok false.
Proof. vm_compute. reflexivity. Qed.

(** * Further properties *)

(** ** What a run leaves alone *)

Lemma same_kind_refl n : same_kind n n = true.
Proof. destruct n; reflexivity. Qed.

Lemma same_kind_trans a b c :
  same_kind a b = true -> same_kind b c = true -> same_kind a c = true.
Proof. destruct a, b, c; simpl; congruence. Qed.

Lemma keeps_refl f : keeps f f.
Proof. intros loc n H. exists n. split; [assumption | apply same_kind_refl]. Qed.

Lemma keeps_trans f g h : keeps f g -> keeps g h -> keeps f h.
Proof.
  intros H1 H2 loc n Hn. destruct (H1 _ _ Hn) as (n1 & Hg & K1).
  destruct (H2 _ _ Hg) as (n2 & Hh & K2). exists n2. split; [assumption|].
  eapply same_kind_trans; eassumption.
Qed.

Lemma keeps_subseteq (f g : gmap (list string) node) : f ⊆ g -> keeps f g.
Proof.
  intros Hs loc n Hn. exists n. split; [|apply same_kind_refl].
  eapply lookup_weaken; eassumption.
Qed.

Lemma exists_at_false f loc :
  FS.exists_at f loc = false -> loc <> [] /\ f !! loc = None.
Proof.
  unfold FS.exists_at, FS.node_at. destruct loc as [|x loc]; [discriminate|].
  destruct (f !! (x :: loc)); [discriminate|]. split; [discriminate | reflexivity].
Qed.

Lemma os_mkdir_inv p f f' :
  FS.os_mkdir p f = Ok f' ->
  exists loc, FS.locate f p = Ok loc /\ loc <> [] /\ f !! loc = None /\
              f' = <[loc := Dir 493]> f.
Proof.
  unfold FS.os_mkdir. destruct (FS.locate f p) as [loc|]; [|discriminate].
  destruct (FS.exists_at f loc) eqn:E; [discriminate|]. intros [= <-].
  apply exists_at_false in E. destruct E. eauto.
Qed.

Lemma only_new_dirs_refl f : only_new_dirs f f.
Proof. split; [reflexivity | auto]. Qed.

Lemma only_new_dirs_trans f g h :
  only_new_dirs f g -> only_new_dirs g h -> only_new_dirs f h.
Proof.
  intros [S1 N1] [S2 N2]. split; [etrans; eassumption|].
  intros loc n Hn. destruct (N2 _ _ Hn) as [Hg | ->]; [|auto]. eauto.
Qed.

Lemma os_mkdir_grows p f f' : FS.os_mkdir p f = Ok f' -> only_new_dirs f f'.
Proof.
  intros (loc & _ & _ & Hnone & ->)%os_mkdir_inv. split.
  - now apply insert_subseteq.
  - intros l n. rewrite lookup_insert. destruct (decide (loc = l)); [|auto].
    intros [= <-]. auto.
Qed.

Lemma mkdir_here_grows e p f f' : FS.mkdir_here e p f = Ok f' -> only_new_dirs f f'.
Proof.
  unfold FS.mkdir_here. destruct (FS.os_mkdir p f) as [f1|x] eqn:E.
  - intros [= <-]. eapply os_mkdir_grows; eassumption.
  - destruct x; try discriminate;
      (destruct (e && FS.path_is_dir f p); [|discriminate]);
      intros [= <-]; apply only_new_dirs_refl.
Qed.

Lemma mkdir_parents_grows rp : forall e f f',
  FS.mkdir_parents_rev e rp f = Ok f' -> only_new_dirs f f'.
Proof.
  induction rp as [|c rp IH]; intros e f f'; cbn [FS.mkdir_parents_rev].
  - destruct (FS.os_mkdir (rev []) f) as [f1|x] eqn:E.
    + intros [= <-]. eapply os_mkdir_grows; eassumption.
    + destruct x; try discriminate;
        (destruct (e && FS.path_is_dir f (rev [])); [|discriminate]);
        intros [= <-]; apply only_new_dirs_refl.
  - destruct (FS.os_mkdir (rev (c :: rp)) f) as [f1|x] eqn:E.
    + intros [= <-]. eapply os_mkdir_grows; eassumption.
    + destruct x; try discriminate;
        try ((destruct (e && FS.path_is_dir f (rev (c :: rp))); [|discriminate]);
             intros [= <-]; apply only_new_dirs_refl).
      destruct (FS.mkdir_parents_rev true rp f) as [f1|] eqn:E1; [|discriminate].
      intros H. eapply only_new_dirs_trans; [eapply IH; eassumption|].
      eapply mkdir_here_grows; eassumption.
Qed.

(** [mkdir] only ever adds directories. *)
Lemma mkdir_grows ps e p f f' : FS.mkdir ps e p f = Ok f' -> only_new_dirs f f'.
Proof.
  unfold FS.mkdir. destruct ps; [apply mkdir_parents_grows | apply mkdir_here_grows].
Qed.

Lemma keeps_write p d f f' : FS.write_file p d f = Ok f' -> keeps f f'.
Proof.
  unfold FS.write_file. destruct (FS.locate f p) as [loc|]; [|discriminate].
  destruct loc as [|x loc]; [simpl; discriminate|]. unfold FS.node_at.
  destruct (f !! (x :: loc)) as [[d0 m|m]|] eqn:E; intros [= <-]; intros l n Hn;
    rewrite lookup_insert; (destruct (decide (x :: loc = l)) as [<-|]; [|
      exists n; split; [assumption | apply same_kind_refl]]).
  - rewrite E in Hn. injection Hn as <-. eexists. split; reflexivity.
  - congruence.
Qed.

Lemma keeps_chmod p mode f f' : FS.chmod p mode f = Ok f' -> keeps f f'.
Proof.
  intros [->|(loc & Hne & H)]%chmod_inv; [apply keeps_refl|].
  intros l n Hn.
  destruct H as [(d & m & E & ->)|(m & E & ->)]; rewrite lookup_insert;
    (destruct (decide (loc = l)) as [<-|]; [|
      exists n; split; [assumption | apply same_kind_refl]]);
    rewrite E in Hn; injection Hn as <-; eexists; split; reflexivity.
Qed.

Section Respects.
Context (R : world -> world -> Prop).
Hypothesis R_refl : forall w, R w w.
Hypothesis R_trans : forall w1 w2 w3, R w1 w2 -> R w2 w3 -> R w1 w3.

Lemma respects_ret {A} (a : A) : respects R (ret a).
Proof. intros w r w' [= <- <-]. apply R_refl. Qed.

Lemma respects_raise {A} e : respects R (@raise A e).
Proof. intros w r w' [= <- <-]. apply R_refl. Qed.

Lemma respects_lift {A} (o : outcome A) : respects R (lift_outcome o).
Proof. intros w r w' [= <- <-]. apply R_refl. Qed.

Lemma respects_bind {A B} (m : M A) (k : A -> M B) :
  respects R m -> (forall a, respects R (k a)) -> respects R (bind m k).
Proof.
  intros Hm Hk w r w'. rewrite bind_run.
  destruct (m w) as [[a|e] w1] eqn:E; pose proof (Hm _ _ _ E) as Q1.
  - intros H. eapply R_trans; [exact Q1 | eapply Hk; eassumption].
  - intros [= <- <-]. exact Q1.
Qed.

Lemma respects_try {A} (m : M A) c (h : exn -> M A) :
  respects R m -> (forall e, respects R (h e)) -> respects R (try_except m c h).
Proof.
  intros Hm Hh w r w'. unfold try_except.
  destruct (m w) as [[a|e] w1] eqn:E; pose proof (Hm _ _ _ E) as Q1.
  - intros [= <- <-]. exact Q1.
  - destruct (c e).
    + intros H. eapply R_trans; [exact Q1 | eapply Hh; eassumption].
    + intros [= <- <-]. exact Q1.
Qed.

Lemma respects_for_each {A} (l : list A) (body : A -> M unit) :
  (forall x, In x l -> respects R (body x)) -> respects R (for_each l body).
Proof.
  induction l as [|x l IH]; intros H; cbn [for_each].
  - apply respects_ret.
  - apply respects_bind; [apply H; now left|]. intros _. apply IH.
    intros y Hy. apply H. now right.
Qed.

End Respects.

Section Stays.
Context (P : event -> Prop).

Lemma quiet_refl w : quiet P w w.
Proof.
  split; [apply same_env_refl|]. split; [apply keeps_refl|].
  exists []. rewrite app_nil_r. auto.
Qed.

Lemma quiet_trans w1 w2 w3 : quiet P w1 w2 -> quiet P w2 w3 -> quiet P w1 w3.
Proof.
  intros (E1 & K1 & t1 & T1 & F1) (E2 & K2 & t2 & T2 & F2).
  split; [apply (same_env_trans _ w2); assumption|].
  split; [eapply keeps_trans; eassumption|].
  exists (t1 ++ t2). rewrite T2, T1, app_assoc. split; [reflexivity|].
  apply Forall_app; auto.
Qed.

Lemma quiet_log w e : P e -> quiet P w (log w e).
Proof.
  intros He. split; [apply same_env_log|]. split; [apply keeps_refl|].
  exists [e]. split; [reflexivity | auto].
Qed.

Lemma quiet_with_fs w f : keeps (fs w) f -> quiet P w (with_fs w f).
Proof.
  intros K. split; [apply same_env_with_fs|]. split; [exact K|].
  exists []. cbn. rewrite app_nil_r. auto.
Qed.

Lemma stays_ret {A} (a : A) : stays P (ret a).
Proof. apply respects_ret, quiet_refl. Qed.

Lemma stays_raise {A} e : stays P (@raise A e).
Proof. apply respects_raise, quiet_refl. Qed.

Lemma stays_lift {A} (o : outcome A) : stays P (lift_outcome o).
Proof. apply respects_lift, quiet_refl. Qed.

Lemma stays_bind {A B} (m : M A) (k : A -> M B) :
  stays P m -> (forall a, stays P (k a)) -> stays P (bind m k).
Proof. apply respects_bind, quiet_trans. Qed.

Lemma stays_try {A} (m : M A) c (h : exn -> M A) :
  stays P m -> (forall e, stays P (h e)) -> stays P (try_except m c h).
Proof. apply respects_try, quiet_trans. Qed.

Lemma stays_for_each {A} (l : list A) (body : A -> M unit) :
  (forall x, In x l -> stays P (body x)) -> stays P (for_each l body).
Proof. apply respects_for_each; [apply quiet_refl | apply quiet_trans]. Qed.

Lemma stays_emit e : P e -> stays P (emit e).
Proof. intros He w r w' [= <- <-]. now apply quiet_log. Qed.

Lemma stays_update_fs g :
  (forall f f', g f = Ok f' -> keeps f f') -> stays P (update_fs g).
Proof.
  intros Hg w r w'. unfold update_fs. destruct (g (fs w)) as [f'|e] eqn:E.
  - intros [= <- <-]. apply quiet_with_fs. now apply Hg.
  - intros [= <- <-]. apply quiet_refl.
Qed.

Lemma stays_mkdir ps e p : P (EMkdir p ps) -> stays P (Sys.mkdir ps e p).
Proof.
  intros He. apply stays_bind; [now apply stays_emit|]. intros _.
  apply stays_update_fs. intros f f' H. apply keeps_subseteq.
  now apply mkdir_grows in H as [? _].
Qed.

Lemma stays_urlretrieve url dest :
  P (EUrlretrieve url dest) -> stays P (Sys.urlretrieve url dest).
Proof.
  intros He. apply stays_bind; [now apply stays_emit|]. intros _ w r w'.
  destruct (net_file w url) as [body|].
  - apply stays_update_fs. intros f f'. apply keeps_write.
  - destruct (net_cut w url) as [part|].
    + apply stays_bind; [|intros _; apply stays_raise].
      apply stays_update_fs. intros f f'. apply keeps_write.
    + intros [= <- <-]. apply quiet_refl.
Qed.

Lemma stays_urlopen_json url : P (EUrlopen url) -> stays P (Sys.urlopen_json url).
Proof.
  intros He. apply stays_bind; [now apply stays_emit|]. intros _ w r w'.
  destruct (net_json w url); intros [= <- <-]; apply quiet_refl.
Qed.

Lemma stays_write_text p text :
  P (EWriteText p text) -> stays P (Sys.write_text p text).
Proof.
  intros He. apply stays_bind; [now apply stays_emit|]. intros _.
  apply stays_update_fs. intros f f'. apply keeps_write.
Qed.

Lemma stays_chmod p mode : P (EChmod p mode) -> stays P (Sys.chmod p mode).
Proof.
  intros He. apply stays_bind; [now apply stays_emit|]. intros _.
  apply stays_update_fs. intros f f'. apply keeps_chmod.
Qed.

Lemma stays_read_text p : stays P (Sys.read_text p).
Proof. intros w r w' [= <- <-]. apply quiet_refl. Qed.

Lemma stays_path_exists p : stays P (Sys.path_exists p).
Proof. intros w r w' [= <- <-]. apply quiet_refl. Qed.

Lemma stays_glob_py p : stays P (Sys.glob_py p).
Proof. intros w r w' [= <- <-]. apply quiet_refl. Qed.

Hypothesis P_mkdir : forall p ps, P (EMkdir p ps).
Hypothesis P_urlretrieve : forall url dest, P (EUrlretrieve url dest).
Hypothesis P_urlopen : forall url, P (EUrlopen url).

Lemma stays_fetch_file self path dest : stays P (fetch_file self path dest).
Proof.
  unfold fetch_file. apply stays_try; [|intros; apply stays_ret].
  apply stays_bind; [now apply stays_mkdir|]. intros _.
  apply stays_bind; [now apply stays_urlretrieve|]. intros _. apply stays_ret.
Qed.

Lemma stays_fetch_domain_manifest self domain :
  stays P (fetch_domain_manifest self domain).
Proof.
  unfold fetch_domain_manifest. apply stays_try; [|intros; apply stays_ret].
  now apply stays_urlopen_json.
Qed.

Lemma stays_apply_file self domain dest_dir j :
  stays P (apply_file self domain dest_dir j).
Proof.
  destruct j; try apply stays_raise. cbn [apply_file].
  apply stays_bind; [apply stays_fetch_file|]. intros _. apply stays_ret.
Qed.

Lemma stays_apply_domain self domain config :
  stays P (apply_domain self domain config).
Proof.
  unfold apply_domain. apply stays_bind; [apply stays_fetch_domain_manifest|].
  intros manifest. destruct (negb (Json.truthy manifest)); [apply stays_ret|].
  apply stays_bind; [apply stays_lift|]. intros files_map.
  apply stays_bind; [apply stays_lift|]. intros entries.
  apply stays_bind; [|intros; apply stays_ret].
  apply stays_for_each. intros [dest_dir files] _.
  apply stays_bind; [apply stays_lift|]. intros names.
  apply stays_for_each. intros j _. apply stays_apply_file.
Qed.

Lemma stays_fetch_core self : stays P (fetch_core self).
Proof.
  unfold fetch_core. apply stays_for_each. intros p _.
  apply stays_bind; [apply stays_fetch_file|]. intros _. apply stays_ret.
Qed.

Lemma stays_apply_domains self config : stays P (apply_domains self config).
Proof.
  unfold apply_domains. apply stays_for_each. intros d _.
  apply stays_bind; [apply stays_apply_domain|]. intros _. apply stays_ret.
Qed.

Hypothesis P_write_text : forall p text, P (EWriteText p text).
Hypothesis P_chmod : forall p mode, P (EChmod p mode).

Lemma stays_create_gitignore self config : stays P (create_gitignore self config).
Proof.
  unfold create_gitignore. apply stays_bind; [apply stays_path_exists|].
  intros present. destruct (negb present); [now apply stays_write_text|].
  apply stays_bind; [apply stays_read_text|]. intros existing.
  destruct (negb (PyStr.contains gitignore_marker existing));
    [now apply stays_write_text | apply stays_ret].
Qed.

Lemma stays_make_hooks_executable self : stays P (make_hooks_executable self).
Proof.
  unfold make_hooks_executable. apply stays_bind; [apply stays_path_exists|].
  intros present. destruct present; [|apply stays_ret].
  apply stays_bind; [apply stays_glob_py|]. intros hooks.
  apply stays_for_each. intros h _. now apply stays_chmod.
Qed.

Lemma stays_setup_project title lower self config :
  stays P (setup_project title lower self config).
Proof.
  rewrite setup_project_phases.
  apply stays_bind; [now apply stays_mkdir|]. intros _.
  apply stays_bind; [apply stays_fetch_core|]. intros _.
  apply stays_bind; [apply stays_apply_domains|]. intros _.
  apply stays_bind;
    [intros w r w'; rewrite create_claude_md_run; now apply stays_write_text|].
  intros _.
  apply stays_bind; [apply stays_create_gitignore|]. intros _.
  apply stays_make_hooks_executable.
Qed.

End Stays.

(** ** Runs without prompts, and manifests of any shape *)

(** X1.  Whatever it returns or raises, [setup_project] leaves standard
    input, the working directory and the remote side as they were, makes
    no prompt, and removes nothing: every file is still a file and every
    directory still a directory afterwards. *)
Theorem setup_project_never_removes title lower self config w :
  let w' := snd (setup_project title lower self config w) in
  stdin w' = stdin w /\ cwd w' = cwd w /\
  net_file w' = net_file w /\ net_json w' = net_json w /\
  keeps (fs w) (fs w') /\
  exists t, trace w' = trace w ++ t /\ Forall (fun e => is_prompt e = false) t.
Proof.
  cbv zeta. destruct (setup_project title lower self config w) as [r w'] eqn:H.
  apply (stays_setup_project (fun e => is_prompt e = false)) in H;
    try (intros; reflexivity).
  destruct H as ((Hf & Hj & Hs & Hc & _) & K & T). cbn [snd]. auto 10.
Qed.

(** X2.  With [--name] and [--domains] given and without [--interactive],
    the whole of [main] runs without a prompt and reads nothing from
    standard input. *)
Theorem main_from_flags_never_prompts title lower py_int args w :
  arg_interactive args = false ->
  given (arg_name args) = true -> given (arg_domains args) = true ->
  let w' := snd (main title lower py_int args w) in
  stdin w' = stdin w /\
  exists t, trace w' = trace w ++ t /\ Forall (fun e => is_prompt e = false) t.
Proof.
  intros Hi Hn Hd. cbv zeta. unfold main, init. rewrite bind_run.
  destruct (FS.path_is_dir (fs w) (cwd w)).
  2:{ cbn [snd]. split; [reflexivity|]. exists []. now rewrite app_nil_r. }
  rewrite bind_run.
  unfold main_config. rewrite Hi, Hn, Hd. cbn [orb andb negb]. unfold ret.
  destruct (setup_project title lower
              (mkBootstrap (arg_base_url args) (cwd w)
                 ["git"; "python"; "aws"; "docker"; "database"])
              (config_from_args args) w) as [r w'] eqn:H.
  apply (stays_setup_project (fun e => is_prompt e = false)) in H;
    try (intros; reflexivity).
  destruct H as ((Hf & Hj & Hs & Hc & _) & _ & T). cbn [snd]. auto.
Qed.

Lemma main_from_flags_never_prompts_witness :
  let w' := snd (main PyStr.ascii_title PyStr.ascii_lower PyStr.ascii_int
                   Demo.args Demo.project) in
  stdin w' = stdin Demo.project /\
  exists t, trace w' = trace Demo.project ++ t /\
            Forall (fun e => is_prompt e = false) t.
Proof.
  apply (main_from_flags_never_prompts PyStr.ascii_title PyStr.ascii_lower
           PyStr.ascii_int Demo.args Demo.project); reflexivity.
Defined.

(** X3.  A manifest that arrives but counts as false in Python (the
    empty object, the empty array, the empty string, zero, [false],
    [null]) is treated like a failed download: [apply_domain] returns
    [False] after the manifest request alone. *)
Theorem apply_domain_empty_manifest self domain config w m :
  net_json w (manifest_url self domain) = Some m ->
  Json.truthy m = false ->
  apply_domain self domain config w
  = (Ok false, log w (EUrlopen (manifest_url self domain))).
Proof.
  intros Hn Ht. rewrite apply_domain_eq, bind_run, fetch_domain_manifest_eq, Hn.
  cbn [default from_option id]. rewrite Ht. reflexivity.
Qed.

Lemma apply_domain_empty_manifest_witness :
  apply_domain Demo.self "git" Demo.config (Scenario.serving (JObj []))
  = (Ok false,
     log (Scenario.serving (JObj [])) (EUrlopen (manifest_url Demo.self "git"))).
Proof.
  apply (apply_domain_empty_manifest Demo.self "git" Demo.config
           (Scenario.serving (JObj [])) (JObj [])); reflexivity.
Defined.

(** X4.  A manifest object that has members but no [files] member is
    accepted: [apply_domain] returns [True] and fetches nothing. *)
Theorem apply_domain_without_files self domain config w members :
  net_json w (manifest_url self domain) = Some (JObj members) ->
  members <> [] ->
  Json.assoc "files" members = None ->
  apply_domain self domain config w
  = (Ok true, log w (EUrlopen (manifest_url self domain))).
Proof.
  intros Hn Hne Hf. rewrite apply_domain_eq, bind_run, fetch_domain_manifest_eq, Hn.
  cbn [default from_option id].
  assert (Ht : Json.truthy (JObj members) = true) by (destruct members; [now destruct Hne | reflexivity]).
  rewrite Ht. cbn [negb]. unfold bind, lift_outcome. cbn [Json.get]. rewrite Hf.
  reflexivity.
Qed.

Lemma apply_domain_without_files_witness :
  apply_domain Demo.self "git" Demo.config
    (Scenario.serving (JObj [("name", JStr "git")]))
  = (Ok true,
     log (Scenario.serving (JObj [("name", JStr "git")]))
         (EUrlopen (manifest_url Demo.self "git"))).
Proof.
  apply (apply_domain_without_files Demo.self "git" Demo.config
           (Scenario.serving (JObj [("name", JStr "git")])) [("name", JStr "git")]);
    [reflexivity | discriminate | reflexivity].
Defined.

(** X5.  A manifest that counts as true but is no JSON object (a
    non-empty array or string, a number, [true]) makes [apply_domain]
    raise [AttributeError], and so does an object whose [files] member
    is no object: nothing is fetched. *)
Theorem apply_domain_malformed_manifest self domain config w m :
  net_json w (manifest_url self domain) = Some m ->
  Json.truthy m = true ->
  (forall members, m = JObj members ->
     exists v, Json.assoc "files" members = Some v /\ forall l, v <> JObj l) ->
  apply_domain self domain config w
  = (Raise AttributeError, log w (EUrlopen (manifest_url self domain))).
Proof.
  intros Hn Ht Hm. rewrite apply_domain_eq, bind_run, fetch_domain_manifest_eq, Hn.
  cbn [default from_option id]. rewrite Ht. cbn [negb]. unfold bind, lift_outcome.
  destruct m as [| | | | |members]; try reflexivity.
  destruct (Hm members eq_refl) as (v & Hv & Hno). cbn [Json.get]. rewrite Hv.
  destruct v; try reflexivity. now destruct (Hno members0).
Qed.

Lemma apply_domain_malformed_manifest_witness :
  apply_domain Demo.self "git" Demo.config
    (Scenario.serving (JArr [JStr "settings.json"]))
  = (Raise AttributeError,
     log (Scenario.serving (JArr [JStr "settings.json"]))
         (EUrlopen (manifest_url Demo.self "git"))).
Proof.
  apply (apply_domain_malformed_manifest Demo.self "git" Demo.config
           (Scenario.serving (JArr [JStr "settings.json"]))
           (JArr [JStr "settings.json"])); [reflexivity | reflexivity |].
  intros members H. discriminate H.
Defined.

(** ** The files of the project root *)

Lemma path_is_dir_inv f p :
  FS.path_is_dir f p = true ->
  exists loc, FS.locate f p = Ok loc /\ FS.is_dir_at f loc = true.
Proof.
  unfold FS.path_is_dir. destruct (FS.locate f p) as [loc|]; [eauto | discriminate].
Qed.

(** An entry of an existing directory lies right below it. *)
Lemma locate_entry f root x :
  FS.path_is_dir f root = true -> x <> ".." ->
  exists lr, FS.locate f root = Ok lr /\ FS.locate f (root ++ [x]) = Ok (lr ++ [x]).
Proof.
  intros (lr & Hl & Hd)%path_is_dir_inv Hx. exists lr. split; [assumption|].
  unfold FS.locate in *. rewrite resolve_app, Hl. cbn [FS.resolve]. rewrite Hd.
  destruct (PyStr.eqb x "..") eqn:E; [|reflexivity].
  apply String.eqb_eq in E. contradiction.
Qed.

Lemma is_dir_exists f loc : FS.is_dir_at f loc = true -> FS.exists_at f loc = true.
Proof.
  unfold FS.is_dir_at, FS.exists_at. destruct (FS.node_at f loc); [auto | discriminate].
Qed.

Lemma read_text_dir f p :
  FS.path_is_dir f p = true -> FS.read_text p f = Raise IsADirectoryError.
Proof.
  intros (loc & Hl & Hd)%path_is_dir_inv. unfold FS.read_text, FS.read_file.
  rewrite Hl. unfold FS.is_dir_at in Hd.
  destruct (FS.node_at f loc) as [[|]|]; try discriminate. reflexivity.
Qed.

Lemma write_file_dir f p text :
  FS.path_is_dir f p = true -> FS.write_file p text f = Raise IsADirectoryError.
Proof.
  intros (loc & Hl & Hd)%path_is_dir_inv. unfold FS.write_file.
  rewrite Hl. unfold FS.is_dir_at in Hd.
  destruct (FS.node_at f loc) as [[|]|]; try discriminate. reflexivity.
Qed.

(** In an existing directory, a name that is no directory can be written. *)
Lemma write_file_entry f root x text :
  FS.path_is_dir f root = true -> x <> ".." ->
  FS.path_is_dir f (root ++ [x]) = false ->
  exists f', FS.write_file (root ++ [x]) text f = Ok f'.
Proof.
  intros Hr Hx Hn. destruct (locate_entry f root x Hr Hx) as (lr & _ & Hl).
  unfold FS.write_file, FS.path_is_dir, FS.is_dir_at in *. rewrite Hl in *.
  destruct (FS.node_at f (lr ++ [x])) as [[|]|]; try discriminate; eauto.
Qed.

Lemma gitignore_path_eq self : gitignore_path self = project_root self ++ [".gitignore"].
Proof. reflexivity. Qed.

Lemma claude_md_path_eq self : claude_md_path self = project_root self ++ ["CLAUDE.md"].
Proof. reflexivity. Qed.


Lemma path_exists_not_dir f p : FS.path_exists f p = false -> FS.path_is_dir f p = false.
Proof.
  unfold FS.path_exists, FS.path_is_dir. destruct (FS.locate f p) as [loc|]; [|auto].
  unfold FS.exists_at, FS.is_dir_at. destruct (FS.node_at f loc); [discriminate | auto].
Qed.

(** X6.  In a project directory without [.gitignore], [create_gitignore]
    writes the file, and the file then holds exactly the block of
    Claude-specific entries. *)
Theorem create_gitignore_fresh self config w :
  FS.path_is_dir (fs w) (project_root self) = true ->
  FS.path_exists (fs w) (gitignore_path self) = false ->
  exists w',
    create_gitignore self config w = (Ok tt, w') /\
    FS.read_file (gitignore_path self) (fs w') = Ok gitignore_content /\
    trace w' = trace w ++ [EWriteText (gitignore_path self) gitignore_content].
Proof.
  intros Hr He. rewrite create_gitignore_run, He, write_text_run.
  destruct (write_file_entry (fs w) (project_root self) ".gitignore" gitignore_content Hr)
    as [f' Hw]; [discriminate | now apply path_exists_not_dir |].
  fold (gitignore_path self) in Hw. rewrite gitignore_path_eq in *. rewrite Hw.
  eexists. split; [reflexivity|]. split; [|reflexivity].
  cbn [fs with_fs]. apply read_after_write in Hw. exact (proj1 Hw).
Qed.

Lemma create_gitignore_fresh_witness :
  exists w',
    create_gitignore Demo.self Demo.config Demo.project = (Ok tt, w') /\
    FS.read_file (gitignore_path Demo.self) (fs w') = Ok gitignore_content /\
    trace w' = trace Demo.project
               ++ [EWriteText (gitignore_path Demo.self) gitignore_content].
Proof.
  apply (create_gitignore_fresh Demo.self Demo.config Demo.project); reflexivity.
Defined.

(** X7.  An existing [.gitignore] is read with its line ends translated
    to LF.  When the text read holds the marker line anywhere, nothing is
    written and the world is left as it was; otherwise the file is
    written again and holds the text read, one line feed and the block. *)
Theorem create_gitignore_existing self config w old :
  FS.read_file (gitignore_path self) (fs w) = Ok old ->
  let existing := PyStr.universal_newlines old in
  if PyStr.contains gitignore_marker existing
  then create_gitignore self config w = (Ok tt, w)
  else
    exists w',
      create_gitignore self config w = (Ok tt, w') /\
      FS.read_file (gitignore_path self) (fs w')
      = Ok (existing +:+ PyStr.nl +:+ gitignore_content) /\
      trace w' = trace w ++ [EWriteText (gitignore_path self)
                               (existing +:+ PyStr.nl +:+ gitignore_content)].
Proof.
  intros Hold. cbv zeta. rewrite create_gitignore_run.
  rewrite (read_file_exists _ _ _ Hold). unfold FS.read_text. rewrite Hold.
  destruct (PyStr.contains gitignore_marker (PyStr.universal_newlines old));
    [reflexivity|].
  rewrite write_text_run.
  destruct (write_over_file _ _ _
              (PyStr.universal_newlines old +:+ PyStr.nl +:+ gitignore_content) Hold)
    as [f' Hw].
  rewrite Hw. eexists. split; [reflexivity|]. split; [|reflexivity].
  cbn [fs with_fs]. apply read_after_write in Hw. exact (proj1 Hw).
Qed.

Lemma create_gitignore_existing_witness :
  exists w',
    create_gitignore Demo.self Demo.config Demo.crlf_project = (Ok tt, w') /\
    FS.read_file (gitignore_path Demo.self) (fs w')
    = Ok ("node_modules" +:+ PyStr.nl +:+ PyStr.nl +:+ gitignore_content) /\
    trace w' = trace Demo.crlf_project
               ++ [EWriteText (gitignore_path Demo.self)
                     ("node_modules" +:+ PyStr.nl +:+ PyStr.nl +:+ gitignore_content)].
Proof.
  apply (create_gitignore_existing Demo.self Demo.config Demo.crlf_project
           Demo.crlf_gitignore eq_refl).
Defined.

(** X8.  When [.gitignore] is a directory, [create_gitignore] raises
    [IsADirectoryError] from the attempt to read it, and changes
    nothing. *)
Theorem create_gitignore_on_directory self config w :
  FS.path_is_dir (fs w) (gitignore_path self) = true ->
  create_gitignore self config w = (Raise IsADirectoryError, w).
Proof.
  intros Hd. rewrite create_gitignore_run, (read_text_dir _ _ Hd).
  destruct (path_is_dir_inv _ _ Hd) as (loc & Hl & Hdir).
  unfold FS.path_exists. rewrite Hl, (is_dir_exists _ _ Hdir). reflexivity.
Qed.

Lemma create_gitignore_on_directory_witness :
  create_gitignore Demo.self Demo.config Scenario.gitignore_is_dir
  = (Raise IsADirectoryError, Scenario.gitignore_is_dir).
Proof.
  apply (create_gitignore_on_directory Demo.self Demo.config Scenario.gitignore_is_dir).
  reflexivity.
Defined.

(** X9.  In an existing project directory [create_claude_md] replaces
    whatever CLAUDE.md held by the rendered document, without looking at
    it; only when CLAUDE.md is a directory does it raise
    [IsADirectoryError], leaving the file system as it was. *)
Theorem create_claude_md_replaces title lower self config w :
  FS.path_is_dir (fs w) (project_root self) = true ->
  let run := create_claude_md title lower self config w in
  if FS.path_is_dir (fs w) (claude_md_path self)
  then fst run = Raise IsADirectoryError /\ fs (snd run) = fs w
  else fst run = Ok tt /\
       FS.read_file (claude_md_path self) (fs (snd run))
       = Ok (claude_md_text title lower config).
Proof.
  intros Hr. cbv zeta. rewrite create_claude_md_run, write_text_run.
  destruct (FS.path_is_dir (fs w) (claude_md_path self)) eqn:Hd.
  - rewrite (write_file_dir _ _ _ Hd). split; reflexivity.
  - rewrite claude_md_path_eq in *.
    destruct (write_file_entry (fs w) (project_root self) "CLAUDE.md"
                (claude_md_text title lower config) Hr) as [f' Hw];
      [discriminate | assumption |].
    rewrite Hw. split; [reflexivity|]. cbn [snd fs with_fs].
    apply read_after_write in Hw. exact (proj1 Hw).
Qed.

Lemma create_claude_md_replaces_witness :
  let run := create_claude_md PyStr.ascii_title PyStr.ascii_lower
               (mkBootstrap default_base_url ["proj"] []) Demo.config
               Demo.crlf_project in
  fst run = Ok tt /\
  FS.read_file ["proj"; "CLAUDE.md"] (fs (snd run))
  = Ok (claude_md_text PyStr.ascii_title PyStr.ascii_lower Demo.config).
Proof.
  apply (create_claude_md_replaces PyStr.ascii_title PyStr.ascii_lower
           (mkBootstrap default_base_url ["proj"] []) Demo.config Demo.crlf_project).
  reflexivity.
Defined.

(** X10.  [exist_ok=True] accepts a directory only: when [.claude] is a
    regular file, [setup_project] raises [FileExistsError] from its
    first call and does nothing else. *)
Theorem setup_project_claude_is_file title lower self config w d :
  FS.read_file (claude_dir self) (fs w) = Ok d ->
  setup_project title lower self config w
  = (Raise FileExistsError, log w (EMkdir (claude_dir self) false)).
Proof.
  intros Hf. rewrite setup_project_phases, bind_run, mkdir_run.
  assert (Hm : FS.mkdir false true (claude_dir self) (fs w) = Raise FileExistsError).
  { unfold FS.mkdir, FS.mkdir_here, FS.os_mkdir, FS.path_is_dir, FS.read_file in *.
    destruct (FS.locate (fs w) (claude_dir self)) as [loc|]; [|discriminate].
    unfold FS.exists_at, FS.is_dir_at.
    destruct (FS.node_at (fs w) loc) as [[|]|]; try discriminate. reflexivity. }
  rewrite Hm. reflexivity.
Qed.

Lemma setup_project_claude_is_file_witness :
  setup_project PyStr.ascii_title PyStr.ascii_lower Demo.self Demo.config
    Scenario.claude_is_file
  = (Raise FileExistsError,
     log Scenario.claude_is_file (EMkdir (claude_dir Demo.self) false)).
Proof.
  apply (setup_project_claude_is_file PyStr.ascii_title PyStr.ascii_lower
           Demo.self Demo.config Scenario.claude_is_file "notes").
  reflexivity.
Defined.

Lemma apply_domains_unreadable self config d m (ds : list string) : forall w r w',
  In d ds -> net_json w (manifest_url self d) = Some m -> manifest_listing m = None ->
  for_each ds (fun domain => apply_domain self domain config ;; ret tt) w = (r, w') ->
  exists e, r = Raise e.
Proof.
  induction ds as [|x ds IH]; intros w r w' Hin Hn Hl; [destruct Hin|].
  cbn [for_each]. rewrite bind_run, bind_run.
  destruct (apply_domain_run self x config w) as (r1 & w1 & ev & H1 & He & _ & Hp).
  rewrite H1. destruct r1 as [b|e]; [|intros [= <- <-]; eauto].
  unfold ret at 1. destruct Hin as [->|Hin].
  - rewrite Hn, Hl in Hp. destruct Hp as [e He']. discriminate.
  - apply IH; [assumption | | assumption].
    destruct He as (_ & Hj & _). now rewrite Hj.
Qed.

(** X11.  A manifest that arrives but cannot be gone through stops
    [setup_project]: when the manifest of one of the requested domains is
    such, the run ends in an exception, and it ends before CLAUDE.md and
    .gitignore are written (it makes no [write_text] call). *)
Theorem setup_project_unreadable_manifest title lower self config w d m :
  In d (domains config) ->
  net_json w (manifest_url self d) = Some m ->
  manifest_listing m = None ->
  let run := setup_project title lower self config w in
  (exists e, fst run = Raise e) /\
  exists t, trace (snd run) = trace w ++ t /\
            Forall (fun e => is_write_text e = false) t.
Proof.
  intros Hin Hn Hl. cbv zeta. rewrite setup_project_phases.
  set (P := fun e => is_write_text e = false).
  rewrite bind_run.
  destruct (Sys.mkdir false true (claude_dir self) w) as [[[]|e0] w0] eqn:H0;
    pose proof (stays_mkdir P false true (claude_dir self) eq_refl _ _ _ H0) as Q0.
  2:{ split; [eauto|]. apply Q0. }
  rewrite bind_run.
  destruct (fetch_core self w0) as [[[]|e1] w1] eqn:H1;
    pose proof (quiet_trans P _ _ _ Q0
                  (stays_fetch_core P (fun _ _ => eq_refl) (fun _ _ => eq_refl)
                     self _ _ _ H1)) as Q1.
  2:{ split; [eauto|]. apply Q1. }
  rewrite bind_run.
  destruct (apply_domains self config w1) as [[[]|e2] w2] eqn:H2;
    pose proof (quiet_trans P _ _ _ Q1
                  (stays_apply_domains P (fun _ _ => eq_refl) (fun _ _ => eq_refl)
                     (fun _ => eq_refl) self config _ _ _ H2)) as Q2.
  2:{ split; [eauto|]. apply Q2. }
  exfalso. unfold apply_domains in H2.
  assert (Hj : net_json w1 (manifest_url self d) = Some m).
  { destruct Q1 as ((_ & Hj & _) & _). now rewrite Hj. }
  destruct (apply_domains_unreadable self config d m (domains config) w1 _ _
              Hin Hj Hl H2) as [e He].
  discriminate.
Qed.

Lemma setup_project_unreadable_manifest_witness :
  let run := setup_project PyStr.ascii_title PyStr.ascii_lower Demo.self Demo.config
               (Scenario.serving (JArr [JStr "settings.json"])) in
  (exists e, fst run = Raise e) /\
  exists t, trace (snd run) = trace (Scenario.serving (JArr [JStr "settings.json"])) ++ t /\
            Forall (fun e => is_write_text e = false) t.
Proof.
  apply (setup_project_unreadable_manifest PyStr.ascii_title PyStr.ascii_lower
           Demo.self Demo.config (Scenario.serving (JArr [JStr "settings.json"]))
           "git" (JArr [JStr "settings.json"])).
  - left. reflexivity.
  - reflexivity.
  - reflexivity.
Defined.

(** ** One download *)

Lemma write_file_cases p d f f' :
  FS.write_file p d f = Ok f' ->
  exists loc, FS.locate f p = Ok loc /\ loc <> [] /\
    ((exists d0 m, f !! loc = Some (File d0 m) /\ f' = <[loc := File d m]> f) \/
     (f !! loc = None /\ f' = <[loc := File d 420]> f)).
Proof.
  unfold FS.write_file. destruct (FS.locate f p) as [loc|]; [|discriminate].
  destruct loc as [|x loc]; [simpl; discriminate|]. unfold FS.node_at.
  destruct (f !! (x :: loc)) as [[d0 m|m]|] eqn:E; intros [= <-];
    exists (x :: loc); (split; [reflexivity|]); (split; [discriminate|]); eauto.
Qed.

(** A file written after the parent directories were made: what was
    there stays, except for the file itself. *)
Lemma write_after_mkdir_frame (f f1 f2 : gmap (list string) node) dest data :
  only_new_dirs f f1 -> FS.write_file dest data f1 = Ok f2 ->
  (forall loc n, f !! loc = Some n ->
     f2 !! loc = Some n \/
     (FS.locate f2 dest = Ok loc /\
      exists d m, n = File d m /\ f2 !! loc = Some (File data m))) /\
  (forall loc n, f !! loc = None -> f2 !! loc = Some n ->
     n = Dir 493 \/ (FS.locate f2 dest = Ok loc /\ n = File data 420)).
Proof.
  intros [Hsub Hnew] Hw.
  assert (Hold : forall loc n, f !! loc = Some n -> f1 !! loc = Some n).
  { intros loc n Hn. eapply lookup_weaken; eassumption. }
  assert (Hfresh : forall loc n, f !! loc = None -> f1 !! loc = Some n -> n = Dir 493).
  { intros loc n Hn H1. destruct (Hnew _ _ H1) as [H|H]; congruence. }
  pose proof (write_file_cases _ _ _ _ Hw) as (l0 & Hl0 & Hne & Hcase).
  pose proof (locate_after_write _ _ _ _ _ _ Hw Hl0) as Hl2.
  split.
  - intros loc n Hn. apply Hold in Hn.
    destruct Hcase as [(d0 & m & E & ->)|(E & ->)]; rewrite lookup_insert;
      destruct (decide (l0 = loc)) as [<-|]; auto.
    + right. split; [assumption|]. rewrite E in Hn. injection Hn as <-. eauto.
    + congruence.
  - intros loc n Hn H2.
    destruct Hcase as [(d0 & m & E & ->)|(E & ->)]; rewrite lookup_insert in H2;
      destruct (decide (l0 = loc)) as [<-|]; eauto.
    + injection H2 as <-. apply Hfresh in E; [discriminate | assumption].
    + injection H2 as <-. right. auto.
Qed.

(** X12.  [fetch_file] removes nothing and changes no entry other than
    its destination.  Every entry of the file system is afterwards as it
    was, unless it is the destination file and the download got as far
    as opening it: then it holds what arrived (the whole body exactly
    when [True] is returned, otherwise the part that came before the
    download failed), under its old mode.  And every entry that is new is
    a directory with mode 0o755, or the destination file with mode 0o644
    holding what arrived. *)
Theorem fetch_file_frame self path dest w :
  let run := fetch_file self path dest w in
  (forall loc n, fs w !! loc = Some n ->
     fs (snd run) !! loc = Some n \/
     (FS.locate (fs (snd run)) dest = Ok loc /\
      exists d m data,
        n = File d m /\ arrives w (file_url self path) = Some data /\
        fs (snd run) !! loc = Some (File data m) /\
        (fst run = Ok true <-> net_file w (file_url self path) = Some data))) /\
  (forall loc n, fs w !! loc = None -> fs (snd run) !! loc = Some n ->
     n = Dir 493 \/
     (FS.locate (fs (snd run)) dest = Ok loc /\
      exists data,
        n = File data 420 /\ arrives w (file_url self path) = Some data /\
        (fst run = Ok true <-> net_file w (file_url self path) = Some data))).
Proof.
  cbv zeta. rewrite fetch_file_eq. cbv zeta.
  destruct (FS.mkdir true true (PyPath.parent dest) (fs w)) as [f1|e1] eqn:Hm.
  2:{ cbn [snd fs log]. split; [auto | congruence]. }
  apply mkdir_grows in Hm.
  assert (Hold : forall loc n, fs w !! loc = Some n -> f1 !! loc = Some n).
  { intros loc n Hn. destruct Hm as [Hsub _]. eapply lookup_weaken; eassumption. }
  assert (Hfresh : forall loc n, fs w !! loc = None -> f1 !! loc = Some n -> n = Dir 493).
  { intros loc n Hn H1. destruct Hm as [_ Hnew].
    destruct (Hnew _ _ H1) as [H|H]; congruence. }
  assert (W : forall (b : bool) data f2,
    FS.write_file dest data f1 = Ok f2 ->
    arrives w (file_url self path) = Some data ->
    (Ok b = Ok true <-> net_file w (file_url self path) = Some data) ->
    (forall loc n, fs w !! loc = Some n ->
       f2 !! loc = Some n \/
       (FS.locate f2 dest = Ok loc /\
        exists d m data0,
          n = File d m /\ arrives w (file_url self path) = Some data0 /\
          f2 !! loc = Some (File data0 m) /\
          (Ok b = Ok true <-> net_file w (file_url self path) = Some data0))) /\
    (forall loc n, fs w !! loc = None -> f2 !! loc = Some n ->
       n = Dir 493 \/
       (FS.locate f2 dest = Ok loc /\
        exists data0,
          n = File data0 420 /\ arrives w (file_url self path) = Some data0 /\
          (Ok b = Ok true <-> net_file w (file_url self path) = Some data0)))).
  { intros b data f2 Hw Ha Hb.
    destruct (write_after_mkdir_frame _ _ _ _ _ Hm Hw) as [A B]. split.
    - intros loc n H. destruct (A loc n H) as [|(Hl & d & m & -> & Hf)]; [now left|].
      right. split; [exact Hl|]. exists d, m, data. auto.
    - intros loc n H1 H2. destruct (B loc n H1 H2) as [|(Hl & ->)]; [now left|].
      right. split; [exact Hl|]. exists data. auto. }
  destruct (net_file w (file_url self path)) as [body|] eqn:Hn.
  - destruct (FS.write_file dest body f1) as [f2|e2] eqn:Hw.
    2:{ cbn [snd fs log with_fs]. split; [auto | eauto]. }
    cbn [fst snd fs log with_fs]. apply (W true body f2 Hw).
    + unfold arrives. now rewrite Hn.
    + split; reflexivity.
  - destruct (net_cut w (file_url self path)) as [part|] eqn:Hc.
    2:{ cbn [snd fs log with_fs]. split; [auto | eauto]. }
    destruct (FS.write_file dest part f1) as [f2|e2] eqn:Hw.
    2:{ cbn [snd fs log with_fs]. split; [auto | eauto]. }
    cbn [fst snd fs log with_fs]. apply (W false part f2 Hw).
    + unfold arrives. now rewrite Hn.
    + split; discriminate.
Qed.

Lemma fetch_file_frame_witness :
  let run := fetch_file Demo.self "core/x.py" ["proj"; "x.py"] Scenario.cut_download in
  fs (snd run) !! ["proj"; "x.py"] = Some (File "old content" 384) \/
  (FS.locate (fs (snd run)) ["proj"; "x.py"] = Ok ["proj"; "x.py"] /\
   exists d m data,
     File "old content" 384 = File d m /\
     arrives Scenario.cut_download (file_url Demo.self "core/x.py") = Some data /\
     fs (snd run) !! ["proj"; "x.py"] = Some (File data m) /\
     (fst run = Ok true <->
      net_file Scenario.cut_download (file_url Demo.self "core/x.py") = Some data)).
Proof.
  apply (proj1 (fetch_file_frame Demo.self "core/x.py" ["proj"; "x.py"]
                  Scenario.cut_download) ["proj"; "x.py"] (File "old content" 384)).
  reflexivity.
Defined.

(** A download that is cut short: [fetch_file] returns [False], and the
    file that was at the destination has lost its content to the part
    that arrived. *)
Example fetch_file_cut_short :
  let run := fetch_file Demo.self "core/x.py" ["proj"; "x.py"] Scenario.cut_download in
  fst run = Ok false /\
  fs Scenario.cut_download !! ["proj"; "x.py"] = Some (File "old content" 384) /\
  fs (snd run) !! ["proj"; "x.py"] = Some (File "#!/usr/bin" 384).
Proof. vm_compute. repeat split. Qed.

(** ** The modes of the hooks *)

Lemma chmodded_refl f : chmodded f f.
Proof. intros l. destruct (f !! l) as [[d m|m]|]; auto. Qed.

Lemma chmodded_trans f g h : chmodded f g -> chmodded g h -> chmodded f h.
Proof.
  intros H1 H2 l. specialize (H1 l). specialize (H2 l).
  destruct (f !! l) as [[d m|m]|], (g !! l) as [[d1 m1|m1]|],
    (h !! l) as [[d2 m2|m2]|]; try tauto.
  - destruct H1 as (-> & H1). destruct H2 as (-> & H2). split; [reflexivity|].
    destruct H2 as [ -> | -> ]; auto.
  - destruct H2 as [ -> | -> ]; auto.
Qed.

Lemma chmodded_node f f' l :
  chmodded f f' ->
  match FS.node_at f l, FS.node_at f' l with
  | Some (File d m), Some (File d' m') => d' = d /\ (m' = m \/ m' = 493%Z)
  | Some (Dir m), Some (Dir m') => m' = m \/ m' = 493%Z
  | None, None => True
  | _, _ => False
  end.
Proof.
  intros H. unfold FS.node_at. destruct l as [|x l]; [auto|]. apply H.
Qed.

Lemma chmodded_is_dir f f' l : chmodded f f' -> FS.is_dir_at f' l = FS.is_dir_at f l.
Proof.
  intros H. pose proof (chmodded_node f f' l H) as Hn. unfold FS.is_dir_at.
  destruct (FS.node_at f l) as [[|]|], (FS.node_at f' l) as [[|]|]; tauto.
Qed.

Lemma chmodded_exists f f' l : chmodded f f' -> FS.exists_at f' l = FS.exists_at f l.
Proof.
  intros H. pose proof (chmodded_node f f' l H) as Hn. unfold FS.exists_at.
  destruct (FS.node_at f l) as [[|]|], (FS.node_at f' l) as [[|]|]; tauto.
Qed.

Lemma chmodded_locate f f' p : chmodded f f' -> FS.locate f' p = FS.locate f p.
Proof.
  intros H. unfold FS.locate. apply resolve_ext; intros l;
    [now apply chmodded_is_dir | now apply chmodded_exists].
Qed.

Lemma chmodded_mode f f' p :
  chmodded f f' -> mode_at f p = Some 493%Z -> mode_at f' p = Some 493%Z.
Proof.
  intros H. unfold mode_at. rewrite (chmodded_locate _ _ p H).
  destruct (FS.locate f p) as [loc|]; [|auto].
  pose proof (chmodded_node f f' loc H) as Hn.
  destruct (FS.node_at f loc) as [[d m|m]|], (FS.node_at f' loc) as [[d' m'|m']|];
    try tauto; intros [= ->].
  - destruct Hn as (_ & [ -> | -> ]); reflexivity.
  - destruct Hn as [ -> | -> ]; reflexivity.
Qed.

Lemma chmod_chmodded p f f' :
  FS.chmod p 493 f = Ok f' -> chmodded f f' /\ mode_at f' p = Some 493%Z.
Proof.
  intros Hc.
  assert (Hch : chmodded f f').
  { apply chmod_inv in Hc. destruct Hc as [->|(loc & Hne & H)]; [apply chmodded_refl|].
    intros l. destruct H as [(d & m & E & ->)|(m & E & ->)]; rewrite lookup_insert;
      (destruct (decide (loc = l)) as [<-|]; [rewrite E; auto|]);
      destruct (f !! l) as [[? ?|?]|]; auto. }
  split; [exact Hch|].
  unfold mode_at. rewrite (chmodded_locate _ _ p Hch).
  unfold FS.chmod in Hc. destruct (FS.locate f p) as [loc|]; [|discriminate].
  destruct loc as [|x loc]; [reflexivity|].
  unfold FS.node_at in *.
  destruct (f !! (x :: loc)) as [[d m|m]|]; try discriminate;
    injection Hc as <-; now rewrite lookup_insert_eq.
Qed.

Lemma chmod_loop_modes (hooks : list (list string)) : forall w w',
  for_each hooks (fun hook_file => Sys.chmod hook_file 493) w = (Ok tt, w') ->
  chmodded (fs w) (fs w') /\
  forall p, In p hooks -> mode_at (fs w') p = Some 493%Z.
Proof.
  induction hooks as [|h hooks IH]; intros w w'; cbn [for_each].
  - intros [= <-]. split; [apply chmodded_refl | contradiction].
  - rewrite bind_run, chmod_run.
    destruct (FS.chmod h 493 (fs w)) as [f1|] eqn:Hc; [|discriminate].
    intros H. apply IH in H. cbn [fs with_fs log] in H. destruct H as [Hch Hm].
    apply chmod_chmodded in Hc. destruct Hc as [Hc1 Hm1].
    split; [eapply chmodded_trans; eassumption|].
    intros p [<-|Hp]; [|auto]. eapply chmodded_mode; eassumption.
Qed.

Lemma chmodded_keys f f' k :
  chmodded f f' ->
  In k (List.map fst (map_to_list f')) -> In k (List.map fst (map_to_list f)).
Proof.
  intros H. rewrite !in_map_iff. intros ([k' v'] & <- & Hin). cbn [fst].
  apply list_elem_of_In, elem_of_map_to_list in Hin.
  specialize (H k'). rewrite Hin in H.
  destruct (f !! k') as [v|] eqn:E; [|destruct v' as [? ?|?]; contradiction].
  exists (k', v). split; [reflexivity|].
  now apply list_elem_of_In, elem_of_map_to_list.
Qed.

Lemma chmodded_glob f f' dir p :
  chmodded f f' -> In p (FS.glob_py dir f') -> In p (FS.glob_py dir f).
Proof.
  intros H. unfold FS.glob_py. rewrite (chmodded_locate _ _ dir H).
  destruct (FS.locate f dir) as [loc|]; [|auto].
  rewrite (chmodded_is_dir _ _ loc H). destruct (FS.is_dir_at f loc); [|auto].
  rewrite !in_map_iff. intros (k & <- & Hk). exists k. split; [reflexivity|].
  apply filter_In in Hk. apply filter_In. destruct Hk as [Hk Hc].
  split; [eapply chmodded_keys; eassumption | assumption].
Qed.

Lemma glob_without_dir f dir : FS.path_exists f dir = false -> FS.glob_py dir f = [].
Proof.
  unfold FS.path_exists, FS.glob_py. destruct (FS.locate f dir) as [loc|]; [|auto].
  unfold FS.exists_at, FS.is_dir_at. destruct (FS.node_at f loc); [discriminate | auto].
Qed.

Lemma bind_ok {A B} (m : M A) (k : A -> M B) w b w' :
  bind m k w = (Ok b, w') ->
  exists a w1, m w = (Ok a, w1) /\ k a w1 = (Ok b, w').
Proof.
  rewrite bind_run. destruct (m w) as [[a|e] w1]; [eauto | discriminate].
Qed.

(** X13.  After a run of [setup_project] that raised nothing, every
    [*.py] entry of [.claude/hooks] has mode 0o755. *)
Theorem setup_project_hooks_executable title lower self config w w' :
  setup_project title lower self config w = (Ok tt, w') ->
  forall p, In p (FS.glob_py (hooks_dir self) (fs w')) ->
            mode_at (fs w') p = Some 493%Z.
Proof.
  intros H. rewrite setup_project_phases in H.
  apply bind_ok in H as (_ & w0 & _ & H). apply bind_ok in H as (_ & w1 & _ & H).
  apply bind_ok in H as (_ & w2 & _ & H). apply bind_ok in H as (_ & w3 & _ & H).
  apply bind_ok in H as (_ & w4 & _ & H).
  unfold make_hooks_executable, Sys.path_exists, Sys.glob_py in H.
  rewrite bind_run in H.
  destruct (FS.path_exists (fs w4) (hooks_dir self)) eqn:He.
  - rewrite bind_run in H. apply chmod_loop_modes in H. destruct H as [Hch Hm].
    intros p Hp. apply Hm. eapply chmodded_glob; eassumption.
  - injection H as <-. rewrite (glob_without_dir _ _ He). contradiction.
Qed.

Lemma setup_project_hooks_executable_witness :
  let w' := snd (setup_project PyStr.ascii_title PyStr.ascii_lower
                   Demo.self Demo.config Demo.project) in
  In ["proj"; ".claude"; "hooks"; "lint.py"]
     (FS.glob_py (hooks_dir Demo.self) (fs w')) /\
  mode_at (fs w') ["proj"; ".claude"; "hooks"; "lint.py"] = Some 493%Z.
Proof.
  intros w'.
  assert (H : setup_project PyStr.ascii_title PyStr.ascii_lower
                Demo.self Demo.config Demo.project = (Ok tt, w'))
    by (vm_compute; reflexivity).
  assert (Hin : In ["proj"; ".claude"; "hooks"; "lint.py"]
                   (FS.glob_py (hooks_dir Demo.self) (fs w'))).
  { vm_compute. auto 10. }
  split; [exact Hin|].
  exact (setup_project_hooks_executable PyStr.ascii_title PyStr.ascii_lower
           Demo.self Demo.config Demo.project w' H _ Hin).
Defined.

(** ** Staying below the project root *)

Lemma no_dotdot_app a b : no_dotdot (a ++ b) = no_dotdot a && no_dotdot b.
Proof. apply forallb_app. Qed.

Lemma resolve_plain f cs : forall cur loc,
  no_dotdot cs = true -> FS.resolve f cur cs = Ok loc -> loc = cur ++ cs.
Proof.
  induction cs as [|c cs IH]; intros cur loc Hp; cbn [FS.resolve].
  - intros [= <-]. now rewrite app_nil_r.
  - cbn [no_dotdot forallb] in Hp. apply andb_true_iff in Hp as [Hc Hp].
    destruct (FS.is_dir_at f cur); [|discriminate].
    apply negb_true_iff in Hc. rewrite Hc. intros H. apply IH in H; [|exact Hp].
    now rewrite H, <- app_assoc.
Qed.

Lemma locate_plain f p loc :
  no_dotdot p = true -> FS.locate f p = Ok loc -> loc = p.
Proof. intros Hp H. now apply resolve_plain in H. Qed.

Lemma prefix_not_below root l : l `prefix_of` root -> ~ below root l.
Proof.
  intros [k ->] (rest & Hne & H). rewrite <- app_assoc in H.
  rewrite <- (app_nil_r l) in H at 1. apply app_inv_head in H.
  symmetry in H. apply app_eq_nil in H as [_ ->]. contradiction.
Qed.

(** The directories on the way to an existing directory exist. *)
Lemma rooted_prefix root f l :
  no_dotdot root = true -> rooted root f -> l `prefix_of` root -> l <> [] ->
  is_Some (f !! l).
Proof.
  intros Hp [Hl Hd] [k ->] Hne. rewrite no_dotdot_app in Hp.
  apply andb_true_iff in Hp as [Hpl Hpk].
  unfold FS.locate in Hl. rewrite resolve_app in Hl.
  destruct (FS.resolve f [] l) as [c|] eqn:E; [|discriminate].
  apply resolve_plain in E; [|exact Hpl]. cbn [app] in E. subst c.
  assert (Hdir : FS.is_dir_at f l = true).
  { destruct k as [|x k]; [now rewrite app_nil_r in Hd|].
    cbn [FS.resolve] in Hl. destruct (FS.is_dir_at f l); [reflexivity | discriminate]. }
  unfold FS.is_dir_at, FS.node_at in Hdir. destruct l as [|x l]; [contradiction|].
  destruct (f !! (x :: l)); [eauto | discriminate].
Qed.

Lemma resolve_agree f f' cs : forall cur loc,
  (forall l, l `prefix_of` (cur ++ cs) -> FS.is_dir_at f' l = FS.is_dir_at f l) ->
  no_dotdot cs = true ->
  FS.resolve f cur cs = Ok loc -> FS.resolve f' cur cs = Ok loc.
Proof.
  induction cs as [|c cs IH]; intros cur loc Hd Hp; cbn [FS.resolve]; [auto|].
  cbn [no_dotdot forallb] in Hp. apply andb_true_iff in Hp as [Hc Hp].
  rewrite (Hd cur) by (now exists (c :: cs)).
  destruct (FS.is_dir_at f cur); [|discriminate].
  apply negb_true_iff in Hc. rewrite Hc. apply IH; [|exact Hp].
  intros l Hl. apply Hd. now rewrite <- app_assoc in Hl.
Qed.

Lemma outside_same_refl root f : outside_same root f f.
Proof. intros loc _. reflexivity. Qed.

Lemma outside_same_trans root f g h :
  outside_same root f g -> outside_same root g h -> outside_same root f h.
Proof. intros H1 H2 loc Hl. now rewrite H2, H1. Qed.

Lemma rooted_keep root f f' :
  no_dotdot root = true -> rooted root f -> outside_same root f f' -> rooted root f'.
Proof.
  intros Hp [Hl Hd] Ho.
  assert (Hdir : forall l, l `prefix_of` root -> FS.is_dir_at f' l = FS.is_dir_at f l).
  { intros l Hpre. unfold FS.is_dir_at, FS.node_at. destruct l as [|x l]; [reflexivity|].
    now rewrite (Ho (x :: l)) by now apply prefix_not_below. }
  split.
  - unfold FS.locate in *. eapply resolve_agree; [|exact Hp|exact Hl].
    intros l Hpre. now apply Hdir.
  - now rewrite Hdir.
Qed.

Lemma os_mkdir_on_way p f f' :
  no_dotdot p = true -> FS.os_mkdir p f = Ok f' -> only_on_way p f f'.
Proof.
  intros Hp (l0 & Hl & Hne & Hnone & ->)%os_mkdir_inv loc.
  apply locate_plain in Hl; [|exact Hp]. subst l0.
  destruct (decide (p = loc)) as [<-|Hd].
  - right. auto.
  - left. now apply lookup_insert_ne.
Qed.

Lemma mkdir_here_on_way e p f f' :
  no_dotdot p = true -> FS.mkdir_here e p f = Ok f' -> only_on_way p f f'.
Proof.
  intros Hp. unfold FS.mkdir_here. destruct (FS.os_mkdir p f) as [f1|x] eqn:E.
  - intros [= <-]. now apply os_mkdir_on_way.
  - destruct x; try discriminate;
      (destruct (e && FS.path_is_dir f p); [|discriminate]);
      intros [= <-] loc; now left.
Qed.

Lemma mkdir_parents_on_way rp : forall e f f',
  no_dotdot (rev rp) = true ->
  FS.mkdir_parents_rev e rp f = Ok f' -> only_on_way (rev rp) f f'.
Proof.
  induction rp as [|c rp IH]; intros e f f' Hp; cbn [FS.mkdir_parents_rev].
  - destruct (FS.os_mkdir (rev []) f) as [f1|x] eqn:E.
    + intros [= <-]. now apply os_mkdir_on_way.
    + destruct x; try discriminate;
        (destruct (e && FS.path_is_dir f (rev [])); [|discriminate]);
        intros [= <-] loc; now left.
  - destruct (FS.os_mkdir (rev (c :: rp)) f) as [f1|x] eqn:E.
    + intros [= <-]. now apply os_mkdir_on_way.
    + destruct x; try discriminate;
        try ((destruct (e && FS.path_is_dir f (rev (c :: rp))); [|discriminate]);
             intros [= <-] loc; now left).
      destruct (FS.mkdir_parents_rev true rp f) as [f1|] eqn:E1; [|discriminate].
      intros H2.
      assert (Hp' : no_dotdot (rev rp) = true).
      { cbn [rev] in Hp. rewrite no_dotdot_app in Hp.
        now apply andb_true_iff in Hp as [? _]. }
      pose proof (IH _ _ _ Hp' E1) as W1.
      pose proof (mkdir_here_on_way _ _ _ _ Hp H2) as W2.
      pose proof (mkdir_parents_grows _ _ _ _ E1) as [Hsub _].
      intros loc. destruct (W2 loc) as [Heq|(Hn & Hne & Hpre)].
      * rewrite Heq. destruct (W1 loc) as [?|(? & ? & Hpre)]; [now left|].
        right. split; [assumption|]. split; [assumption|].
        cbn [rev]. now apply prefix_app_r.
      * right. split; [|auto].
        destruct (f !! loc) as [n|] eqn:En; [|reflexivity].
        apply (lookup_weaken _ _ _ _ En) in Hsub. congruence.
Qed.

Lemma mkdir_on_way e p f f' :
  no_dotdot p = true -> FS.mkdir true e p f = Ok f' -> only_on_way p f f'.
Proof.
  intros Hp H. unfold FS.mkdir in H. rewrite <- (rev_involutive p).
  apply (mkdir_parents_on_way (rev p) e); [now rewrite rev_involutive | exact H].
Qed.

Lemma on_way_outside root p f f' :
  no_dotdot root = true -> rooted root f -> root `prefix_of` p ->
  only_on_way p f f' -> outside_same root f f'.
Proof.
  intros Hp Hr Hpre W loc Hout. destruct (W loc) as [?|(Hn & Hne & Hl)]; [assumption|].
  exfalso. destruct (prefix_weak_total _ _ _ Hl Hpre) as [H|[k ->]].
  - destruct (rooted_prefix root f loc Hp Hr H Hne) as [n Hs]. congruence.
  - apply Hout. exists k. split; [|reflexivity]. intros ->.
    rewrite app_nil_r in *.
    destruct (rooted_prefix root f root Hp Hr) as [n Hs]; [reflexivity|assumption|].
    congruence.
Qed.

Lemma removelast_prefix {A} (l : list A) : removelast l `prefix_of` l.
Proof.
  destruct l as [|x l] using rev_ind; [reflexivity|].
  rewrite removelast_last. now exists [x].
Qed.

Lemma no_dotdot_prefix l p : l `prefix_of` p -> no_dotdot p = true -> no_dotdot l = true.
Proof.
  intros [k ->]. rewrite no_dotdot_app. intros H. now apply andb_true_iff in H as [? _].
Qed.

(** [fetch_file] to a destination below an existing root directory, by a
    path without [..], changes nothing outside that directory. *)
Lemma fetch_file_inside root self path rest w :
  no_dotdot root = true -> no_dotdot rest = true ->
  inside root w (snd (fetch_file self path (root ++ rest) w)).
Proof.
  intros Hp Hq Hr. set (dest := root ++ rest).
  assert (Hpd : no_dotdot dest = true).
  { unfold dest. rewrite no_dotdot_app, Hp, Hq. reflexivity. }
  rewrite fetch_file_eq. cbv zeta.
  destruct (FS.mkdir true true (PyPath.parent dest) (fs w)) as [f1|e1] eqn:Hm.
  2:{ cbn [snd fs log]. split; [assumption | apply outside_same_refl]. }
  assert (O1 : outside_same root (fs w) f1).
  { destruct rest as [|x rest'] using rev_ind.
    - (* the destination is the root itself: its parent is above it *)
      unfold dest in Hm. rewrite app_nil_r in Hm.
      apply (mkdir_on_way true) in Hm;
        [|eapply no_dotdot_prefix; [apply removelast_prefix | exact Hp]].
      intros loc Hout. destruct (Hm loc) as [?|(Hn & Hne & Hl)]; [assumption|].
      exfalso.
      destruct (rooted_prefix root (fs w) loc Hp Hr) as [n Hs];
        [etrans; [exact Hl | apply removelast_prefix] | assumption | congruence].
    - apply (on_way_outside root (PyPath.parent dest)); [assumption | assumption | |].
      + unfold PyPath.parent, dest. rewrite app_assoc, removelast_last.
        now exists rest'.
      + apply (mkdir_on_way true); [|exact Hm].
        eapply no_dotdot_prefix; [apply removelast_prefix | exact Hpd]. }
  assert (R1 : rooted root f1) by (eapply rooted_keep; eassumption).
  assert (W : forall data f2,
    FS.write_file dest data f1 = Ok f2 ->
    rooted root f2 /\ outside_same root (fs w) f2).
  { intros data f2 Hw.
    assert (O2 : outside_same root f1 f2).
    { apply write_file_inv in Hw. destruct Hw as (l0 & m & Hl & Hne & Hd & ->).
      apply locate_plain in Hl; [|exact Hpd]. subst l0.
      intros loc Hout. apply lookup_insert_ne. intros <-. apply Hout.
      exists rest. split; [|reflexivity]. intros ->. unfold dest in Hd.
      rewrite app_nil_r in Hd. destruct R1 as [_ R1]. congruence. }
    split; [eapply rooted_keep; eassumption | eapply outside_same_trans; eassumption]. }
  destruct (net_file w (file_url self path)) as [body|].
  - destruct (FS.write_file dest body f1) as [f2|e2] eqn:Hw; cbn [snd fs log with_fs];
      [eapply W; eassumption | auto].
  - destruct (net_cut w (file_url self path)) as [part|]; [|cbn [snd fs log with_fs]; auto].
    destruct (FS.write_file dest part f1) as [f2|e2] eqn:Hw; cbn [snd fs log with_fs];
      [eapply W; eassumption | auto].
Qed.

Lemma inside_refl root w : inside root w w.
Proof. intros H. split; [assumption | apply outside_same_refl]. Qed.

Lemma inside_trans root w1 w2 w3 :
  inside root w1 w2 -> inside root w2 w3 -> inside root w1 w3.
Proof.
  intros H1 H2 Hr. destruct (H1 Hr) as [R2 O1]. destruct (H2 R2) as [R3 O2].
  split; [assumption | eapply outside_same_trans; eassumption].
Qed.

Lemma joined_plain root dest_dir file_name :
  plain dest_dir = true -> plain file_name = true ->
  root </> dest_dir </> file_name
  = root ++ (PyPath.parts dest_dir ++ PyPath.parts file_name) /\
  no_dotdot (PyPath.parts dest_dir ++ PyPath.parts file_name) = true.
Proof.
  unfold plain. intros [Hd1 Hd2]%andb_true_iff [Hf1 Hf2]%andb_true_iff.
  apply negb_true_iff in Hd1, Hf1. unfold PyPath.joinpath. rewrite Hd1, Hf1.
  split; [now rewrite app_assoc|]. rewrite no_dotdot_app, Hd2, Hf2. reflexivity.
Qed.

Lemma apply_file_inside self domain dest_dir file_name :
  no_dotdot (project_root self) = true ->
  plain dest_dir = true -> plain file_name = true ->
  respects (inside (project_root self))
    (apply_file self domain dest_dir (JStr file_name)).
Proof.
  intros Hp Hd Hf w r w'. cbn [apply_file].
  destruct (joined_plain (project_root self) dest_dir file_name Hd Hf) as [-> Hq].
  rewrite bind_run.
  pose proof (fetch_file_inside (project_root self) self
                (PyStr.replace "//" "/"
                   ("domains/" +:+ domain +:+ "/" +:+ dest_dir +:+ "/" +:+ file_name))
                (PyPath.parts dest_dir ++ PyPath.parts file_name) w Hp Hq) as Hin.
  destruct (fetch_file self _ _ w) as [[b|e] w1]; intros [= <- <-]; exact Hin.
Qed.

(** X14.  In a file system without symbolic links (the file system of
    this development has none: a path names the place its components
    spell out), a manifest of the documented format whose directory
    names and file names are relative and free of [..] keeps
    [apply_domain] inside the project: when the project root is an
    existing directory, every entry of the file system that is not
    strictly below the root is afterwards as it was. *)
Theorem apply_domain_stays_below_root self domain config members files w :
  no_dotdot (project_root self) = true ->
  FS.path_is_dir (fs w) (project_root self) = true ->
  net_json w (manifest_url self domain) = Some (JObj members) ->
  Json.assoc "files" members = Some (files_json files) ->
  Forall (fun e => plain (fst e) = true /\ Forall (fun s => plain s = true) (snd e))
         files ->
  let w' := snd (apply_domain self domain config w) in
  forall loc, ~ below (project_root self) loc -> fs w' !! loc = fs w !! loc.
Proof.
  intros Hp Hdir Hn Hf Hall. cbv zeta.
  assert (Hr : rooted (project_root self) (fs w)).
  { apply path_is_dir_inv in Hdir as (l & Hl & Hd).
    pose proof (locate_plain _ _ _ Hp Hl) as ->. split; assumption. }
  rewrite apply_domain_eq, bind_run, fetch_domain_manifest_eq, Hn.
  cbn [default from_option id].
  assert (Ht : Json.truthy (JObj members) = true).
  { destruct members; [discriminate | reflexivity]. }
  rewrite Ht. cbn [negb]. unfold lift_outcome at 1. rewrite bind_run.
  cbn [Json.get]. rewrite Hf. unfold lift_outcome at 1. rewrite bind_run.
  unfold files_json. cbn [Json.items].
  set (w0 := log w (EUrlopen (manifest_url self domain))).
  assert (Hloop : respects (inside (project_root self))
            (for_each (List.map (fun e => (fst e, JArr (List.map JStr (snd e)))) files)
                      (entry_body self domain))).
  { apply respects_for_each; [apply inside_refl | apply inside_trans |].
    intros [dd j] Hin. apply in_map_iff in Hin as ([d names] & [= <- <-] & Hin).
    rewrite List.Forall_forall in Hall. destruct (Hall _ Hin) as [Hd Hnames].
    cbn [fst snd] in *. intros w1 r1 w1' H1.
    change (entry_body self domain (d, JArr (List.map JStr names)) w1)
      with (for_each (List.map JStr names) (apply_file self domain d) w1) in H1.
    revert w1 r1 w1' H1.
    apply respects_for_each; [apply inside_refl | apply inside_trans |].
    intros j Hj. apply in_map_iff in Hj as (s & <- & Hs).
    rewrite List.Forall_forall in Hnames. apply apply_file_inside; auto. }
  rewrite bind_run.
  destruct (for_each _ (entry_body self domain) w0) as [[[]|e] w1] eqn:H1;
    apply Hloop in H1; destruct (H1 Hr) as [_ Ho]; exact Ho.
Qed.

Lemma apply_domain_stays_below_root_witness :
  let w' := snd (apply_domain Demo.self "python" Demo.config Scenario.neighbours) in
  fs w' !! ["etc"; "passwd"] = fs Scenario.neighbours !! ["etc"; "passwd"].
Proof.
  apply (apply_domain_stays_below_root Demo.self "python" Demo.config
           [("files", files_json Demo.python_manifest)] Demo.python_manifest
           Scenario.neighbours); try reflexivity.
  - repeat constructor.
  - intros (rest & _ & H). discriminate H.
Defined.

(** That run, computed: the three listed files are now below the
    project root, and the file beside it holds what it held. *)
Example apply_domain_beside_a_neighbour :
  let w' := snd (apply_domain Demo.self "python" Demo.config Scenario.neighbours) in
  fs w' !! ["proj"; ".claude"; "hooks"; "lint.py"] = Some (File "body" 420) /\
  fs w' !! ["proj"; ".claude"; "hooks"; "notes.txt"] = Some (File "body" 420) /\
  fs w' !! ["proj"; "Makefile"] = Some (File "body" 420) /\
  fs w' !! ["etc"; "passwd"] = Some (File "root:x:0:0" 420).
Proof. vm_compute. repeat split. Qed.

(** Without that condition the files may land anywhere: a directory name
    that starts with [..] leads out of the project. *)
Example apply_domain_can_leave_root :
  let w := Scenario.serving (JObj [("files", files_json [("../outside", ["x"])])]) in
  let w' := snd (apply_domain Demo.self "git" Demo.config w) in
  fs w !! ["outside"; "x"] = None /\
  fs w' !! ["outside"; "x"] = Some (File "body" 420).
Proof. vm_compute. split; reflexivity. Qed.

(** ** The interactive dialogue *)

Lemma reads_reads a r1 b r2 w : reads a r1 (reads b r2 w) = reads (b + a) r1 w.
Proof. unfold reads. cbn. now rewrite repeat_app, app_assoc. Qed.

Lemma input_reads w line rest :
  stdin w = line :: rest -> Sys.input w = (Ok line, reads 1 rest w).
Proof. intros H. rewrite input_run, H. reflexivity. Qed.

Lemma input_eof w : stdin w = [] -> Sys.input w = (Raise EOFError, reads 1 [] w).
Proof.
  intros H. rewrite input_run, H. unfold reads, log. cbn. now rewrite <- H.
Qed.

Lemma select_step py_int l pending w line rest :
  stdin w = line :: rest ->
  select_project_type py_int (l :: pending) w
  = match type_choice py_int line with
    | Some ty => (Ok ty, reads 1 rest w)
    | None => select_project_type py_int pending (reads 1 rest w)
    end.
Proof.
  intros H. cbn [select_project_type]. rewrite bind_run, (input_reads _ _ _ H).
  unfold type_choice. destruct (py_int (PyStr.or_else line "1")) as [c|]; [|reflexivity].
  destruct ((1 <=? c)%Z && (c <=? Z.of_nat (List.length project_types))%Z); reflexivity.
Qed.

Lemma type_choice_listed py_int line ty :
  type_choice py_int line = Some ty -> In ty project_types.
Proof.
  unfold type_choice. destruct (py_int _) as [c|]; [|discriminate].
  destruct ((1 <=? c)%Z && (c <=? Z.of_nat (List.length project_types))%Z) eqn:E;
    [|discriminate].
  intros [= <-]. apply andb_true_iff in E as [H1 H2].
  apply Z.leb_le in H1, H2.
  apply (@nth_In _ (Z.to_nat (c - 1)) project_types ""). cbn [List.length] in *. lia.
Qed.

(** The type loop, forwards: rejected answers are skipped. *)
Lemma select_run py_int rejected : forall pending w good rest ty,
  pending = stdin w ->
  stdin w = rejected ++ good :: rest ->
  Forall (fun l => type_choice py_int l = None) rejected ->
  type_choice py_int good = Some ty ->
  select_project_type py_int pending w = (Ok ty, reads (S (length rejected)) rest w).
Proof.
  induction rejected as [|x rejected IH]; intros pending w good rest ty -> Hs Hr Hg.
  - rewrite Hs at 1. cbn [app]. rewrite (select_step _ _ _ _ _ _ Hs), Hg. reflexivity.
  - rewrite Hs at 1. cbn [app]. rewrite (select_step _ _ _ _ _ _ Hs).
    inversion Hr as [|? ? Hx Hr']; subst. rewrite Hx.
    rewrite (IH _ (reads 1 (rejected ++ good :: rest) w) good rest ty);
      [|reflexivity|reflexivity|assumption|assumption].
    now rewrite reads_reads.
Qed.

(** The type loop, backwards. *)
Lemma select_inv py_int : forall pending w r w',
  pending = stdin w ->
  select_project_type py_int pending w = (r, w') ->
  exists used,
    stdin w = used ++ stdin w' /\
    ((exists ty, r = Ok ty /\ In ty project_types /\ used <> [] /\
                 w' = reads (length used) (stdin w') w) \/
     (r = Raise EOFError /\ stdin w' = [] /\ w' = reads (S (length used)) [] w)).
Proof.
  induction pending as [|l pending IH]; intros w r w' Hp.
  - cbn [select_project_type]. rewrite bind_run, (input_eof w (eq_sym Hp)).
    intros [= <- <-]. exists []. split; [now rewrite <- Hp|]. right. auto.
  - symmetry in Hp. rewrite (select_step _ _ _ _ _ _ Hp).
    destruct (type_choice py_int l) as [ty|] eqn:E.
    + intros [= <- <-]. exists [l]. split; [exact Hp|]. left. exists ty.
      split; [reflexivity|]. split; [eapply type_choice_listed; eassumption|].
      split; [discriminate | reflexivity].
    + intros H. apply IH in H; [|reflexivity].
      destruct H as (used & Hs & Hcase). cbn [stdin reads] in Hs.
      exists (l :: used). split; [rewrite Hp, Hs; reflexivity|].
      destruct Hcase as [(ty & -> & Hin & _ & ->)|(-> & He & ->)].
      * left. exists ty. split; [reflexivity|]. split; [assumption|].
        split; [discriminate|]. now rewrite reads_reads.
      * right. split; [reflexivity|]. split; [assumption|]. now rewrite reads_reads.
Qed.

Lemma ask_step lower d rest_c selected w line rest :
  stdin w = line :: rest ->
  ask_domains lower (d :: rest_c) selected w
  = ask_domains lower rest_c
      (if says_yes lower line then selected ++ [d] else selected) (reads 1 rest w).
Proof.
  intros H. cbn [ask_domains]. rewrite bind_run, (input_reads _ _ _ H).
  unfold says_yes.
  destruct (PyStr.eqb (lower (PyStr.strip line)) "y"
            || PyStr.eqb (lower (PyStr.strip line)) "yes"); reflexivity.
Qed.

(** The domain loop, forwards. *)
Lemma ask_run lower candidates : forall selected w answers rest,
  stdin w = answers ++ rest -> length answers = length candidates ->
  ask_domains lower candidates selected w
  = (Ok (selected ++ accepted lower candidates answers),
     reads (length answers) rest w).
Proof.
  induction candidates as [|d candidates IH]; intros selected w answers rest Hs Hl.
  - destruct answers; [|discriminate]. cbn [ask_domains accepted length app] in *.
    unfold ret, reads. rewrite app_nil_r. cbn [repeat]. rewrite app_nil_r.
    rewrite <- Hs. now destruct w.
  - destruct answers as [|a answers]; [discriminate|]. cbn [app length] in *.
    rewrite (ask_step _ _ _ _ _ _ _ Hs).
    rewrite (IH _ (reads 1 (answers ++ rest) w) answers rest); [|reflexivity|lia].
    rewrite reads_reads. cbn [accepted].
    destruct (says_yes lower a); [rewrite <- app_assoc|]; reflexivity.
Qed.

(** The domain loop, backwards. *)
Lemma ask_inv lower candidates : forall selected w r w',
  ask_domains lower candidates selected w = (r, w') ->
  exists used,
    stdin w = used ++ stdin w' /\
    ((r = Ok (selected ++ accepted lower candidates used) /\
      length used = length candidates /\ w' = reads (length used) (stdin w') w) \/
     (r = Raise EOFError /\ stdin w' = [] /\ w' = reads (S (length used)) [] w)).
Proof.
  induction candidates as [|d candidates IH]; intros selected w r w'.
  - cbn [ask_domains]. intros [= <- <-]. exists []. split; [reflexivity|]. left.
    cbn [accepted length]. rewrite app_nil_r. split; [reflexivity|].
    split; [reflexivity|]. unfold reads. cbn [repeat]. rewrite app_nil_r.
    now destruct w.
  - destruct (stdin w) as [|line rest] eqn:Hs.
    + cbn [ask_domains]. rewrite bind_run, (input_eof w Hs). intros [= <- <-].
      exists []. split; [reflexivity|]. right. auto.
    + rewrite (ask_step _ _ _ _ _ _ _ Hs). intros H. apply IH in H.
      destruct H as (used & Hu & Hcase). cbn [stdin reads] in Hu.
      exists (line :: used). split; [now rewrite Hu|].
      destruct Hcase as [(-> & Hl & ->)|(-> & He & ->)].
      * left. cbn [accepted length]. split; [|split; [lia | now rewrite reads_reads]].
        destruct (says_yes lower line); [rewrite <- app_assoc|]; reflexivity.
      * right. split; [reflexivity|]. split; [assumption|]. now rewrite reads_reads.
Qed.

Lemma accepted_sublist lower candidates : forall answers,
  sublist (accepted lower candidates answers) candidates.
Proof.
  induction candidates as [|d candidates IH]; intros answers; cbn [accepted].
  - constructor.
  - destruct answers as [|a answers]; [apply sublist_nil_l|].
    destruct (says_yes lower a); [apply sublist_skip | apply sublist_cons]; apply IH.
Qed.

(** X15.  [interactive_setup], forwards.  When standard input holds the
    answer to the name prompt, any number of answers the type prompt
    rejects followed by one it accepts, one answer per optional domain
    and the description, the function returns: the name is the stripped
    answer, or the name of the working directory when that is empty; the
    type is what the first accepted answer selects; the domains are [git]
    followed by the optional domains answered with y or yes, in their
    listed order; the description is the stripped last answer.  One prompt
    is made per line read, the lines after the description stay unread,
    and nothing else changes. *)
Theorem interactive_setup_run lower py_int self w
        name_line rejected good answers desc rest ty :
  stdin w = name_line :: rejected ++ good :: answers ++ desc :: rest ->
  Forall (fun l => type_choice py_int l = None) rejected ->
  type_choice py_int good = Some ty ->
  length answers = length (tl (available_domains self)) ->
  interactive_setup lower py_int self w
  = (Ok (mkConfig
           (PyStr.or_else (PyStr.strip name_line) (PyPath.name (project_root self)))
           ty
           ("git" :: accepted lower (tl (available_domains self)) answers)
           (Some (PyStr.strip desc))),
     reads (3 + length rejected + length answers) rest w).
Proof.
  intros Hs Hr Hg Hl. unfold interactive_setup.
  rewrite bind_run, (input_reads _ _ _ Hs). rewrite bind_run.
  rewrite (select_run py_int rejected _ _ good (answers ++ desc :: rest) ty);
    [|reflexivity|reflexivity|assumption|assumption].
  rewrite reads_reads, bind_run.
  rewrite (ask_run lower _ _ _ answers (desc :: rest)); [|reflexivity|assumption].
  rewrite reads_reads, bind_run.
  rewrite (input_reads _ desc rest); [|reflexivity].
  rewrite reads_reads. unfold ret. do 2 f_equal. lia.
Qed.

Lemma interactive_setup_run_witness :
  interactive_setup PyStr.ascii_lower PyStr.ascii_int Demo.self Demo.prompt_project
  = (Ok (mkConfig "shop" "Data Pipeline" ["git"; "python"; "docker"]
                  (Some "an online shop")),
     reads 8 [] Demo.prompt_project).
Proof.
  apply (interactive_setup_run PyStr.ascii_lower PyStr.ascii_int Demo.self
           Demo.prompt_project "shop" ["9"] "2" ["y"; "n"; "YES"; "no"]
           "an online shop" [] "Data Pipeline").
  - reflexivity.
  - repeat constructor.
  - reflexivity.
  - reflexivity.
Defined.

Lemma interactive_setup_inv lower py_int self w r w' :
  interactive_setup lower py_int self w = (r, w') ->
  exists used,
    stdin w = used ++ stdin w' /\
    ((exists cfg chosen,
        r = Ok cfg /\ In (ptype cfg) project_types /\
        domains cfg = "git" :: chosen /\
        sublist chosen (tl (available_domains self)) /\
        3 + length (tl (available_domains self)) <= length used /\
        w' = reads (length used) (stdin w') w) \/
     (r = Raise EOFError /\ stdin w' = [] /\ w' = reads (S (length used)) [] w)).
Proof.
  unfold interactive_setup. rewrite bind_run.
  destruct (stdin w) as [|line0 rest0] eqn:Hs.
  { rewrite (input_eof w Hs). intros [= <- <-]. exists []. split; [reflexivity|].
    right. auto. }
  rewrite (input_reads _ _ _ Hs), bind_run.
  set (w1 := reads 1 rest0 w).
  destruct (select_project_type py_int (stdin w1) w1) as [r2 w2] eqn:H2.
  apply select_inv in H2; [|reflexivity]. destruct H2 as (u2 & Hu2 & C2).
  cbn [stdin reads w1] in Hu2.
  destruct C2 as [(ty & -> & Hty & Hne & E2)|(-> & He & E2)].
  2:{ intros [= <- <-]. exists (line0 :: u2). split; [now rewrite Hu2|].
      right. split; [reflexivity|]. split; [assumption|].
      rewrite E2. unfold w1. now rewrite reads_reads. }
  rewrite bind_run.
  destruct (ask_domains lower (tl (available_domains self)) ["git"] w2) as [r3 w3] eqn:H3.
  apply ask_inv in H3. destruct H3 as (u3 & Hu3 & C3).
  destruct C3 as [(-> & Hl3 & E3)|(-> & He & E3)].
  2:{ intros [= <- <-]. exists (line0 :: u2 ++ u3).
      split; [cbn [app]; rewrite Hu2, Hu3, app_assoc; reflexivity|].
      right. split; [reflexivity|]. split; [assumption|].
      rewrite E3, E2. unfold w1. rewrite !reads_reads. f_equal.
      cbn [length]. rewrite length_app. lia. }
  rewrite bind_run.
  destruct (stdin w3) as [|desc rest3] eqn:Hs3.
  { rewrite (input_eof w3 Hs3). intros [= <- <-]. exists (line0 :: u2 ++ u3).
    split; [cbn [app stdin reads]; rewrite Hu2, Hu3, !app_nil_r; reflexivity|].
    right. split; [reflexivity|]. split; [reflexivity|].
    rewrite E3, E2. unfold w1. rewrite !reads_reads. f_equal.
    cbn [length]. rewrite length_app. lia. }
  rewrite (input_reads _ _ _ Hs3). intros [= <- <-].
  exists (line0 :: u2 ++ u3 ++ [desc]).
  split; [cbn [app stdin reads]; rewrite Hu2, Hu3, <- !app_assoc; reflexivity|].
  left. eexists _, _. split; [reflexivity|]. cbn [ptype domains].
  split; [assumption|]. split; [reflexivity|].
  split; [apply accepted_sublist|].
  assert (Hlen : 1 <= length u2) by (destruct u2; [contradiction | cbn; lia]).
  cbn [length stdin reads]. rewrite !length_app. cbn [length].
  split; [lia|].
  rewrite E3, E2. unfold w1. rewrite !reads_reads. reflexivity.
Qed.

(** X16.  Whatever is typed, a configuration returned by
    [interactive_setup] has a type from the offered list, and its domains
    are [git] followed by optional domains in the order in which
    [available_domains] lists them, none of them twice unless listed
    twice. *)
Theorem interactive_setup_well_formed lower py_int self w :
  forall cfg, fst (interactive_setup lower py_int self w) = Ok cfg ->
  In (ptype cfg) project_types /\
  exists chosen, domains cfg = "git" :: chosen /\
                 sublist chosen (tl (available_domains self)).
Proof.
  intros cfg H.
  destruct (interactive_setup lower py_int self w) as [r w'] eqn:E. cbn [fst] in H.
  apply interactive_setup_inv in E. destruct E as (used & _ & C). subst r.
  destruct C as [(cfg' & chosen & [= <-] & Hty & Hd & Hs & _)|(H & _)];
    [eauto | discriminate].
Qed.

Lemma interactive_setup_well_formed_witness :
  In "Data Pipeline" project_types /\
  exists chosen, ["git"; "python"; "docker"] = "git" :: chosen /\
                 sublist chosen ["python"; "aws"; "docker"; "database"].
Proof.
  apply (interactive_setup_well_formed PyStr.ascii_lower PyStr.ascii_int Demo.self
           Demo.prompt_project
           (mkConfig "shop" "Data Pipeline" ["git"; "python"; "docker"]
                     (Some "an online shop"))).
  vm_compute. reflexivity.
Defined.

(** X17.  [interactive_setup] touches nothing but standard input: it reads
    a prefix of it, at least three lines more than there are optional
    domains when it returns, makes one prompt per line read, and leaves
    the file system, the remote side and the working directory alone.  And
    the only exception that leaves it is [EOFError], raised by the prompt
    that finds standard input at its end: a wrong answer to the type
    prompt never raises. *)
Theorem interactive_setup_reads_stdin lower py_int self w :
  let run := interactive_setup lower py_int self w in
  exists used,
    stdin w = used ++ stdin (snd run) /\
    ((exists cfg, fst run = Ok cfg /\
                  3 + length (tl (available_domains self)) <= length used /\
                  snd run = reads (length used) (stdin (snd run)) w) \/
     (fst run = Raise EOFError /\ stdin (snd run) = [] /\
      snd run = reads (S (length used)) [] w)).
Proof.
  cbv zeta. destruct (interactive_setup lower py_int self w) as [r w'] eqn:E.
  apply interactive_setup_inv in E. destruct E as (used & Hs & C).
  exists used. split; [exact Hs|]. cbn [fst snd].
  destruct C as [(cfg & chosen & -> & _ & _ & _ & Hl & Hw)|C]; [left; eauto | right; auto].
Qed.

(** ** The dialogue and the set-up together *)

(** X18.  A dialogue that is cut short leaves no half-made project.  When
    [main] takes the interactive branch and standard input holds fewer
    than the seven lines the dialogue needs at least (name, type, four
    optional domains, description), [main] raises [EOFError] after
    reading every line and prompting once more, if the working directory
    exists; if it does not, [Path.cwd()] raises [FileNotFoundError]
    before anything is asked.  Either way the file system is as it was,
    and no download and no write was attempted. *)
Theorem main_dialogue_cut_short title lower py_int args w :
  arg_interactive args || negb (given (arg_name args) && given (arg_domains args))
    = true ->
  length (stdin w) < 7 ->
  main title lower py_int args w
  = if FS.path_is_dir (fs w) (cwd w)
    then (Raise EOFError, reads (S (length (stdin w))) [] w)
    else (Raise FileNotFoundError, w).
Proof.
  intros Hb Hlen. unfold main, init. rewrite bind_run.
  destruct (FS.path_is_dir (fs w) (cwd w)); [|reflexivity].
  rewrite bind_run. unfold main_config. rewrite Hb.
  destruct (interactive_setup lower py_int _ w) as [r w'] eqn:E.
  apply interactive_setup_inv in E. destruct E as (used & Hs & C).
  cbn [available_domains tl length] in C.
  destruct C as [(cfg & chosen & _ & _ & _ & _ & Hl & _)|(-> & He & ->)].
  - apply (f_equal (@length string)) in Hs. rewrite length_app in Hs. lia.
  - cbn [stdin reads] in Hs. rewrite app_nil_r in Hs. now rewrite Hs.
Qed.

Lemma main_dialogue_cut_short_witness :
  main PyStr.ascii_title PyStr.ascii_lower PyStr.ascii_int
       Dialogue.interactive_args Dialogue.cut_short
  = (Raise EOFError, reads 4 [] Dialogue.cut_short) /\
  main PyStr.ascii_title PyStr.ascii_lower PyStr.ascii_int
       Dialogue.interactive_args Dialogue.without_cwd
  = (Raise FileNotFoundError, Dialogue.without_cwd).
Proof.
  split.
  - apply (main_dialogue_cut_short PyStr.ascii_title PyStr.ascii_lower PyStr.ascii_int
             Dialogue.interactive_args Dialogue.cut_short).
    + reflexivity.
    + cbn. lia.
  - apply (main_dialogue_cut_short PyStr.ascii_title PyStr.ascii_lower PyStr.ascii_int
             Dialogue.interactive_args Dialogue.without_cwd).
    + reflexivity.
    + cbn. lia.
Defined.

(** * The run of [setup_project], step by step *)

(** ** The files a manifest lists *)

(** C7.  For a manifest whose [files] member maps directories to arrays
    of file names, [apply_domain] returns [True] after asking for the
    manifest and going once through [fetch_file] for every listed file,
    in order, with the URL [base_url/] followed by
    [domains/{domain}/{dest_dir}/{file_name}] passed through
    [replace('//', '/')], and with the destination
    [project_root / dest_dir / file_name].  Each pass asks for the parent
    directory of the destination and, when that could be made, downloads
    from that URL into a file at the destination: [steps_events] relates
    the file system before the passes to the one after them, so that a
    body that arrives is what the destination holds when the pass is
    over.  And [fetch_file] reports success exactly when the directory
    could be made, the whole body arrived and the destination could be
    written; the destination then holds the body. *)
Theorem apply_domain_fetches_listed self domain config members files w :
  net_json w (manifest_url self domain) = Some (JObj members) ->
  Json.assoc "files" members = Some (files_json files) ->
  (exists w' evs,
     apply_domain self domain config w = (Ok true, w') /\
     trace w' = trace w ++ EUrlopen (manifest_url self domain) :: evs /\
     steps_events (arrives w)
       (List.concat (List.map (fun e =>
          List.map (fun file_name =>
            Fetch (base_url self +:+ "/" +:+
                   PyStr.replace "//" "/"
                     ("domains/" +:+ domain +:+ "/" +:+ fst e +:+ "/" +:+ file_name))
                  (project_root self </> fst e </> file_name))
            (snd e)) files))
       (fs w) evs (fs w')) /\
  (forall path dest w0,
     let run := fetch_file self path dest w0 in
     (fst run = Ok true <->
      exists f1 body f2,
        FS.mkdir true true (PyPath.parent dest) (fs w0) = Ok f1 /\
        net_file w0 (base_url self +:+ "/" +:+ path) = Some body /\
        FS.write_file dest body f1 = Ok f2) /\
     (fst run = Ok true ->
      exists body, net_file w0 (base_url self +:+ "/" +:+ path) = Some body /\
                   FS.read_file dest (fs (snd run)) = Ok body)).
Proof.
  intros Hn Hf. split.
  - destruct (apply_domain_run self domain config w) as (r & w' & evs & H & _ & T & P).
    rewrite Hn in P. destruct (manifest_listing_documented _ _ Hf) as [Hl Ht].
    rewrite Hl, Ht in P. destruct P as [-> S]. exists w', evs. auto.
  - intros path dest w0. cbv zeta. split; [apply fetch_file_true_iff|].
    destruct (fetch_file self path dest w0) as [r w1] eqn:E. cbn [fst snd].
    intros ->. exact (fetch_file_true _ _ _ _ _ E).
Qed.

Lemma apply_domain_fetches_listed_witness :
  exists w' evs,
    apply_domain Demo.self "python" Demo.config Demo.project = (Ok true, w') /\
    trace w' = trace Demo.project ++ EUrlopen (manifest_url Demo.self "python") :: evs /\
    steps_events (arrives Demo.project)
                 (listed_plan Demo.self "python" Demo.python_manifest)
                 (fs Demo.project) evs (fs w').
Proof.
  apply (proj1 (apply_domain_fetches_listed Demo.self "python" Demo.config
                  [("files", files_json Demo.python_manifest)]
                  Demo.python_manifest Demo.project eq_refl eq_refl)).
Defined.

(** The same run, computed: the three listed files are gone through in
    the order of the manifest; [lint.py] is served and is at its
    destination afterwards, the other two downloads fail and leave
    nothing. *)
Example apply_domain_python_run :
  let w' := snd (apply_domain Demo.self "python" Demo.config Demo.project) in
  trace w'
  = [ EUrlopen (default_base_url +:+ "/domains/python/manifest.json");
      EMkdir ["proj"; ".claude"; "hooks"] true;
      EUrlretrieve (default_base_url +:+ "/domains/python/.claude/hooks/lint.py")
                   ["proj"; ".claude"; "hooks"; "lint.py"];
      EMkdir ["proj"; ".claude"; "hooks"] true;
      EUrlretrieve (default_base_url +:+ "/domains/python/.claude/hooks/notes.txt")
                   ["proj"; ".claude"; "hooks"; "notes.txt"];
      EMkdir ["proj"] true;
      EUrlretrieve (default_base_url +:+ "/domains/python/Makefile")
                   ["proj"; "Makefile"] ] /\
  FS.read_file ["proj"; ".claude"; "hooks"; "lint.py"] (fs w')
  = Ok "#!/usr/bin/env python3" /\
  FS.path_exists (fs w') ["proj"; ".claude"; "hooks"; "notes.txt"] = false /\
  FS.path_exists (fs w') ["proj"; "Makefile"] = false.
Proof. vm_compute. repeat split. Qed.

(** ** The order of the phases *)

Lemma make_hooks_executable_modes self w4 w' :
  make_hooks_executable self w4 = (Ok tt, w') ->
  chmodded (fs w4) (fs w') /\
  forall p, In p (hook_files self (fs w4)) -> mode_at (fs w') p = Some 493%Z.
Proof.
  unfold make_hooks_executable, hook_files, Sys.path_exists, Sys.glob_py.
  rewrite bind_run. destruct (FS.path_exists (fs w4) (hooks_dir self)).
  - rewrite bind_run. apply chmod_loop_modes.
  - intros [= <-]. split; [apply chmodded_refl | contradiction].
Qed.

(** C5.  A run of [setup_project] that raises nothing went through these
    phases, in this order, each starting in the file system the one
    before left: (a) the marker directory [.claude] is made; (b) the four
    core files are fetched, each from [base_url/core/...] to the same
    path below the project root without the leading [core/]; (c) for
    each requested domain in order, its manifest is asked for and the
    files it lists are fetched; (d) CLAUDE.md is written with the
    rendered document, then [.gitignore] is brought up to date (written
    unless it holds the marker already); (e) [chmod 0o755] is called on
    the [*.py] entries of [.claude/hooks] as they are after (d), after
    which each of them has mode 0o755 and nothing but modes has changed.
    The trace of the run is the trace of these phases and nothing else. *)
Theorem setup_project_order title lower self config w w' :
  setup_project title lower self config w = (Ok tt, w') ->
  exists f0 t_core f1 t_dom f2 f3 t_git f4,
    FS.mkdir false true (project_root self ++ [".claude"]) (fs w) = Ok f0 /\
    steps_events (arrives w)
      [ Fetch (base_url self +:+ "/core/.claude/settings.json")
              (project_root self ++ [".claude"; "settings.json"]);
        Fetch (base_url self +:+ "/core/.claude/hooks/pre-tool-use-safety.py")
              (project_root self ++ [".claude"; "hooks"; "pre-tool-use-safety.py"]);
        Fetch (base_url self +:+ "/core/.claude/hooks/project-boundary.py")
              (project_root self ++ [".claude"; "hooks"; "project-boundary.py"]);
        Fetch (base_url self +:+ "/core/.claude/commands/help.md")
              (project_root self ++ [".claude"; "commands"; "help.md"]) ]
      f0 t_core f1 /\
    steps_events (arrives w) (domains_plan self (net_json w) (domains config))
                 f1 t_dom f2 /\
    FS.write_file (project_root self ++ ["CLAUDE.md"])
                  (claude_md_text title lower config) f2 = Ok f3 /\
    gitignore_step (project_root self ++ [".gitignore"]) f3 t_git f4 /\
    trace w' = trace w ++ [EMkdir (project_root self ++ [".claude"]) false]
               ++ t_core ++ t_dom
               ++ [EWriteText (project_root self ++ ["CLAUDE.md"])
                              (claude_md_text title lower config)]
               ++ t_git
               ++ List.map (fun p => EChmod p 493) (hook_files self f4) /\
    chmodded f4 (fs w') /\
    (forall p, In p (hook_files self f4) -> mode_at (fs w') p = Some 493%Z).
Proof.
  intros H. apply setup_project_inv in H.
  destruct H as (f0 & t1 & f1 & t2 & f2 & f3 & t4 & w4
                 & Hmk & S1 & S2 & Hw & G & T4 & Hh & T5 & _).
  apply make_hooks_executable_modes in Hh. destruct Hh as [Hch Hm].
  exists f0, t1, f1, t2, f2, f3, t4, (fs w4). rewrite core_plan_explicit in S1.
  split; [exact Hmk|]. split; [exact S1|]. split; [exact S2|]. split; [exact Hw|].
  split; [exact G|]. split; [|split; assumption].
  rewrite T5, T4. now rewrite <- !app_assoc.
Qed.

Lemma setup_project_order_witness :
  let run := setup_project PyStr.ascii_title PyStr.ascii_lower
               Demo.self Demo.config Demo.project in
  run = (Ok tt, snd run) /\
  exists f0 t_core f1 t_dom f2 f3 t_git f4,
    FS.mkdir false true ["proj"; ".claude"] (fs Demo.project) = Ok f0 /\
    steps_events (arrives Demo.project) (core_plan Demo.self) f0 t_core f1 /\
    steps_events (arrives Demo.project)
      (domains_plan Demo.self (net_json Demo.project) (domains Demo.config))
      f1 t_dom f2 /\
    FS.write_file ["proj"; "CLAUDE.md"]
      (claude_md_text PyStr.ascii_title PyStr.ascii_lower Demo.config) f2 = Ok f3 /\
    gitignore_step ["proj"; ".gitignore"] f3 t_git f4 /\
    trace (snd run)
    = trace Demo.project ++ [EMkdir ["proj"; ".claude"] false]
      ++ t_core ++ t_dom
      ++ [EWriteText ["proj"; "CLAUDE.md"]
            (claude_md_text PyStr.ascii_title PyStr.ascii_lower Demo.config)]
      ++ t_git
      ++ List.map (fun p => EChmod p 493) (hook_files Demo.self f4) /\
    chmodded f4 (fs (snd run)) /\
    (forall p, In p (hook_files Demo.self f4) -> mode_at (fs (snd run)) p = Some 493%Z).
Proof.
  intros run.
  assert (H : run = (Ok tt, snd run)) by (vm_compute; reflexivity).
  split; [exact H|].
  exact (setup_project_order PyStr.ascii_title PyStr.ascii_lower
           Demo.self Demo.config Demo.project (snd run) H).
Defined.

(** The calls of that run from the writing of CLAUDE.md on: [.gitignore]
    is written next, and the three hooks that arrived are made executable
    last. *)
Example setup_project_demo_tail :
  let w' := snd (setup_project PyStr.ascii_title PyStr.ascii_lower
                   Demo.self Demo.config Demo.project) in
  exists before chmods,
    trace w'
    = before
      ++ [ EWriteText ["proj"; "CLAUDE.md"]
             (claude_md_text PyStr.ascii_title PyStr.ascii_lower Demo.config);
           EWriteText ["proj"; ".gitignore"] gitignore_content ]
      ++ chmods /\
    List.length before = 17 /\ List.length chmods = 3 /\
    forall p, In p [ ["proj"; ".claude"; "hooks"; "lint.py"];
                     ["proj"; ".claude"; "hooks"; "pre-tool-use-safety.py"];
                     ["proj"; ".claude"; "hooks"; "project-boundary.py"] ] ->
              In (EChmod p 493) chmods.
Proof.
  eexists (firstn 17 (trace (snd (setup_project PyStr.ascii_title PyStr.ascii_lower
                                    Demo.self Demo.config Demo.project)))),
          (skipn 19 (trace (snd (setup_project PyStr.ascii_title PyStr.ascii_lower
                                   Demo.self Demo.config Demo.project)))).
  vm_compute. split; [reflexivity|]. split; [reflexivity|]. split; [reflexivity|].
  intros p [<-|[<-|[<-|[]]]]; auto.
Qed.

(** ** Downloads that fail *)

















(** In that world most downloads fail: the settings file, the help
    page, two of the three files of the [python] domain, and the
    manifest of [git].  The run ends without an exception all the same,
    and the two files it writes itself are there. *)
Example setup_project_demo_failures :
  let run := setup_project PyStr.ascii_title PyStr.ascii_lower
               Demo.self Demo.config Demo.project in
  fst run = Ok tt /\
  FS.path_exists (fs (snd run)) ["proj"; ".claude"; "settings.json"] = false /\
  FS.path_exists (fs (snd run)) ["proj"; ".claude"; "commands"; "help.md"] = false /\
  FS.path_is_dir (fs (snd run)) ["proj"; ".claude"; "commands"] = true /\
  FS.path_exists (fs (snd run)) ["proj"; ".claude"; "hooks"; "lint.py"] = true /\
  FS.read_file ["proj"; "CLAUDE.md"] (fs (snd run))
  = Ok (claude_md_text PyStr.ascii_title PyStr.ascii_lower Demo.config) /\
  FS.read_file ["proj"; ".gitignore"] (fs (snd run)) = Ok gitignore_content.
Proof. vm_compute. repeat split. Qed.

(** The one thing that stops the run after the fetches: here a manifest
    lists a file below a directory called [CLAUDE.md], so that directory
    is made, and the document cannot be written in its place. *)
Example setup_project_directory_in_the_way :
  let w := Scenario.serving (JObj [("files", files_json [("CLAUDE.md", ["x"])])]) in
  let run := setup_project PyStr.ascii_title PyStr.ascii_lower
               Demo.self (mkConfig "demo" "Custom" ["git"] None) w in
  fst run = Raise IsADirectoryError /\
  FS.path_is_dir (fs (snd run)) ["proj"; "CLAUDE.md"] = true.
Proof. vm_compute. split; reflexivity. Qed.

(** ** The document read back *)





(** The line break of the counterexample, now through the file: the
    document is written, and what is read back lists [git] and [a]. *)
Example reparse_breaks_through_the_file :
  let run := create_claude_md PyStr.ascii_title PyStr.ascii_lower
               Demo.self Demo.broken_config Demo.project in
  fst run = Ok tt /\
  exists doc,
    FS.read_text ["proj"; "CLAUDE.md"] (fs (snd run)) = Ok doc /\
    Reparse.domains_of doc = Some ["git"; "a"].
Proof. split; [vm_compute; reflexivity|]. eexists. split; vm_compute; reflexivity. Qed.

(** A carriage return in a domain name does no harm to the rendered
    text, but the file read back has a line feed in its place, and the
    Domains line ends there. *)
Example reparse_breaks_on_carriage_return :
  let config := mkConfig "demo" "Custom" ["git"; "a" +:+ String PyStr.CR "b"] None in
  let run := create_claude_md PyStr.ascii_title PyStr.ascii_lower
               Demo.self config Demo.project in
  fst run = Ok tt /\
  Reparse.domains_of (claude_md_text PyStr.ascii_title PyStr.ascii_lower config)
  = Some (domains config) /\
  exists doc,
    FS.read_text ["proj"; "CLAUDE.md"] (fs (snd run)) = Ok doc /\
    Reparse.domains_of doc = Some ["git"; "a"].
Proof.
  split; [vm_compute; reflexivity|]. split; [vm_compute; reflexivity|].
  eexists. split; vm_compute; reflexivity.
Qed.
